(** * AMFbot media generation: job coordinator, generation backends and
      model download manager

    A shallow embedding of the Python modules under [src/modules/media-gen]:

    - [api/server.py]        ([Module Server]): the in-memory job table, the
      submission endpoints, the background work items and the read endpoints;
    - [image/flux_wrapper.py] ([Module Flux]): the image backend;
    - [video/ltx_wrapper.py]  ([Module LTX]): the video backend;
    - [downloader.py]         ([Module Downloader]): the model catalog and the
      download manager.

    Python values that the code stores in dictionaries are kept dynamically
    typed ([Py.val]); exceptions are values of [Py.exn]; code that mutates
    state and may raise runs in the monad [Py.M], in which the state reached
    before a [raise] is kept, as in Python.  A [str] is the sequence of its
    code points, each below 256.  A [float] that the code computes with is a
    binary64 value ([SpecFloat]), with its infinities and NaN and with
    rounding to nearest, ties to even.  The file system is a finite map
    from [pathlib] paths to nodes.  Everything outside the repository (the
    diffusion pipelines, [snapshot_download], [torch]) is an interface whose
    implementation is a parameter. *)

From Stdlib Require Import ZArith QArith Lia Ascii String SpecFloat.
From stdpp Require Import base option list gmap strings pretty relations.

Local Open Scope string_scope.
Local Open Scope Z_scope.
Local Open Scope list_scope.

(* ===================================================================== *)
(** * Python values, exceptions and the state-and-exception monad         *)
(* ===================================================================== *)

Module Py.

(** The exceptions the modelled code raises or lets through.  [Error]
    stands for any failure inside a library the repository calls
    (inference, image encoding, network); they all derive from
    [Exception]. *)
Inductive exn : Type :=
| ValueError (msg : string)
| KeyError (key : string)
| IndexError (msg : string)
| TypeError (msg : string)
| OSError (msg : string)
| ZeroDivisionError (msg : string)
| OverflowError (msg : string)
| RuntimeError (msg : string)
| HTTPException (status_code : Z) (detail : string)
| Error (msg : string).

Inductive result (A : Type) : Type :=
| Ok (a : A)
| Raise (e : exn).
Global Arguments Ok {A} a.
Global Arguments Raise {A} e.

(** A computation over a mutable state [S]: the final state and either a
    value or the exception that escaped. *)
Definition M (S A : Type) : Type := S → S * result A.

Definition ret {S A} (a : A) : M S A := λ s, (s, Ok a).
Definition raise {S A} (e : exn) : M S A := λ s, (s, Raise e).
Definition bind {S A B} (m : M S A) (k : A → M S B) : M S B :=
  λ s, match m s with
       | (s', Ok a) => k a s'
       | (s', Raise e) => (s', Raise e)
       end.
Definition get {S} : M S S := λ s, (s, Ok s).
Definition modify {S} (f : S → S) : M S unit := λ s, (f s, Ok tt).
Definition lift {S A} (r : result A) : M S A := λ s, (s, r).

(** [try: body except Exception as e: handler e] *)
Definition try_except {S A} (body : M S A) (handler : exn → M S A) : M S A :=
  λ s, match body s with
       | (s', Ok a) => (s', Ok a)
       | (s', Raise e) => handler e s'
       end.

(** [try: body finally: fin] *)
Definition try_finally {S A} (body : M S A) (fin : M S unit) : M S A :=
  λ s, match body s with
       | (s', r) =>
           match fin s' with
           | (s'', Ok _) => (s'', r)
           | (s'', Raise e) => (s'', Raise e)
           end
       end.

(** Values held in the job dictionaries: a [str] or a [list] of [str]. *)
Inductive val : Type :=
| Str (s : string)
| List (l : list string).

Global Instance val_eq_dec : EqDecision val.
Proof. solve_decision. Defined.

(** [repr] of a string, after CPython's [unicode_repr]: the string stands
    between single quotes, or between double quotes when it holds a single
    quote and no double quote; the quote in use and the backslash are
    escaped with a backslash; tab, newline and carriage return are written
    as a backslash and [t], [n] or [r]; every other code point that is not
    printable (below 32, from 127 to 160, and 173) is written as a
    backslash, [x] and two hexadecimal digits. *)
Definition hex_digit (n : N) : ascii :=
  match n with
  | 0 => "0" | 1 => "1" | 2 => "2" | 3 => "3" | 4 => "4" | 5 => "5" | 6 => "6"
  | 7 => "7" | 8 => "8" | 9 => "9" | 10 => "a" | 11 => "b" | 12 => "c"
  | 13 => "d" | 14 => "e" | _ => "f"
  end%N%char.

Definition isprintable (c : ascii) : bool :=
  let n := N_of_ascii c in
  ((32 <=? n) && (n <? 127) || (161 <=? n) && negb (n =? 173))%N.

Definition backslash : ascii := "092"%char.
Definition single_quote : ascii := "039"%char.
Definition double_quote : ascii := "034"%char.

Fixpoint contains (c : ascii) (s : string) : bool :=
  match s with
  | EmptyString => false
  | String a s' => if decide (a = c) then true else contains c s'
  end.

Definition repr_char (quote : ascii) (c : ascii) : string :=
  if decide (c = quote) then String backslash (String c "")
  else if decide (c = backslash) then String backslash (String c "")
  else if decide (c = "009"%char) then String backslash "t"
  else if decide (c = "010"%char) then String backslash "n"
  else if decide (c = "013"%char) then String backslash "r"
  else if isprintable c then String c ""
  else
    let n := N_of_ascii c in
    String backslash
      (String "x" (String (hex_digit (n / 16)) (String (hex_digit (n mod 16)) ""))).

Fixpoint repr_chars (quote : ascii) (s : string) : string :=
  match s with
  | EmptyString => EmptyString
  | String c s' => repr_char quote c +:+ repr_chars quote s'
  end.

Definition repr_str (s : string) : string :=
  let quote :=
    if contains single_quote s && negb (contains double_quote s)
    then double_quote else single_quote in
  String quote (repr_chars quote s) +:+ String quote "".

Fixpoint join (sep : string) (l : list string) : string :=
  match l with
  | [] => ""
  | [x] => x
  | x :: rest => x +:+ sep +:+ join sep rest
  end.

Definition repr_list (l : list string) : string :=
  "[" +:+ join ", " (repr_str <$> l) +:+ "]".

(** [str(v)], as an f-string formats a value. *)
Definition str (v : val) : string :=
  match v with
  | Str s => s
  | List l => repr_list l
  end.

(** [str(e)] for an exception: the message; [KeyError] shows the [repr] of
    its key and Starlette's [HTTPException] shows code and detail. *)
Definition str_exn (e : exn) : string :=
  match e with
  | ValueError m | IndexError m | TypeError m | OSError m
  | ZeroDivisionError m | OverflowError m | RuntimeError m | Error m => m
  | KeyError k => repr_str k
  | HTTPException c d => pretty c +:+ ": " +:+ d
  end.

(** [d[k]] on a dictionary. *)
Definition getitem {V} (d : gmap string V) (k : string) : result V :=
  match d !! k with
  | Some v => Ok v
  | None => Raise (KeyError k)
  end.

(** [x or default] for an optional string: [None] and [""] are falsy. *)
Definition str_or (x : option string) (default : string) : string :=
  match x with
  | Some s => if decide (s = "") then default else s
  | None => default
  end.

(** [min(a, b)] and [max(a, b)]: the first argument is kept unless the
    second is strictly smaller (resp. larger). *)
Definition min (a b : Z) : Z := if b <? a then b else a.
Definition max (a b : Z) : Z := if a <? b then b else a.

(** ** Floats

    A [float] is a binary64 value. *)
Abbreviation float := spec_float.
Definition prec : Z := 53.
Definition emax : Z := 1024.

Global Instance float_eq_dec : EqDecision spec_float.
Proof. solve_decision. Defined.

(** [0.0] and [nan]. *)
Definition fzero : float := S754_zero false.
Definition nan : float := S754_nan.

(** The quotient of two integers other than 0, rounded to the nearest
    float, ties to even; an infinity when that is out of range. *)
Definition round_div (a b : Z) : float :=
  let '(mz, ez, lz) := SFdiv_core_binary prec emax (Z.abs a) 0 (Z.abs b) 0 in
  binary_round_aux prec emax (xorb (a <? 0) (b <? 0)) mz ez lz.

(** The float a decimal literal denotes, the literal given as a fraction:
    [fl (7 # 2)] is [3.5]. *)
Definition fl (q : Q) : float :=
  if Qnum q =? 0 then fzero else round_div (Qnum q) (Zpos (Qden q)).

(** [a < b] and [a <= b] on floats: false when either is NaN. *)
Definition flt (a b : float) : bool := SFltb a b.
Definition fle (a b : float) : bool := SFleb a b.

(** [max(a, b)] on floats: [a] is kept unless [b > a], so a NaN in the
    first place stays. *)
Definition fmax (a b : float) : float := if flt a b then b else a.

(** [x * y] on floats; it never raises. *)
Definition fmul (x y : float) : float := SFmul prec emax x y.

(** [a / b] on integers, after CPython's [long_true_divide]: the quotient
    rounded to the nearest float; a zero dividend gives a zero with the sign
    of the divisor; a quotient too large for a float is an
    [OverflowError]. *)
Definition truediv (a b : Z) : result float :=
  if b =? 0 then Raise (ZeroDivisionError "division by zero")
  else if a =? 0 then Ok (S754_zero (b <? 0))
  else
    match round_div a b with
    | S754_infinity _ =>
        Raise (OverflowError "integer division result too large for a float")
    | q => Ok q
    end.

(** The catalog sizes are floats whose products and sums the code forms are
    exact; they are kept as the rationals they denote.  [int(x)] on such a
    float: truncation towards zero. *)
Definition int (x : Q) : Z := Z.quot (Qnum x) (Zpos (Qden x)).

End Py.

Notation "'let*' x ':=' m 'in' k" := (Py.bind m (λ x, k))
  (at level 10, x pattern, m at level 100, k at level 200).

(* ===================================================================== *)
(** * Paths and the file system                                           *)
(* ===================================================================== *)

Module Posix.

(** A [pathlib.Path] is its sequence of parts; [a / b] appends. *)
Definition Path : Type := list string.

Inductive node : Type :=
| Dir
| File (content : string).

Global Instance node_eq_dec : EqDecision node.
Proof. solve_decision. Defined.

Abbreviation FS := (gmap (list string) node).

(** [p.exists()] *)
Definition path_exists (fs : FS) (p : Path) : bool :=
  bool_decide (is_Some (fs !! p)).

(** [str(p)]: the parts joined by [/]; a leading root part [/] is not
    followed by a second separator, and the empty path prints as [.]. *)
Definition str_of_Path (p : Path) : string :=
  match p with
  | [] => "."
  | "/" :: rest => "/" +:+ Py.join "/" rest
  | _ => Py.join "/" p
  end.

(** Splitting a string at a separator character. *)
Fixpoint split_go (sep : ascii) (cur : string) (s : string) : list string :=
  match s with
  | EmptyString => [String.rev cur]
  | String c s' =>
      if decide (c = sep) then String.rev cur :: split_go sep "" s'
      else split_go sep (String c cur) s'
  end.
Definition split (sep : ascii) (s : string) : list string := split_go sep "" s.

(** [Path(s)]: empty and [.] parts are dropped, a leading [/] is the root. *)
Definition Path_of_str (s : string) : Path :=
  let parts := filter (λ x, x ≠ "" ∧ x ≠ ".") (split "/" s) in
  match s with
  | String "/" _ => "/" :: parts
  | _ => parts
  end.

(** [p / s] for a string [s]: an absolute [s] replaces [p]. *)
Definition joinpath (p : Path) (s : string) : Path :=
  match s with
  | String "/" _ => Path_of_str s
  | _ => p ++ Path_of_str s
  end.

(** [p.name]: the last part. *)
Definition name (p : Path) : string := List.last p "".

(** [s.rfind(c)]: the highest index of [c] in [s], or [-1]. *)
Fixpoint rfind_go (c : ascii) (s : string) (i : Z) (found : Z) : Z :=
  match s with
  | EmptyString => found
  | String a s' => rfind_go c s' (i + 1) (if decide (a = c) then i else found)
  end.
Definition rfind (c : ascii) (s : string) : Z := rfind_go c s 0 (-1).

Fixpoint take (n : nat) (s : string) : string :=
  match n, s with
  | S n', String a s' => String a (take n' s')
  | _, _ => ""
  end.
Fixpoint drop (n : nat) (s : string) : string :=
  match n, s with
  | S n', String a s' => drop n' s'
  | _, _ => s
  end.

(** [p.suffix]: the part of the name from its last dot on, unless that dot
    starts or ends the name. *)
Definition suffix (p : Path) : string :=
  let nm := name p in
  let i := rfind "." nm in
  if (0 <? i) && (i <? Z.of_nat (String.length nm) - 1)
  then drop (Z.to_nat i) nm else "".

(** [os.path.splitext(p)], after CPython's [genericpath._splitext]: the
    extension starts at the last dot of the last component, provided some
    character other than a dot precedes it there. *)
Fixpoint splitext_scan (p : string) (filenameIndex : nat) (n : nat) : bool :=
  match n with
  | O => false
  | S n' =>
      match String.get filenameIndex p with
      | Some "."%char | None => splitext_scan p (S filenameIndex) n'
      | Some _ => true
      end
  end.
Definition splitext (p : string) : string * string :=
  let sepIndex := rfind "/" p in
  let dotIndex := rfind "." p in
  if (sepIndex <? dotIndex) &&
     splitext_scan p (Z.to_nat (sepIndex + 1)) (Z.to_nat (dotIndex - (sepIndex + 1)))
  then (take (Z.to_nat dotIndex) p, drop (Z.to_nat dotIndex) p)
  else (p, "").

(** The ancestors of a path, outermost first, and the path itself. *)
Definition ancestors_and_self (p : Path) : list Path :=
  (λ n, List.firstn n p) <$> seq 1 (length p).

Definition parent (p : Path) : Path := List.removelast p.

Definition is_file (fs : FS) (p : Path) : bool :=
  match fs !! p with
  | Some (File _) => true
  | _ => false
  end.

(** [p.mkdir(parents=True, exist_ok=True)]: fails when [p] or one of its
    ancestors exists and is not a directory. *)
Definition mkdir_parents (p : Path) : Py.M FS unit :=
  λ fs,
    if existsb (is_file fs) (ancestors_and_self p)
    then (fs, Py.Raise (Py.OSError "File exists"))
    else (foldr (λ a acc, <[a := Dir]> acc) fs (ancestors_and_self p), Py.Ok tt).

(** The current directory and the root always exist. *)
Definition is_dir (fs : FS) (p : Path) : bool :=
  match p with
  | [] | ["/"] => true
  | _ => bool_decide (fs !! p = Some Dir)
  end.

(** [p.write_text(content)]: needs the parent directory, and [p] must not
    be a directory. *)
Definition write_text (p : Path) (content : string) : Py.M FS unit :=
  λ fs,
    if is_dir fs (parent p) then
      match fs !! p with
      | Some Dir => (fs, Py.Raise (Py.OSError "Is a directory"))
      | _ => (<[p := File content]> fs, Py.Ok tt)
      end
    else (fs, Py.Raise (Py.OSError "No such file or directory")).

(** [shutil.rmtree(d)]: removes [d] and everything below it; fails when [d]
    is not a directory. *)
Definition rmtree (d : Path) : Py.M FS unit :=
  λ fs,
    match fs !! d with
    | Some Dir => (filter (λ kv, ¬ d `prefix_of` kv.1) fs, Py.Ok tt)
    | _ => (fs, Py.Raise (Py.OSError "Not a directory"))
    end.

End Posix.

(* ===================================================================== *)
(** * The part of [torch] the wrappers query                              *)
(* ===================================================================== *)

Module Torch.

Inductive dtype : Type := bfloat16 | float16 | float32.

Global Instance dtype_eq_dec : EqDecision dtype.
Proof. solve_decision. Defined.

(** [torch.Generator.manual_seed(seed)] takes the seeds from [-2^63] to
    [2^64 - 1] and raises for every other one. *)
Definition seed_in_range (seed : Z) : bool :=
  (- 2 ^ 63 <=? seed) && (seed <=? 2 ^ 64 - 1).

(** What the running machine answers to the device queries. *)
Record env : Type := {
  cuda_is_available : bool;
  mps_is_available : bool;
  cuda_is_bf16_supported : bool
}.

End Torch.

(* ===================================================================== *)
(** * image/flux_wrapper.py                                               *)
(* ===================================================================== *)

Module Flux.
Import Posix.

(** A dictionary literal, in insertion order. *)
Definition FLUX_MODELS : list (string * string) :=
  [ ("schnell", "black-forest-labs/FLUX.1-schnell");
    ("dev", "black-forest-labs/FLUX.1-dev") ].
Definition DEFAULT_MODEL : string := "schnell".

Fixpoint dict_get (d : list (string * string)) (k : string) : option string :=
  match d with
  | [] => None
  | (k', v) :: rest => if decide (k' = k) then Some v else dict_get rest k
  end.
Definition keys (d : list (string * string)) : list string := fst <$> d.

Record ImageGenerationConfig : Type := {
  prompt : string;
  negative_prompt : string;
  width : Z;
  height : Z;
  num_inference_steps : Z;
  guidance_scale : Py.float;
  seed : option Z;
  output_path : option string;
  num_images : Z
}.

Record FluxWrapper : Type := {
  model_variant : string;
  model_id : string;
  device : string;
  dtype : Torch.dtype;
  enable_cpu_offload : bool
}.

Global Instance FluxWrapper_eq_dec : EqDecision FluxWrapper.
Proof. solve_decision. Defined.

(** The keyword arguments of the call [pipeline(...)]; the generator is
    identified by the seed it was made from. *)
Record PipelineCall : Type := {
  call_prompt : string;
  call_width : Z;
  call_height : Z;
  call_num_inference_steps : Z;
  call_guidance_scale : Py.float;
  call_generator : option Z;
  call_num_images_per_prompt : Z
}.

(** A [PIL] image is identified by the bytes it is saved as. *)
Definition Image : Type := string.

(** The libraries.  [load_pipeline] is [_load_pipeline()]: the cached
    pipeline reference [_pipeline] only avoids a second load and is not part
    of the wrapper record here, so [unload] has nothing to reset.
    [new_generator] is [torch.Generator(device=...)], [call_pipeline] the
    call of the loaded pipeline, returning [output.images], and [image_save]
    is [image.save(path)]. *)
Class Backend : Type := {
  load_pipeline : FluxWrapper → Py.result unit;
  new_generator : string → Py.result unit;
  call_pipeline : FluxWrapper → PipelineCall → Py.result (list Image);
  image_save : Image → string → Py.M FS unit
}.

(** [torch.Generator(device=device).manual_seed(seed)], when there is a
    seed. *)
Definition manual_seed `{Backend} (device : string) (seed : option Z)
  : Py.result unit :=
  match seed with
  | None => Py.Ok tt
  | Some seed =>
      match new_generator device with
      | Py.Raise e => Py.Raise e
      | Py.Ok _ =>
          if Torch.seed_in_range seed then Py.Ok tt
          else Py.Raise (Py.RuntimeError "Overflow when unpacking long")
      end
  end.

(** The three steps [generate_image] takes with the libraries, up to
    [output.images], as one outcome: it loads the pipeline, makes the
    generator and calls the pipeline. *)
Definition pipeline `{Backend} (self : FluxWrapper) (call : PipelineCall)
  : Py.result (list Image) :=
  match load_pipeline self with
  | Py.Raise e => Py.Raise e
  | Py.Ok _ =>
      match manual_seed (device self) (call_generator call) with
      | Py.Raise e => Py.Raise e
      | Py.Ok _ => call_pipeline self call
      end
  end.

Section Init.
Context (torch : Torch.env).

Definition _detect_device : string :=
  if Torch.cuda_is_available torch then "cuda"
  else if Torch.mps_is_available torch then "mps"
  else "cpu".

Definition _get_optimal_dtype (device : string) : Torch.dtype :=
  if decide (device = "cuda") then
    if Torch.cuda_is_bf16_supported torch then Torch.bfloat16 else Torch.float16
  else if decide (device = "mps") then Torch.float16
  else Torch.float32.

Definition __init__ (model_variant : string) (device : option string)
    (dtype : option Torch.dtype) (enable_model_cpu_offload : bool)
  : Py.result FluxWrapper :=
  match dict_get FLUX_MODELS model_variant with
  | None =>
      Py.Raise (Py.ValueError
        ("Unknown model variant: " +:+ model_variant +:+
         ". Choose from: " +:+ Py.repr_list (keys FLUX_MODELS)))
  | Some id =>
      let device := Py.str_or device _detect_device in
      Py.Ok {| model_variant := model_variant;
               model_id := id;
               device := device;
               dtype := default (_get_optimal_dtype device) dtype;
               enable_cpu_offload := enable_model_cpu_offload |}
  end.
End Init.

(** [config.seed or 'random'] inside an f-string. *)
Definition seed_or_random (seed : option Z) : string :=
  match seed with
  | Some z => if decide (z = 0) then "random" else pretty z
  | None => "random"
  end.

(** The variant policy and the arguments handed to the pipeline. *)
Definition pipeline_call (self : FluxWrapper) (config : ImageGenerationConfig)
  : PipelineCall :=
  let generator := seed config in
  let num_steps := num_inference_steps config in
  let guidance := guidance_scale config in
  let '(num_steps, guidance) :=
    if decide (model_variant self = "schnell") then
      (Py.min num_steps 4, Py.fzero)
    else if decide (model_variant self = "dev") then
      (Py.max num_steps 20, Py.fmax guidance (Py.fl (7 # 2)))
    else (num_steps, guidance) in
  {| call_prompt := prompt config;
     call_width := width config;
     call_height := height config;
     call_num_inference_steps := num_steps;
     call_guidance_scale := guidance;
     call_generator := generator;
     call_num_images_per_prompt := num_images config |}.

(** The file name of the [i]-th image. *)
Definition image_path (config : ImageGenerationConfig) (i : nat) : string :=
  if decide (num_images config = 1) then
    Py.str_or (output_path config)
      ("output_" +:+ seed_or_random (seed config) +:+ ".png")
  else
    let base := Py.str_or (output_path config)
                  ("output_" +:+ seed_or_random (seed config)) in
    let '(name, ext) := splitext base in
    name +:+ "_" +:+ pretty i +:+ (if decide (ext = "") then ".png" else ext).

(** The name the specification gives the [i]-th of several images: the
    base path with [_i] inserted before its extension, and nothing else. *)
Definition spec_image_path (base : string) (i : nat) : string :=
  let '(name, ext) := splitext base in
  name +:+ "_" +:+ pretty i +:+ ext.

Section Generate.
Context `{Backend}.

(** [for i, image in enumerate(output.images): ...], from index [i] on. *)
Fixpoint save_images (config : ImageGenerationConfig) (images : list Image)
    (i : nat) (output_paths : list string) : Py.M FS (list string) :=
  match images with
  | [] => Py.ret output_paths
  | image :: rest =>
      let path := image_path config i in
      let* _ := image_save image path in
      save_images config rest (S i) (output_paths ++ [path])
  end.

(** The case in which [image.save] writes every file it is asked to
    write. *)
Definition saves_succeed : Prop :=
  ∀ image path fs, (image_save image path fs).2 = Py.Ok tt.

Definition generate_image (self : FluxWrapper) (config : ImageGenerationConfig)
  : Py.M FS Py.val :=
  let* _ := Py.lift (load_pipeline self) in
  let* _ := Py.lift (manual_seed (device self) (seed config)) in
  let* images := Py.lift (call_pipeline self (pipeline_call self config)) in
  let* output_paths := save_images config images 0 [] in
  if decide (num_images config = 1) then
    match output_paths with
    | p :: _ => Py.ret (Py.Str p)
    | [] => Py.raise (Py.IndexError "list index out of range")
    end
  else Py.ret (Py.List output_paths).
End Generate.

(** ** The rest of the wrapper *)

(** [huggingface_hub.snapshot_download(repo_id, local_dir, ignore_patterns)],
    as this module imports it. *)
Class Hub : Type := {
  snapshot_download : string → Path → list string → Py.M FS unit
}.

Section EnsureDownloaded.
Context (MODELS_DIR : Path) `{Hub}.

Definition ensure_model_downloaded (self : FluxWrapper) : Py.M FS Path :=
  let models_dir := joinpath MODELS_DIR (model_variant self) in
  let* fs := Py.get in
  if negb (path_exists fs models_dir) then
    let* _ := snapshot_download (model_id self) models_dir ["*.md"; "*.txt"] in
    Py.ret models_dir
  else Py.ret models_dir.
End EnsureDownloaded.

(** The keyword arguments [generate_variations] hands on to
    [ImageGenerationConfig]: the fields it does not set itself. *)
Record Options : Type := {
  opt_negative_prompt : option string;
  opt_width : option Z;
  opt_height : option Z;
  opt_num_inference_steps : option Z;
  opt_guidance_scale : option Py.float;
  opt_num_images : option Z
}.

(** [ImageGenerationConfig(prompt=..., seed=..., output_path=..., **kwargs)],
    with the defaults of the dataclass. *)
Definition make_config (prompt : string) (seed : option Z) (output_path : option string)
    (kwargs : Options) : ImageGenerationConfig :=
  {| prompt := prompt;
     negative_prompt := default "" (opt_negative_prompt kwargs);
     width := default 1024 (opt_width kwargs);
     height := default 1024 (opt_height kwargs);
     num_inference_steps := default 4 (opt_num_inference_steps kwargs);
     guidance_scale := default Py.fzero (opt_guidance_scale kwargs);
     seed := seed;
     output_path := output_path;
     num_images := default 1 (opt_num_images kwargs) |}.

Section Variations.
Context `{Backend}.

(** [for i in range(num_variations): ...], from index [i] on, [n] rounds. *)
Fixpoint generate_variations_from (self : FluxWrapper) (prompt : string) (base_seed : Z)
    (kwargs : Options) (i : nat) (n : nat) (output_paths : list Py.val)
  : Py.M FS (list Py.val) :=
  match n with
  | O => Py.ret output_paths
  | S n' =>
      let config :=
        make_config prompt (Some (base_seed + Z.of_nat i))
          (Some ("variation_" +:+ pretty i +:+ ".png")) kwargs in
      let* path := generate_image self config in
      generate_variations_from self prompt base_seed kwargs (S i) n' (output_paths ++ [path])
  end.

Definition generate_variations (self : FluxWrapper) (prompt : string)
    (num_variations : Z) (base_seed : Z) (kwargs : Options) : Py.M FS (list Py.val) :=
  generate_variations_from self prompt base_seed kwargs 0 (Z.to_nat num_variations) [].
End Variations.

(** The function [generate_image] of the module, beside the method of the
    same name. *)
Module Quick.
Section Quick.
Context (torch : Torch.env) `{Backend}.

Definition generate_image (prompt : string) (output_path : string) (width height : Z)
    (model : string) (seed : option Z) : Py.M FS Py.val :=
  let* wrapper := Py.lift (__init__ torch model None None true) in
  let config :=
    {| Flux.prompt := prompt;
       Flux.negative_prompt := "";
       Flux.width := width;
       Flux.height := height;
       Flux.num_inference_steps := 4;
       Flux.guidance_scale := Py.fzero;
       Flux.seed := seed;
       Flux.output_path := Some output_path;
       Flux.num_images := 1 |} in
  let* result := Flux.generate_image wrapper config in
  Py.ret result.
End Quick.
End Quick.

End Flux.

(* ===================================================================== *)
(** * video/ltx_wrapper.py                                                *)
(* ===================================================================== *)

Module LTX.
Import Posix.

Definition DEFAULT_MODEL : string := "Lightricks/LTX-Video".
Definition DISTILLED_MODEL : string := "Lightricks/LTX-Video-0.9.8-distilled".

Record VideoGenerationConfig : Type := {
  prompt : string;
  negative_prompt : string;
  width : Z;
  height : Z;
  num_frames : Z;
  num_inference_steps : Z;
  guidance_scale : Py.float;
  seed : option Z;
  fps : Z;
  output_path : option string
}.

Record LTXVideoWrapper : Type := {
  model_id : string;
  device : string;
  dtype : Torch.dtype;
  enable_cpu_offload : bool
}.

Global Instance LTXVideoWrapper_eq_dec : EqDecision LTXVideoWrapper.
Proof. solve_decision. Defined.

Record PipelineCall : Type := {
  call_prompt : string;
  call_negative_prompt : string;
  call_width : Z;
  call_height : Z;
  call_num_frames : Z;
  call_num_inference_steps : Z;
  call_guidance_scale : Py.float;
  call_generator : option Z
}.

(** The frames of one video, identified by the bytes they are written as. *)
Definition Frames : Type := string.

(** The libraries.  [load_text2video] is [_load_text2video_pipeline()],
    [new_generator] is [torch.Generator(device=...)], [call_text2video] the
    call of the loaded pipeline, returning [output.frames[0]], and
    [save_video] is [_save_video(frames, output_path, fps)]. *)
Class Backend : Type := {
  load_text2video : LTXVideoWrapper → Py.result unit;
  new_generator : string → Py.result unit;
  call_text2video : LTXVideoWrapper → PipelineCall → Py.result Frames;
  save_video : Frames → string → Z → Py.M FS unit
}.

(** [torch.Generator(device=device).manual_seed(seed)], when there is a
    seed. *)
Definition manual_seed `{Backend} (device : string) (seed : option Z)
  : Py.result unit :=
  match seed with
  | None => Py.Ok tt
  | Some seed =>
      match new_generator device with
      | Py.Raise e => Py.Raise e
      | Py.Ok _ =>
          if Torch.seed_in_range seed then Py.Ok tt
          else Py.Raise (Py.RuntimeError "Overflow when unpacking long")
      end
  end.

(** The three steps [generate_video] takes with the libraries, up to
    [output.frames[0]], as one outcome: it loads the pipeline, makes the
    generator and calls the pipeline. *)
Definition text2video `{Backend} (self : LTXVideoWrapper) (call : PipelineCall)
  : Py.result Frames :=
  match load_text2video self with
  | Py.Raise e => Py.Raise e
  | Py.Ok _ =>
      match manual_seed (device self) (call_generator call) with
      | Py.Raise e => Py.Raise e
      | Py.Ok _ => call_text2video self call
      end
  end.

Section Init.
Context (torch : Torch.env).

Definition _detect_device : string :=
  if Torch.cuda_is_available torch then "cuda"
  else if Torch.mps_is_available torch then "mps"
  else "cpu".

Definition _get_optimal_dtype (device : string) : Torch.dtype :=
  if decide (device = "cuda") then
    if Torch.cuda_is_bf16_supported torch then Torch.bfloat16 else Torch.float16
  else if decide (device = "mps") then Torch.float16
  else Torch.float32.

(** The constructor stores whatever identifier it is given. *)
Definition __init__ (model_id : string) (device : option string)
    (dtype : option Torch.dtype) (enable_model_cpu_offload : bool)
  : Py.result LTXVideoWrapper :=
  let device := Py.str_or device _detect_device in
  Py.Ok {| model_id := model_id;
           device := device;
           dtype := default (_get_optimal_dtype device) dtype;
           enable_cpu_offload := enable_model_cpu_offload |}.
End Init.

Definition seed_or_random (seed : option Z) : string :=
  match seed with
  | Some z => if decide (z = 0) then "random" else pretty z
  | None => "random"
  end.

Definition pipeline_call (config : VideoGenerationConfig) : PipelineCall :=
  {| call_prompt := prompt config;
     call_negative_prompt := negative_prompt config;
     call_width := width config;
     call_height := height config;
     call_num_frames := num_frames config;
     call_num_inference_steps := num_inference_steps config;
     call_guidance_scale := guidance_scale config;
     call_generator := seed config |}.

Section Generate.
Context `{Backend}.

Definition generate_video (self : LTXVideoWrapper) (config : VideoGenerationConfig)
  : Py.M FS string :=
  let* _ := Py.lift (load_text2video self) in
  let* _ := Py.lift (manual_seed (device self) (seed config)) in
  let* frames := Py.lift (call_text2video self (pipeline_call config)) in
  let output_path :=
    Py.str_or (output_path config)
      ("output_" +:+ seed_or_random (seed config) +:+ ".mp4") in
  let* _ := save_video frames output_path (fps config) in
  Py.ret output_path.
End Generate.

(** ** The rest of the wrapper *)

Class Hub : Type := {
  snapshot_download : string → Path → list string → Py.M FS unit
}.

(** [s.replace("/", "_")] *)
Fixpoint replace_slash (s : string) : string :=
  match s with
  | EmptyString => EmptyString
  | String c s' => String (if decide (c = "/"%char) then "_"%char else c) (replace_slash s')
  end.

Section EnsureDownloaded.
Context (MODELS_DIR : Path) `{Hub}.

Definition ensure_model_downloaded (self : LTXVideoWrapper) : Py.M FS Path :=
  let models_dir := joinpath MODELS_DIR (replace_slash (model_id self)) in
  let* fs := Py.get in
  if negb (path_exists fs models_dir) then
    let* _ := snapshot_download (model_id self) models_dir ["*.md"; "*.txt"] in
    Py.ret models_dir
  else Py.ret models_dir.
End EnsureDownloaded.

(** [Image2VideoConfig], which extends [VideoGenerationConfig]. *)
Record Image2VideoConfig : Type := {
  base : VideoGenerationConfig;
  image_path : string;
  conditioning_strength : Q
}.

(** A decoded [PIL] image. *)
Definition Picture : Type := string.

Record Image2VideoCall : Type := {
  i2v_prompt : string;
  i2v_negative_prompt : string;
  i2v_image : Picture;
  i2v_width : Z;
  i2v_height : Z;
  i2v_num_frames : Z;
  i2v_num_inference_steps : Z;
  i2v_guidance_scale : Py.float;
  i2v_generator : option Z
}.

(** The image-conditioned side of the libraries: [load_img2video] is
    [_load_img2video_pipeline()], [decode_rgb] what [Image.open(...)] and
    [convert("RGB")] make of the bytes of a file, [resize] is
    [image.resize((width, height))], [img2video] the call of the loaded
    pipeline, returning [output.frames[0]]. *)
Class Image2Video : Type := {
  load_img2video : LTXVideoWrapper → Py.result unit;
  decode_rgb : string → Py.result Picture;
  resize : Picture → Z → Z → Picture;
  img2video : LTXVideoWrapper → Image2VideoCall → Py.result Frames
}.

Section GenerateFromImage.
Context `{Backend} `{Image2Video}.

(** [Image.open(path).convert("RGB")]: the path must name a file; a
    directory gives [IsADirectoryError] and a missing path
    [FileNotFoundError], both of which are [OSError]s. *)
Definition open_rgb (path : string) : Py.M FS Picture :=
  let* fs := Py.get in
  match fs !! Path_of_str path with
  | Some (File bytes) => Py.lift (decode_rgb bytes)
  | Some Dir => Py.raise (Py.OSError "Is a directory")
  | None => Py.raise (Py.OSError "No such file or directory")
  end.

Definition generate_from_image (self : LTXVideoWrapper) (config : Image2VideoConfig)
  : Py.M FS string :=
  let* _ := Py.lift (load_img2video self) in
  let* image := open_rgb (image_path config) in
  let image := resize image (width (base config)) (height (base config)) in
  let* _ := Py.lift (manual_seed (device self) (seed (base config))) in
  let* frames := Py.lift (img2video self
    {| i2v_prompt := prompt (base config);
       i2v_negative_prompt := negative_prompt (base config);
       i2v_image := image;
       i2v_width := width (base config);
       i2v_height := height (base config);
       i2v_num_frames := num_frames (base config);
       i2v_num_inference_steps := num_inference_steps (base config);
       i2v_guidance_scale := guidance_scale (base config);
       i2v_generator := seed (base config) |}) in
  let output_path :=
    Py.str_or (output_path (base config))
      ("output_img2vid_" +:+ seed_or_random (seed (base config)) +:+ ".mp4") in
  let* _ := save_video frames output_path (fps (base config)) in
  Py.ret output_path.
End GenerateFromImage.

(** The function [generate_video] of the module, beside the method of the
    same name. *)
Module Quick.
Section Quick.
Context (torch : Torch.env) `{Backend}.

Definition generate_video (prompt : string) (output_path : string)
    (width height num_frames : Z) (seed : option Z) : Py.M FS string :=
  let* wrapper := Py.lift (__init__ torch DISTILLED_MODEL None None true) in
  let config :=
    {| LTX.prompt := prompt;
       LTX.negative_prompt := "";
       LTX.width := width;
       LTX.height := height;
       LTX.num_frames := num_frames;
       LTX.num_inference_steps := 50;
       LTX.guidance_scale := Py.fl (15 # 2);
       LTX.seed := seed;
       LTX.fps := 24;
       LTX.output_path := Some output_path |} in
  let* result := LTX.generate_video wrapper config in
  Py.ret result.
End Quick.
End Quick.

End LTX.

(* ===================================================================== *)
(** * downloader.py                                                       *)
(* ===================================================================== *)

Module Downloader.
Import Posix.

Record ModelInfo : Type := {
  id : string;
  name : string;
  repo_id : string;
  type : string;
  size_gb : Q;
  description : string;
  required_vram_gb : Q
}.

Definition AVAILABLE_MODELS : list ModelInfo :=
  [ {| id := "ltx-video-distilled";
       name := "LTX-Video 0.9.8 (Distilled)";
       repo_id := "Lightricks/LTX-Video-0.9.8-distilled";
       type := "video";
       size_gb := 17 # 2;
       description := "Fast video generation, optimized for consumer GPUs";
       required_vram_gb := 8 |};
    {| id := "ltx-video-full";
       name := "LTX-Video 13B";
       repo_id := "Lightricks/LTX-Video";
       type := "video";
       size_gb := 26;
       description := "Full quality video generation model";
       required_vram_gb := 16 |};
    {| id := "flux-schnell";
       name := "Flux.1 Schnell";
       repo_id := "black-forest-labs/FLUX.1-schnell";
       type := "image";
       size_gb := 12;
       description := "Ultra-fast image generation (4 steps)";
       required_vram_gb := 6 |};
    {| id := "flux-dev";
       name := "Flux.1 Dev";
       repo_id := "black-forest-labs/FLUX.1-dev";
       type := "image";
       size_gb := 24;
       description := "High quality image generation";
       required_vram_gb := 12 |} ].

Record DownloadProgress : Type := {
  model_id : string;
  total_bytes : Z;
  downloaded_bytes : Z;
  current_file : string;
  files_completed : Z;
  files_total : Z
}.

(** The property [percentage]. *)
Definition percentage (self : DownloadProgress) : Py.result Py.float :=
  if decide (total_bytes self = 0) then Py.Ok Py.fzero
  else
    match Py.truediv (downloaded_bytes self) (total_bytes self) with
    | Py.Ok q => Py.Ok (Py.fmul q (Py.fl 100))
    | Py.Raise e => Py.Raise e
    end.

(** The downloader object.  The thread pool only decides where the
    transfer runs and is not represented. *)
Record ModelDownloader : Type := {
  models_dir : Path;
  max_concurrent : Z;
  _active_downloads : gmap string DownloadProgress
}.

(** What a method can read and change: the object, the disk, and (for the
    statements about transfers only) the list of [snapshot_download] calls
    made so far, oldest first. *)
Record State : Type := {
  self : ModelDownloader;
  fs : FS;
  transfers : list (string * Path)
}.

Definition with_fs (st : State) (fs' : FS) : State :=
  {| self := self st; fs := fs'; transfers := transfers st |}.
Definition with_active (st : State) (a : gmap string DownloadProgress) : State :=
  {| self := {| models_dir := models_dir (self st);
                max_concurrent := max_concurrent (self st);
                _active_downloads := a |};
     fs := fs st; transfers := transfers st |}.

(** Running a file-system action on the disk of the state. *)
Definition on_fs {A} (m : Py.M FS A) : Py.M State A :=
  λ st, match m (fs st) with (fs', r) => (with_fs st fs', r) end.

(** [huggingface_hub.snapshot_download(repo_id, local_dir, ignore_patterns)] *)
Class Hub : Type := {
  snapshot_download : string → Path → list string → Py.M FS unit
}.

Definition get_available_models : list ModelInfo := AVAILABLE_MODELS.

Definition get_model_info (model_id : string) : option ModelInfo :=
  List.find (λ model, bool_decide (id model = model_id)) AVAILABLE_MODELS.

Definition model_dir_of (st : State) (model : ModelInfo) (model_id : string) : Path :=
  models_dir (self st) ++ [type model; model_id].

Definition marker_of (model_dir : Path) : Path := model_dir ++ [".download_complete"].

Definition is_downloaded (model_id : string) (st : State) : bool :=
  match get_model_info model_id with
  | None => false
  | Some model =>
      let model_dir := model_dir_of st model model_id in
      let marker := marker_of model_dir in
      path_exists (fs st) marker
  end.

Section Download.
Context `{Hub}.

(** The inner [update_progress] is defined but never called, so the
    callback plays no part. *)
Definition _download_sync (model : ModelInfo) (model_dir : Path) : Py.M State Path :=
  let* _ := Py.modify (λ st,
    {| self := self st; fs := fs st;
       transfers := transfers st ++ [(repo_id model, model_dir)] |}) in
  let* _ := on_fs (snapshot_download (repo_id model) model_dir
                     ["*.md"; "*.txt"; "*.json"]) in
  Py.ret model_dir.

(** The case in which the transfer changes nothing outside the directory
    it fills, and neither that directory's own entry nor the marker. *)
Definition transfer_confined : Prop :=
  ∀ repo_id local_dir patterns fs p,
    ¬ local_dir `prefix_of` p ∨ p = local_dir ∨ p = marker_of local_dir →
    (snapshot_download repo_id local_dir patterns fs).1 !! p = fs !! p.

(** [del self._active_downloads[model_id]] *)
Definition del_active (model_id : string) : Py.M State unit :=
  λ st, match _active_downloads (self st) !! model_id with
        | Some _ => (with_active st (delete model_id (_active_downloads (self st))), Py.Ok tt)
        | None => (st, Py.Raise (Py.KeyError model_id))
        end.

Definition download_model (model_id : string) (force : bool) : Py.M State Path :=
  match get_model_info model_id with
  | None => Py.raise (Py.ValueError ("Unknown model: " +:+ model_id))
  | Some model =>
      let* st := Py.get in
      if is_downloaded model_id st && negb force then
        Py.ret (model_dir_of st model model_id)
      else
        let model_dir := model_dir_of st model model_id in
        let* _ := on_fs (mkdir_parents model_dir) in
        let progress :=
          {| model_id := model_id;
             total_bytes := Py.int (size_gb model * 1024 * 1024 * 1024)%Q;
             downloaded_bytes := 0;
             current_file := "";
             files_completed := 0;
             files_total := 1 |} in
        let* _ := Py.modify (λ st,
          with_active st (<[model_id := progress]> (_active_downloads (self st)))) in
        Py.try_finally
          (let* result := _download_sync model model_dir in
           let marker := marker_of model_dir in
           let* _ := on_fs (write_text marker (repo_id model)) in
           Py.ret result)
          (del_active model_id)
  end.
End Download.

Definition cleanup (model_id : string) : Py.M State bool :=
  match get_model_info model_id with
  | None => Py.ret false
  | Some model =>
      let* st := Py.get in
      let model_dir := model_dir_of st model model_id in
      if path_exists (fs st) model_dir then
        let* _ := on_fs (rmtree model_dir) in
        Py.ret true
      else Py.ret false
  end.


(** ** The rest of the downloader *)

(** [ModelDownloader(models_dir, max_concurrent)]; [MODELS_DIR] is the
    default taken from the environment.  A [Path] object is always truthy.
    [ThreadPoolExecutor(max_workers=max_concurrent)] refuses a number of
    workers that is not positive. *)
Definition __init__ (MODELS_DIR : Path) (models_dir : option Path) (max_concurrent : Z)
  : Py.M FS ModelDownloader :=
  let models_dir := default MODELS_DIR models_dir in
  let* _ := mkdir_parents models_dir in
  let* _ :=
    if max_concurrent <=? 0
    then Py.raise (Py.ValueError "max_workers must be greater than 0")
    else Py.ret tt in
  Py.ret {| models_dir := models_dir;
            max_concurrent := max_concurrent;
            _active_downloads := ∅ |}.

Definition get_downloaded_models (st : State) : list string :=
  foldl (λ downloaded model,
           if is_downloaded (id model) st then downloaded ++ [id model] else downloaded)
        [] AVAILABLE_MODELS.


(** One value of the dictionary [get_active_downloads] returns. *)
Record ActiveInfo : Type := {
  info_percentage : Py.float;
  info_current_file : string;
  info_downloaded_gb : Py.float
}.

Definition active_info (p : DownloadProgress) : Py.result ActiveInfo :=
  match percentage p with
  | Py.Raise e => Py.Raise e
  | Py.Ok pct =>
      match Py.truediv (downloaded_bytes p) (1024 * 1024 * 1024) with
      | Py.Raise e => Py.Raise e
      | Py.Ok gb =>
          Py.Ok {| info_percentage := pct;
                   info_current_file := current_file p;
                   info_downloaded_gb := gb |}
      end
  end.

(** The dictionary comprehension of [get_active_downloads], entry by entry:
    the call raises if the value of some entry does. *)
Definition get_active_downloads (st : State) : gmap string (Py.result ActiveInfo) :=
  active_info <$> _active_downloads (self st).

Section Pieces.
Context `{Hub}.

(** [download_model] is suspended at [await loop.run_in_executor(...)]:
    [download_begin] is the code before it, which ends with a value returned
    early ([inl]) or with the model and directory of the transfer to wait
    for ([inr]); [download_resume] is the transfer and the code after it. *)
Definition download_begin (model_id : string) (force : bool)
  : Py.M State (Path + ModelInfo * Path) :=
  match get_model_info model_id with
  | None => Py.raise (Py.ValueError ("Unknown model: " +:+ model_id))
  | Some model =>
      let* st := Py.get in
      if is_downloaded model_id st && negb force then
        Py.ret (inl (model_dir_of st model model_id))
      else
        let model_dir := model_dir_of st model model_id in
        let* _ := on_fs (mkdir_parents model_dir) in
        let progress :=
          {| model_id := model_id;
             total_bytes := Py.int (size_gb model * 1024 * 1024 * 1024)%Q;
             downloaded_bytes := 0;
             current_file := "";
             files_completed := 0;
             files_total := 1 |} in
        let* _ := Py.modify (λ st,
          with_active st (<[model_id := progress]> (_active_downloads (self st)))) in
        Py.ret (inr (model, model_dir))
  end.

Definition download_resume (model_id : string) (model : ModelInfo) (model_dir : Path)
  : Py.M State Path :=
  Py.try_finally
    (let* result := _download_sync model model_dir in
     let marker := marker_of model_dir in
     let* _ := on_fs (write_text marker (repo_id model)) in
     Py.ret result)
    (del_active model_id).

(** The coroutine [download_with_callback] of [download_all], run without
    interruption: the identifier with the path as a string, or with the
    message of the exception. *)
Definition download_with_callback (model_id : string) : Py.M State (string * string) :=
  Py.try_except
    (let* path := download_model model_id false in
     Py.ret (model_id, str_of_Path path))
    (λ e, Py.ret (model_id, "error: " +:+ Py.str_exn e)).
End Pieces.

End Downloader.

(* ===================================================================== *)
(** * api/server.py                                                       *)
(* ===================================================================== *)

Module Server.
Import Posix.

Record ImageRequest : Type := {
  prompt : string;
  negative_prompt : string;
  width : Z;
  height : Z;
  model : string;
  seed : option Z;
  num_images : Z
}.

(** The fields carry the prefix [v_] where they share a name with a field
    of [ImageRequest]. *)
Record VideoRequest : Type := {
  v_prompt : string;
  v_negative_prompt : string;
  v_width : Z;
  v_height : Z;
  v_num_frames : Z;
  v_seed : option Z;
  v_image_path : option string
}.

Record JobResponse : Type := {
  job_id : string;
  status : string;
  result : option string;
  error : option string
}.

Record FileResponse : Type := {
  path : Path;
  filename : string;
  media_type : string
}.

Record HealthResponse : Type := {
  health_status : string;
  video_available : bool;
  image_available : bool;
  video_loaded : bool;
  image_loaded : bool
}.

(** A job record is a dictionary with string keys. *)
Abbreviation Job := (gmap string Py.val).

(** [class GenerationState], of which the module holds one instance. *)
Record GenerationState : Type := {
  video_wrapper : option LTX.LTXVideoWrapper;
  image_wrapper : option Flux.FluxWrapper;
  jobs : gmap string (gmap string Py.val)
}.

Definition with_jobs (st : GenerationState) (j : gmap string (gmap string Py.val))
  : GenerationState :=
  {| video_wrapper := video_wrapper st; image_wrapper := image_wrapper st; jobs := j |}.

(** [state.jobs[job_id] = job] *)
Definition set_job (job_id : string) (job : Job) : Py.M GenerationState unit :=
  Py.modify (λ st, with_jobs st (<[job_id := job]> (jobs st))).

(** The dictionary literals the module writes. *)
Definition job_pending : Job := {[ "status" := Py.Str "pending" ]}.
Definition job_completed (result : string) : Job :=
  <[ "status" := Py.Str "completed" ]> {[ "result" := Py.Str result ]}.
Definition job_failed (msg : string) : Job :=
  <[ "status" := Py.Str "failed" ]> {[ "error" := Py.Str msg ]}.

Definition job_processing : Job := <[ "status" := Py.Str "processing" ]> job_pending.

(** A job record that is completed or failed. *)
Definition terminal (j : Job) : Prop :=
  (∃ result, j = job_completed result) ∨ (∃ msg, j = job_failed msg).

(** The changes a job record may undergo in one move of the server: none,
    creation as pending, pending to processing, processing to completed or
    to failed. *)
Inductive job_edge : option Job → option Job → Prop :=
| edge_none j : job_edge j j
| edge_submit : job_edge None (Some job_pending)
| edge_process : job_edge (Some job_pending) (Some job_processing)
| edge_complete result : job_edge (Some job_processing) (Some (job_completed result))
| edge_fail msg : job_edge (Some job_processing) (Some (job_failed msg)).

(** A request handed to [background_tasks.add_task] with its work item. *)
Inductive request : Type :=
| ImageTask (r : ImageRequest)
| VideoTask (r : VideoRequest).

(** The call a work item hands to the executor. *)
Inductive backend_call : Type :=
| FluxCall (w : Flux.FluxWrapper) (config : Flux.ImageGenerationConfig)
| LTXCall (w : LTX.LTXVideoWrapper) (config : LTX.VideoGenerationConfig).

(** The constructor of [JobResponse]: pydantic accepts one of the four
    status literals, and a string or [None] in the optional fields. *)
Definition optional_str (v : option Py.val) : Py.result (option string) :=
  match v with
  | None => Py.Ok None
  | Some (Py.Str s) => Py.Ok (Some s)
  | Some (Py.List _) => Py.Raise (Py.ValueError "Input should be a valid string")
  end.

Definition new_JobResponse (job_id : string) (status : Py.val)
    (result error : option Py.val) : Py.result JobResponse :=
  match status with
  | Py.Str s =>
      if bool_decide (s ∈ ["pending"; "processing"; "completed"; "failed"]) then
        match optional_str result, optional_str error with
        | Py.Ok r, Py.Ok e =>
            Py.Ok {| job_id := job_id; status := s; result := r; error := e |}
        | Py.Raise x, _ | _, Py.Raise x => Py.Raise x
        end
      else Py.Raise (Py.ValueError "Input should be a status literal")
  | Py.List _ => Py.Raise (Py.ValueError "Input should be a status literal")
  end.

Section Deployment.
(** What is fixed when the process starts. *)
Context (HAS_VIDEO HAS_IMAGE : bool) (OUTPUT_DIR : Path) (torch : Torch.env).
Context `{Flux.Backend} `{LTX.Backend}.

(** ** Submission.  [job_id] is the value [str(uuid.uuid4())] drew; the
    second component of the answer is the task given to [add_task]. *)
Definition generate_image (job_id : string) (request : ImageRequest)
  : Py.M GenerationState (JobResponse * Server.request) :=
  if negb HAS_IMAGE then
    Py.raise (Py.HTTPException 503
      "Image generation not available. Install Flux dependencies.")
  else
    let* _ := set_job job_id job_pending in
    Py.ret ({| job_id := job_id; status := "pending"; result := None; error := None |},
            ImageTask request).

Definition generate_video (job_id : string) (request : VideoRequest)
  : Py.M GenerationState (JobResponse * Server.request) :=
  if negb HAS_VIDEO then
    Py.raise (Py.HTTPException 503
      "Video generation not available. Install LTX-Video dependencies.")
  else
    let* _ := set_job job_id job_pending in
    Py.ret ({| job_id := job_id; status := "pending"; result := None; error := None |},
            VideoTask request).

(** ** The pieces of the work items *)

(** [state.jobs[job_id]["status"] = "processing"] *)
Definition mark_processing (job_id : string) : Py.M GenerationState unit :=
  let* st := Py.get in
  let* job := Py.lift (Py.getitem (jobs st) job_id) in
  set_job job_id (<[ "status" := Py.Str "processing" ]> job).

(** The block under [# Initialize wrapper if needed]. *)
Definition resolve_image_wrapper (request : ImageRequest)
  : Py.M GenerationState Flux.FluxWrapper :=
  let* st := Py.get in
  let construct : Py.M GenerationState Flux.FluxWrapper :=
    let* w := Py.lift (Flux.__init__ torch (model request) None None true) in
    let* _ := Py.modify (λ st,
      {| video_wrapper := video_wrapper st; image_wrapper := Some w; jobs := jobs st |}) in
    Py.ret w in
  match image_wrapper st with
  | None => construct
  | Some w =>
      if decide (Flux.model_variant w ≠ model request) then construct
      else Py.ret w
  end.

Definition resolve_video_wrapper : Py.M GenerationState LTX.LTXVideoWrapper :=
  let* st := Py.get in
  match video_wrapper st with
  | None =>
      let* w := Py.lift (LTX.__init__ torch LTX.DISTILLED_MODEL None None true) in
      let* _ := Py.modify (λ st,
        {| video_wrapper := Some w; image_wrapper := image_wrapper st; jobs := jobs st |}) in
      Py.ret w
  | Some w => Py.ret w
  end.

Definition image_config (job_id : string) (request : ImageRequest)
  : Flux.ImageGenerationConfig :=
  let output_path := OUTPUT_DIR ++ [job_id +:+ ".png"] in
  {| Flux.prompt := prompt request;
     Flux.negative_prompt := negative_prompt request;
     Flux.width := width request;
     Flux.height := height request;
     Flux.num_inference_steps := 4;
     Flux.guidance_scale := Py.fzero;
     Flux.seed := seed request;
     Flux.output_path := Some (str_of_Path output_path);
     Flux.num_images := num_images request |}.

Definition video_config (job_id : string) (request : VideoRequest)
  : LTX.VideoGenerationConfig :=
  let output_path := OUTPUT_DIR ++ [job_id +:+ ".mp4"] in
  {| LTX.prompt := v_prompt request;
     LTX.negative_prompt := v_negative_prompt request;
     LTX.width := v_width request;
     LTX.height := v_height request;
     LTX.num_frames := v_num_frames request;
     LTX.num_inference_steps := 50;
     LTX.guidance_scale := Py.fl (15 # 2);
     LTX.seed := v_seed request;
     LTX.fps := 24;
     LTX.output_path := Some (str_of_Path output_path) |}.

(** [result if isinstance(result, str) else result[0]] *)
Definition first_path (result : Py.val) : Py.result string :=
  match result with
  | Py.Str s => Py.Ok s
  | Py.List (p :: _) => Py.Ok p
  | Py.List [] => Py.Raise (Py.IndexError "list index out of range")
  end.

(** The [except Exception as e] clause of both work items. *)
Definition on_exception (job_id : string) (e : Py.exn) : Py.M GenerationState unit :=
  set_job job_id (job_failed (Py.str_exn e)).

(** The value the executor computes. *)
Definition run_backend (c : backend_call) : Py.M FS Py.val :=
  match c with
  | FluxCall w config => Flux.generate_image w config
  | LTXCall w config =>
      let* p := LTX.generate_video w config in Py.ret (Py.Str p)
  end.

(** ** The machine: server state, disk and work items *)

Record World : Type := {
  state : GenerationState;
  fs : FS
}.

Definition on_state {A} (m : Py.M GenerationState A) : Py.M World A :=
  λ w, match m (state w) with (st', r) => ({| state := st'; fs := fs w |}, r) end.
Definition on_fs {A} (m : Py.M FS A) : Py.M World A :=
  λ w, match m (fs w) with (fs', r) => ({| state := state w; fs := fs' |}, r) end.

(** ** The work items as written, run without interruption *)

Definition process_image_generation (job_id : string) (request : ImageRequest)
  : Py.M World unit :=
  Py.try_except
    (let* _ := on_state (mark_processing job_id) in
     let* w := on_state (resolve_image_wrapper request) in
     let config := image_config job_id request in
     let* result := on_fs (Flux.generate_image w config) in
     let* first := Py.lift (first_path result) in
     on_state (set_job job_id (job_completed first)))
    (λ e, on_state (on_exception job_id e)).

Definition process_video_generation (job_id : string) (request : VideoRequest)
  : Py.M World unit :=
  Py.try_except
    (let* _ := on_state (mark_processing job_id) in
     let* w := on_state resolve_video_wrapper in
     let config := video_config job_id request in
     let* result := on_fs (LTX.generate_video w config) in
     on_state (set_job job_id (job_completed result)))
    (λ e, on_state (on_exception job_id e)).

(** ** The read endpoints *)

Definition get_job_status (job_id : string) (st : GenerationState)
  : Py.result JobResponse :=
  match jobs st !! job_id with
  | None => Py.Raise (Py.HTTPException 404 "Job not found")
  | Some job =>
      match Py.getitem job "status" with
      | Py.Raise e => Py.Raise e
      | Py.Ok status =>
          new_JobResponse job_id status (job !! "result") (job !! "error")
      end
  end.

Definition download_result (job_id : string) (st : GenerationState) (fs : FS)
  : Py.result FileResponse :=
  match jobs st !! job_id with
  | None => Py.Raise (Py.HTTPException 404 "Job not found")
  | Some job =>
      match Py.getitem job "status" with
      | Py.Raise e => Py.Raise e
      | Py.Ok status =>
          if decide (status ≠ Py.Str "completed") then
            Py.Raise (Py.HTTPException 400 ("Job status: " +:+ Py.str status))
          else
            match Py.getitem job "result" with
            | Py.Raise e => Py.Raise e
            | Py.Ok (Py.List _) =>
                Py.Raise (Py.TypeError "expected str, bytes or os.PathLike object, not list")
            | Py.Ok (Py.Str result) =>
                let file_path := Path_of_str result in
                if negb (path_exists fs file_path) then
                  Py.Raise (Py.HTTPException 404 "Generated file not found")
                else
                  Py.Ok {| path := file_path;
                           filename := name file_path;
                           media_type :=
                             if decide (suffix file_path = ".png") then "image/png"
                             else "video/mp4" |}
            end
      end
  end.

(** [unload_models]: both wrappers are dropped ([unload] itself has no
    state to reset here). *)
Definition unload_models : Py.M GenerationState string :=
  let* _ := Py.modify (λ st,
    {| video_wrapper := None; image_wrapper := None; jobs := jobs st |}) in
  Py.ret "All models unloaded".

Definition health_check (st : GenerationState) : HealthResponse :=
  {| health_status := "healthy";
     video_available := HAS_VIDEO;
     image_available := HAS_IMAGE;
     video_loaded := bool_decide (video_wrapper st ≠ None);
     image_loaded := bool_decide (image_wrapper st ≠ None) |}.

(** ** The work items as they really run

    A work item is suspended at [await loop.run_in_executor(...)]; other
    handlers run meanwhile.  Its control state is kept per job. *)
Inductive task : Type :=
| Scheduled (r : request)
| Started (r : request)
| Awaiting (c : backend_call)
| Finished.

(** From the start of the [try] block to the statement that sets
    [processing]. *)
Definition task_start (job_id : string) (r : request) : Py.M GenerationState task :=
  Py.try_except
    (let* _ := mark_processing job_id in Py.ret (Started r))
    (λ e, let* _ := on_exception job_id e in Py.ret Finished).

(** From there to the [await]. *)
Definition task_resolve (job_id : string) (r : request) : Py.M GenerationState task :=
  Py.try_except
    (match r with
     | ImageTask request =>
         let* w := resolve_image_wrapper request in
         Py.ret (Awaiting (FluxCall w (image_config job_id request)))
     | VideoTask request =>
         let* w := resolve_video_wrapper in
         Py.ret (Awaiting (LTXCall w (video_config job_id request)))
     end)
    (λ e, let* _ := on_exception job_id e in Py.ret Finished).

(** From the [await] to the end, given what the executor produced. *)
Definition task_finish (job_id : string) (outcome : Py.result Py.val)
  : Py.M GenerationState task :=
  Py.try_except
    (let* result := Py.lift outcome in
     let* first := Py.lift (first_path result) in
     let* _ := set_job job_id (job_completed first) in
     Py.ret Finished)
    (λ e, let* _ := on_exception job_id e in Py.ret Finished).

Record System : Type := {
  world : World;
  tasks : gmap string task
}.

Definition initial (fs0 : FS) : System :=
  {| world := {| state := {| video_wrapper := None; image_wrapper := None; jobs := ∅ |};
                 fs := fs0 |};
     tasks := ∅ |}.

Definition sys_jobs (s : System) : gmap string (gmap string Py.val) :=
  jobs (state (world s)).

(** One move of the process.  A submission draws an identifier that is
    not yet a key of the job table (what [uuid4] provides); a declined
    submission and the read endpoints leave the system as it is. *)
Inductive step : System → System → Prop :=
| step_generate_image s job_id request st' resp t :
    sys_jobs s !! job_id = None →
    generate_image job_id request (state (world s)) = (st', Py.Ok (resp, t)) →
    step s {| world := {| state := st'; fs := fs (world s) |};
              tasks := <[job_id := Scheduled t]> (tasks s) |}
| step_generate_video s job_id request st' resp t :
    sys_jobs s !! job_id = None →
    generate_video job_id request (state (world s)) = (st', Py.Ok (resp, t)) →
    step s {| world := {| state := st'; fs := fs (world s) |};
              tasks := <[job_id := Scheduled t]> (tasks s) |}
| step_task_start s job_id r st' t :
    tasks s !! job_id = Some (Scheduled r) →
    task_start job_id r (state (world s)) = (st', Py.Ok t) →
    step s {| world := {| state := st'; fs := fs (world s) |};
              tasks := <[job_id := t]> (tasks s) |}
| step_task_resolve s job_id r st' t :
    tasks s !! job_id = Some (Started r) →
    task_resolve job_id r (state (world s)) = (st', Py.Ok t) →
    step s {| world := {| state := st'; fs := fs (world s) |};
              tasks := <[job_id := t]> (tasks s) |}
| step_task_finish s job_id c fs' outcome st' t :
    tasks s !! job_id = Some (Awaiting c) →
    run_backend c (fs (world s)) = (fs', outcome) →
    task_finish job_id outcome (state (world s)) = (st', Py.Ok t) →
    step s {| world := {| state := st'; fs := fs' |};
              tasks := <[job_id := t]> (tasks s) |}
| step_unload_models s st' msg :
    unload_models (state (world s)) = (st', Py.Ok msg) →
    step s {| world := {| state := st'; fs := fs (world s) |}; tasks := tasks s |}
| step_disk s fs' :
    step s {| world := {| state := state (world s); fs := fs' |}; tasks := tasks s |}.

Definition reachable (s : System) : Prop := ∃ fs0, rtc step (initial fs0) s.

(** The same moves as functions, for runs on explicit inputs: an accepted
    image submission, and the next piece of the work item of a job. *)
Definition submit_image (job_id : string) (request : ImageRequest) (s : System)
  : System :=
  match generate_image job_id request (state (world s)) with
  | (st', Py.Ok (_, t)) =>
      {| world := {| state := st'; fs := fs (world s) |};
         tasks := <[job_id := Scheduled t]> (tasks s) |}
  | (_, Py.Raise _) => s
  end.

Definition advance (job_id : string) (s : System) : System :=
  match tasks s !! job_id with
  | Some (Scheduled r) =>
      match task_start job_id r (state (world s)) with
      | (st', Py.Ok t) =>
          {| world := {| state := st'; fs := fs (world s) |};
             tasks := <[job_id := t]> (tasks s) |}
      | (_, Py.Raise _) => s
      end
  | Some (Started r) =>
      match task_resolve job_id r (state (world s)) with
      | (st', Py.Ok t) =>
          {| world := {| state := st'; fs := fs (world s) |};
             tasks := <[job_id := t]> (tasks s) |}
      | (_, Py.Raise _) => s
      end
  | Some (Awaiting c) =>
      match run_backend c (fs (world s)) with
      | (fs', outcome) =>
          match task_finish job_id outcome (state (world s)) with
          | (st', Py.Ok t) =>
              {| world := {| state := st'; fs := fs' |};
                 tasks := <[job_id := t]> (tasks s) |}
          | (_, Py.Raise _) => s
          end
      end
  | Some Finished | None => s
  end.

(** How far the work item of a job is, against what its record says. *)
Inductive task_job : option task → option Job → Prop :=
| tj_absent : task_job None None
| tj_scheduled r : task_job (Some (Scheduled r)) (Some job_pending)
| tj_started r : task_job (Some (Started r)) (Some job_processing)
| tj_awaiting c : task_job (Some (Awaiting c)) (Some job_processing)
| tj_finished j : terminal j → task_job (Some Finished) (Some j).

Definition consistent (s : System) : Prop :=
  ∀ job_id, task_job (tasks s !! job_id) (sys_jobs s !! job_id).

(** What every reachable state satisfies about the resident wrappers and
    the work items: a wrapper is resident only for an installed modality and
    is one the constructor made; a work item that has not yet reached its
    backend call belongs to an installed modality. *)
Definition task_installed (t : task) : Prop :=
  match t with
  | Scheduled (ImageTask _) | Started (ImageTask _) => HAS_IMAGE = true
  | Scheduled (VideoTask _) | Started (VideoTask _) => HAS_VIDEO = true
  | Awaiting _ | Finished => True
  end.

Definition residents_constructed (s : System) : Prop :=
  (∀ w, image_wrapper (state (world s)) = Some w →
     HAS_IMAGE = true ∧
     ∃ variant, Flux.__init__ torch variant None None true = Py.Ok w) ∧
  (∀ w, video_wrapper (state (world s)) = Some w →
     HAS_VIDEO = true ∧
     LTX.__init__ torch LTX.DISTILLED_MODEL None None true = Py.Ok w) ∧
  (∀ id t, tasks s !! id = Some t → task_installed t).

End Deployment.
End Server.

(* ===================================================================== *)
(** * Concrete collaborators, for runs on explicit inputs                 *)
(* ===================================================================== *)

Module Examples.
Import Posix.

Definition cpu_only : Torch.env :=
  {| Torch.cuda_is_available := false;
     Torch.mps_is_available := false;
     Torch.cuda_is_bf16_supported := false |}.

Definition cuda_bf16 : Torch.env :=
  {| Torch.cuda_is_available := true;
     Torch.mps_is_available := false;
     Torch.cuda_is_bf16_supported := true |}.

(** An image backend that draws as many images as it is asked for and
    writes each one where it is told to. *)
Definition flux_backend : Flux.Backend :=
  {| Flux.load_pipeline := λ _, Py.Ok tt;
     Flux.new_generator := λ _, Py.Ok tt;
     Flux.call_pipeline := λ _ call,
       Py.Ok (replicate (Z.to_nat (Flux.call_num_images_per_prompt call)) "PNG");
     Flux.image_save := λ image path fs,
       (<[Path_of_str path := File image]> fs, Py.Ok tt) |}.

Definition ltx_backend : LTX.Backend :=
  {| LTX.load_text2video := λ _, Py.Ok tt;
     LTX.new_generator := λ _, Py.Ok tt;
     LTX.call_text2video := λ _ _, Py.Ok "MP4";
     LTX.save_video := λ frames path _ fs,
       (<[Path_of_str path := File frames]> fs, Py.Ok tt) |}.

(** A hub that delivers the weights, and one whose transfer breaks off
    after a partial file. *)
Definition hub_online : Downloader.Hub :=
  {| Downloader.snapshot_download := λ repo_id local_dir _ fs,
       (<[local_dir ++ ["model.safetensors"] := File repo_id]> fs, Py.Ok tt) |}.

Definition hub_offline : Downloader.Hub :=
  {| Downloader.snapshot_download := λ repo_id local_dir _ fs,
       (<[local_dir ++ ["model.safetensors.incomplete"] := File ""]> fs,
        Py.Raise (Py.Error "Connection reset by peer")) |}.

(** A models directory in which [flux-dev] was left half-way, and one in
    which it is complete. *)
Definition flux_dev_dir : Path := ["models"; "image"; "flux-dev"].

Definition fs_partial : FS :=
  <[flux_dev_dir ++ ["model.safetensors.incomplete"] := File ""]>
    (<[flux_dev_dir := Dir]>
       (<[["models"; "image"] := Dir]> {[ ["models"] := Dir ]})).

Definition fs_complete : FS :=
  <[flux_dev_dir ++ [".download_complete"] := File "black-forest-labs/FLUX.1-dev"]>
    (<[flux_dev_dir ++ ["model.safetensors"] := File "black-forest-labs/FLUX.1-dev"]>
       (<[flux_dev_dir := Dir]>
          (<[["models"; "image"] := Dir]> {[ ["models"] := Dir ]}))).

(** The complete [flux-dev] next to a complete [flux-schnell]. *)
Definition fs_two : FS :=
  <[["models"; "image"; "flux-schnell"; ".download_complete"]
      := File "black-forest-labs/FLUX.1-schnell"]>
    (<[["models"; "image"; "flux-schnell"] := Dir]> fs_complete).

(** The catalog entry of [flux-dev]. *)
Definition flux_dev : Downloader.ModelInfo :=
  {| Downloader.id := "flux-dev";
     Downloader.name := "Flux.1 Dev";
     Downloader.repo_id := "black-forest-labs/FLUX.1-dev";
     Downloader.type := "image";
     Downloader.size_gb := 24;
     Downloader.description := "High quality image generation";
     Downloader.required_vram_gb := 12 |}.

Definition downloader (fs0 : FS) : Downloader.State :=
  {| Downloader.self :=
       {| Downloader.models_dir := ["models"];
          Downloader.max_concurrent := 2;
          Downloader._active_downloads := ∅ |};
     Downloader.fs := fs0;
     Downloader.transfers := [] |}.

(** The hubs of the two wrappers: one that delivers the weights into the
    directory it is given, one that creates the directory and breaks off. *)
Definition flux_hub_online : Flux.Hub :=
  {| Flux.snapshot_download := λ repo_id local_dir _,
       let* _ := mkdir_parents local_dir in
       Py.modify (<[local_dir ++ ["model.safetensors"] := File repo_id]>) |}.

Definition flux_hub_offline : Flux.Hub :=
  {| Flux.snapshot_download := λ repo_id local_dir _,
       let* _ := mkdir_parents local_dir in
       Py.raise (Py.Error "Connection reset by peer") |}.

Definition ltx_hub_online : LTX.Hub :=
  {| LTX.snapshot_download := λ repo_id local_dir _,
       let* _ := mkdir_parents local_dir in
       Py.modify (<[local_dir ++ ["model.safetensors"] := File repo_id]>) |}.

(** An image-to-video side that decodes every file and animates it. *)
Definition image2video : LTX.Image2Video :=
  {| LTX.load_img2video := λ _, Py.Ok tt;
     LTX.decode_rgb := λ bytes, Py.Ok bytes;
     LTX.resize := λ image _ _, image;
     LTX.img2video := λ _ call, Py.Ok (LTX.i2v_image call) |}.

(** An image backend whose pipeline fails for the seed 44. *)
Definition flux_backend_44 : Flux.Backend :=
  {| Flux.load_pipeline := λ _, Py.Ok tt;
     Flux.new_generator := λ _, Py.Ok tt;
     Flux.call_pipeline := λ _ call,
       if decide (Flux.call_generator call = Some 44) then
         Py.Raise (Py.Error "CUDA out of memory")
       else Py.Ok ["PNG"];
     Flux.image_save := λ image path fs,
       (<[Path_of_str path := File image]> fs, Py.Ok tt) |}.

(** An image backend that delivers two images whatever it is asked for. *)
Definition flux_backend_two : Flux.Backend :=
  {| Flux.load_pipeline := λ _, Py.Ok tt;
     Flux.new_generator := λ _, Py.Ok tt;
     Flux.call_pipeline := λ _ _, Py.Ok ["PNG-a"; "PNG-b"];
     Flux.image_save := λ image path fs,
       (<[Path_of_str path := File image]> fs, Py.Ok tt) |}.

Definition ltx_wrapper : LTX.LTXVideoWrapper :=
  {| LTX.model_id := LTX.DISTILLED_MODEL; LTX.device := "cpu";
     LTX.dtype := Torch.float32; LTX.enable_cpu_offload := true |}.

Definition sample_video_config (seed : option Z) (out : option string)
  : LTX.VideoGenerationConfig :=
  {| LTX.prompt := "waves"; LTX.negative_prompt := "";
     LTX.width := 768; LTX.height := 512; LTX.num_frames := 97;
     LTX.num_inference_steps := 50; LTX.guidance_scale := Py.fl (15 # 2);
     LTX.seed := seed; LTX.fps := 24; LTX.output_path := out |}.

Definition sample_image2video_config (image : string) (strength : Q)
  : LTX.Image2VideoConfig :=
  {| LTX.base := sample_video_config (Some 7) None;
     LTX.image_path := image;
     LTX.conditioning_strength := strength |}.

(** No keyword arguments. *)
Definition no_options : Flux.Options :=
  {| Flux.opt_negative_prompt := None; Flux.opt_width := None;
     Flux.opt_height := None; Flux.opt_num_inference_steps := None;
     Flux.opt_guidance_scale := None; Flux.opt_num_images := None |}.

Definition schnell_wrapper : Flux.FluxWrapper :=
  {| Flux.model_variant := "schnell";
     Flux.model_id := "black-forest-labs/FLUX.1-schnell";
     Flux.device := "cpu"; Flux.dtype := Torch.float32;
     Flux.enable_cpu_offload := true |}.

Definition dev_wrapper : Flux.FluxWrapper :=
  {| Flux.model_variant := "dev";
     Flux.model_id := "black-forest-labs/FLUX.1-dev";
     Flux.device := "cpu"; Flux.dtype := Torch.float32;
     Flux.enable_cpu_offload := true |}.

(** A configuration; the guidance is given as the fraction its literal
    denotes. *)
Definition sample_config (steps : Z) (guidance : Q) (out : option string) (n : Z)
  : Flux.ImageGenerationConfig :=
  {| Flux.prompt := "a lighthouse at dusk"; Flux.negative_prompt := "";
     Flux.width := 1024; Flux.height := 1024;
     Flux.num_inference_steps := steps; Flux.guidance_scale := Py.fl guidance;
     Flux.seed := Some 7; Flux.output_path := out; Flux.num_images := n |}.

Definition progress (downloaded total : Z) : Downloader.DownloadProgress :=
  {| Downloader.model_id := "flux-dev"; Downloader.total_bytes := total;
     Downloader.downloaded_bytes := downloaded; Downloader.current_file := "";
     Downloader.files_completed := 0; Downloader.files_total := 1 |}.

Definition image_request (n : Z) : Server.ImageRequest :=
  {| Server.prompt := "a lighthouse at dusk";
     Server.negative_prompt := "";
     Server.width := 1024;
     Server.height := 1024;
     Server.model := "schnell";
     Server.seed := Some 7;
     Server.num_images := n |}.

(** A deployment with both modalities, and the four states one image job
    passes through on an empty disk. *)
Definition OUTPUT_DIR : Path := ["outputs"].

Definition step : Server.System → Server.System → Prop :=
  @Server.step true true OUTPUT_DIR cpu_only flux_backend ltx_backend.
Definition advance : string → Server.System → Server.System :=
  @Server.advance OUTPUT_DIR cpu_only flux_backend ltx_backend.
Definition reachable : Server.System → Prop :=
  @Server.reachable true true OUTPUT_DIR cpu_only flux_backend ltx_backend.

Definition submitted (n : Z) : Server.System :=
  Server.submit_image true "job-1" (image_request n) (Server.initial ∅).
Definition started (n : Z) : Server.System := advance "job-1" (submitted n).
Definition awaiting (n : Z) : Server.System := advance "job-1" (started n).
Definition finished (n : Z) : Server.System := advance "job-1" (awaiting n).

(** An image backend that delivers only when it is called with the
    parameters of the variant policy. *)
Definition flux_backend_strict : Flux.Backend :=
  {| Flux.load_pipeline := λ _, Py.Ok tt;
     Flux.new_generator := λ _, Py.Ok tt;
     Flux.call_pipeline := λ w call,
       if (bool_decide (Flux.model_variant w = "schnell") &&
           (Flux.call_num_inference_steps call =? 4) &&
           bool_decide (Flux.call_guidance_scale call = Py.fzero))
          || (bool_decide (Flux.model_variant w = "dev") &&
              (Flux.call_num_inference_steps call =? 20) &&
              bool_decide (Flux.call_guidance_scale call = Py.fl (7 # 2)))
       then Py.Ok (replicate (Z.to_nat (Flux.call_num_images_per_prompt call)) "PNG")
       else Py.Raise (Py.Error "unexpected parameters");
     Flux.image_save := λ image path fs,
       (<[Path_of_str path := File image]> fs, Py.Ok tt) |}.

(** An image backend that delivers only when the guidance is at least
    3.5. *)
Definition flux_backend_guided : Flux.Backend :=
  {| Flux.load_pipeline := λ _, Py.Ok tt;
     Flux.new_generator := λ _, Py.Ok tt;
     Flux.call_pipeline := λ w call,
       if Py.fle (Py.fl (7 # 2)) (Flux.call_guidance_scale call)
       then Py.Ok ["PNG"]
       else Py.Raise (Py.Error "guidance below 3.5");
     Flux.image_save := λ image path fs,
       (<[Path_of_str path := File image]> fs, Py.Ok tt) |}.

(** The sample configuration with a guidance that is not a number. *)
Definition nan_config : Flux.ImageGenerationConfig :=
  {| Flux.prompt := "a lighthouse at dusk"; Flux.negative_prompt := "";
     Flux.width := 1024; Flux.height := 1024;
     Flux.num_inference_steps := 4; Flux.guidance_scale := Py.nan;
     Flux.seed := Some 7; Flux.output_path := None; Flux.num_images := 1 |}.

(** An image backend whose pipeline delivers no image. *)
Definition flux_backend_none : Flux.Backend :=
  {| Flux.load_pipeline := λ _, Py.Ok tt;
     Flux.new_generator := λ _, Py.Ok tt;
     Flux.call_pipeline := λ _ _, Py.Ok [];
     Flux.image_save := λ image path fs,
       (<[Path_of_str path := File image]> fs, Py.Ok tt) |}.


Definition request_44 (negative_prompt : string) : Server.ImageRequest :=
  {| Server.prompt := "a lighthouse at dusk";
     Server.negative_prompt := negative_prompt;
     Server.width := 1024;
     Server.height := 1024;
     Server.model := "schnell";
     Server.seed := Some 44;
     Server.num_images := 1 |}.




End Examples.

(* ===================================================================== *)
(** * Properties                                                          *)
(* ===================================================================== *)

(** ** Python arithmetic *)

Lemma py_min_spec a b : Py.min a b = Z.min a b.
Proof. unfold Py.min. destruct (Z.ltb_spec b a); lia. Qed.

Lemma py_max_spec a b : Py.max a b = Z.max a b.
Proof. unfold Py.max. destruct (Z.ltb_spec a b); lia. Qed.

(** ** Floats *)

Lemma SFcompare_antisym (a b : spec_float) :
  SFcompare b a = CompOpp <$> SFcompare a b.
Proof.
  destruct a as [sa|sa| |sa ma ea], b as [sb|sb| |sb mb eb]; simpl; try done;
    destruct sa, sb; simpl; try done;
    rewrite (Z.compare_antisym ea eb); destruct (ea ?= eb); simpl; try done;
    by rewrite (Pos.compare_cont_antisym ma mb Eq).
Qed.

Lemma SFcompare_refl (a : spec_float) : a ≠ S754_nan → SFcompare a a = Some Eq.
Proof.
  destruct a as [sa|sa| |sa ma ea]; simpl; try done; intros _; destruct sa;
    try done; by rewrite Z.compare_refl, Pos.compare_cont_refl.
Qed.

Lemma SFcompare_None (a b : spec_float) :
  SFcompare a b = None → a = S754_nan ∨ b = S754_nan.
Proof. destruct a as [| | |], b as [| | |]; simpl; try done; auto. Qed.

(** [max] of two floats that are numbers is their maximum; a NaN in the
    first place stays. *)
Lemma py_fmax_spec (a b : Py.float) :
  a ≠ Py.nan → b ≠ Py.nan →
  Py.fle a (Py.fmax a b) = true ∧ Py.fle b (Py.fmax a b) = true ∧
  (Py.fmax a b = a ∨ Py.fmax a b = b).
Proof.
  intros Ha Hb. unfold Py.fmax, Py.flt, Py.fle, SFltb, SFleb.
  pose proof (SFcompare_antisym a b) as Hanti.
  pose proof (SFcompare_refl a Ha) as Hra. pose proof (SFcompare_refl b Hb) as Hrb.
  destruct (SFcompare a b) as [[]|] eqn:Hab; simpl in Hanti.
  - rewrite Hra, Hanti. auto.
  - rewrite Hab, Hrb. auto.
  - rewrite Hra, Hanti. auto.
  - by destruct (SFcompare_None _ _ Hab).
Qed.

Lemma py_fmax_nan (b : Py.float) : Py.fmax Py.nan b = Py.nan.
Proof. by destruct b. Qed.

(** ** The generator *)

Section FluxGenerator.
Context `{Flux.Backend}.

Lemma flux_manual_seed_None device : Flux.manual_seed device None = Py.Ok tt.
Proof. reflexivity. Qed.

Lemma flux_manual_seed_in_range device seed :
  Flux.new_generator device = Py.Ok tt →
  Torch.seed_in_range seed = true →
  Flux.manual_seed device (Some seed) = Py.Ok tt.
Proof. intros Hgen Hrange. unfold Flux.manual_seed. by rewrite Hgen, Hrange. Qed.

Lemma flux_manual_seed_overflow device seed :
  Flux.new_generator device = Py.Ok tt →
  Torch.seed_in_range seed = false →
  Flux.manual_seed device (Some seed)
    = Py.Raise (Py.RuntimeError "Overflow when unpacking long").
Proof. intros Hgen Hrange. unfold Flux.manual_seed. by rewrite Hgen, Hrange. Qed.

(** With the pipeline loaded and the generator made, what is left of
    [Flux.pipeline] is the call. *)
Lemma flux_pipeline_runs self call :
  Flux.load_pipeline self = Py.Ok tt →
  Flux.manual_seed (Flux.device self) (Flux.call_generator call) = Py.Ok tt →
  Flux.pipeline self call = Flux.call_pipeline self call.
Proof. intros Hload Hseed. unfold Flux.pipeline. by rewrite Hload, Hseed. Qed.

Lemma flux_pipeline_overflow self call seed :
  Flux.load_pipeline self = Py.Ok tt →
  Flux.new_generator (Flux.device self) = Py.Ok tt →
  Flux.call_generator call = Some seed →
  Torch.seed_in_range seed = false →
  Flux.pipeline self call
    = Py.Raise (Py.RuntimeError "Overflow when unpacking long").
Proof.
  intros Hload Hgen Hcall Hrange. unfold Flux.pipeline.
  by rewrite Hload, Hcall, (flux_manual_seed_overflow _ _ Hgen Hrange).
Qed.
End FluxGenerator.

Section LTXGenerator.
Context `{LTX.Backend}.

Lemma ltx_manual_seed_in_range device seed :
  LTX.new_generator device = Py.Ok tt →
  Torch.seed_in_range seed = true →
  LTX.manual_seed device (Some seed) = Py.Ok tt.
Proof. intros Hgen Hrange. unfold LTX.manual_seed. by rewrite Hgen, Hrange. Qed.

Lemma ltx_manual_seed_overflow device seed :
  LTX.new_generator device = Py.Ok tt →
  Torch.seed_in_range seed = false →
  LTX.manual_seed device (Some seed)
    = Py.Raise (Py.RuntimeError "Overflow when unpacking long").
Proof. intros Hgen Hrange. unfold LTX.manual_seed. by rewrite Hgen, Hrange. Qed.

Lemma ltx_text2video_runs self call :
  LTX.load_text2video self = Py.Ok tt →
  LTX.manual_seed (LTX.device self) (LTX.call_generator call) = Py.Ok tt →
  LTX.text2video self call = LTX.call_text2video self call.
Proof. intros Hload Hseed. unfold LTX.text2video. by rewrite Hload, Hseed. Qed.

Lemma ltx_text2video_overflow self call seed :
  LTX.load_text2video self = Py.Ok tt →
  LTX.new_generator (LTX.device self) = Py.Ok tt →
  LTX.call_generator call = Some seed →
  Torch.seed_in_range seed = false →
  LTX.text2video self call
    = Py.Raise (Py.RuntimeError "Overflow when unpacking long").
Proof.
  intros Hload Hgen Hcall Hrange. unfold LTX.text2video.
  by rewrite Hload, Hcall, (ltx_manual_seed_overflow _ _ Hgen Hrange).
Qed.
End LTXGenerator.

(** ** Construction of the backends *)

Lemma flux_dict_get_None (variant : string) :
  variant ∉ Flux.keys Flux.FLUX_MODELS → Flux.dict_get Flux.FLUX_MODELS variant = None.
Proof.
  intros Hnot. unfold Flux.FLUX_MODELS, Flux.keys in *. simpl in *.
  repeat case_decide; try done; subst; exfalso; apply Hnot;
    rewrite !elem_of_cons; auto.
Qed.

Lemma flux_dict_get_Some (variant : string) :
  variant ∈ Flux.keys Flux.FLUX_MODELS → is_Some (Flux.dict_get Flux.FLUX_MODELS variant).
Proof.
  unfold Flux.FLUX_MODELS, Flux.keys. simpl. intros Hin.
  repeat case_decide; try done. exfalso.
  rewrite !elem_of_cons, elem_of_nil in Hin. by destruct Hin as [->|[->|[]]].
Qed.

(** C8, as the code has it — The image backend refuses, in its constructor,
    every variant that is not a key of [FLUX_MODELS], with a [ValueError]
    whose message lists the valid keys, and then no wrapper exists; it
    accepts every key.  The video backend has no set of known identifiers:
    its constructor stores any identifier and never fails. *)
Theorem backend_construction (torch : Torch.env) (ident : string)
    (device : option string) (dtype : option Torch.dtype) (offload : bool) :
  (ident ∉ Flux.keys Flux.FLUX_MODELS →
     Flux.__init__ torch ident device dtype offload
       = Py.Raise (Py.ValueError
           ("Unknown model variant: " +:+ ident +:+ ". Choose from: ['schnell', 'dev']"))) ∧
  (ident ∈ Flux.keys Flux.FLUX_MODELS →
     ∃ w, Flux.__init__ torch ident device dtype offload = Py.Ok w ∧
          Flux.model_variant w = ident) ∧
  (∃ w, LTX.__init__ torch ident device dtype offload = Py.Ok w ∧ LTX.model_id w = ident).
Proof.
  split; [|split].
  - intros Hnot. unfold Flux.__init__. by rewrite (flux_dict_get_None _ Hnot).
  - intros [id Hid]%flux_dict_get_Some. unfold Flux.__init__. rewrite Hid. eauto.
  - unfold LTX.__init__. eauto.
Qed.

(** The variant [turbo] is refused by the image backend; [dev] is accepted. *)
Lemma backend_construction_witness :
  Flux.__init__ Examples.cpu_only "turbo" None None true
    = Py.Raise (Py.ValueError "Unknown model variant: turbo. Choose from: ['schnell', 'dev']") ∧
  (∃ w, Flux.__init__ Examples.cpu_only "dev" None None true = Py.Ok w ∧
        Flux.model_variant w = "dev").
Proof.
  split.
  - apply (proj1 (backend_construction Examples.cpu_only "turbo" None None true)).
    by apply (bool_decide_unpack _).
  - apply (proj1 (proj2 (backend_construction Examples.cpu_only "dev" None None true))).
    by apply (bool_decide_unpack _).
Defined.

(** C8, as stated, fails for the video backend: an identifier that is neither
    of the two model constants of the module is accepted. *)
Lemma ltx_accepts_unknown_identifier :
  ("no-such/model" ∉ [LTX.DEFAULT_MODEL; LTX.DISTILLED_MODEL]) ∧
  (LTX.__init__ Examples.cpu_only "no-such/model" None None true
     = Py.Ok {| LTX.model_id := "no-such/model"; LTX.device := "cpu";
                LTX.dtype := Torch.float32; LTX.enable_cpu_offload := true |}).
Proof. split; [|reflexivity]. by apply (bool_decide_unpack _). Qed.

(** ** Download progress *)

Lemma fmul_zero_100 (s : bool) : Py.fmul (S754_zero s) (Py.fl 100) = S754_zero s.
Proof. by destruct s. Qed.

(** C9, as the code has it — The percentage of a progress record is the
    float 0.0 when the total is 0.  Otherwise it is the quotient of the
    downloaded bytes by the total bytes, rounded to a float, times 100,
    rounded again: a zero with the sign of the total when nothing is
    downloaded, and an [OverflowError] when the quotient is too large for a
    float.  Whatever the two byte counts are, the property does not end in a
    [ZeroDivisionError]. *)
Theorem percentage_spec (p : Downloader.DownloadProgress) :
  (Downloader.total_bytes p = 0 → Downloader.percentage p = Py.Ok Py.fzero) ∧
  (Downloader.total_bytes p ≠ 0 → Downloader.downloaded_bytes p = 0 →
     Downloader.percentage p = Py.Ok (S754_zero (Downloader.total_bytes p <? 0))) ∧
  (Downloader.total_bytes p ≠ 0 → Downloader.downloaded_bytes p ≠ 0 →
     Downloader.percentage p
       = match Py.round_div (Downloader.downloaded_bytes p) (Downloader.total_bytes p) with
         | S754_infinity _ =>
             Py.Raise (Py.OverflowError "integer division result too large for a float")
         | q => Py.Ok (Py.fmul q (Py.fl 100))
         end) ∧
  (∀ msg, Downloader.percentage p ≠ Py.Raise (Py.ZeroDivisionError msg)).
Proof.
  unfold Downloader.percentage, Py.truediv.
  destruct (decide (Downloader.total_bytes p = 0)) as [Hz|Hnz].
  - repeat split; done.
  - apply Z.eqb_neq in Hnz as Hb. rewrite Hb.
    split; [done|]. split; [|split].
    + intros _ ->. change (0 =? 0) with true. cbv beta iota.
      by rewrite fmul_zero_100.
    + intros _ Hd. apply Z.eqb_neq in Hd as ->.
      by destruct (Py.round_div _ _).
    + intros msg. destruct (Downloader.downloaded_bytes p =? 0); [done|].
      by destruct (Py.round_div _ _).
Qed.

(** With no total the percentage is 0.0; 7 of 25 bytes are
    28.000000000000004 per cent; nothing of 200 bytes is 0.0 per cent; and
    [10 ^ 400] bytes of 1 are too many for a float. *)
Lemma percentage_spec_witness :
  Downloader.percentage (Examples.progress 10 0) = Py.Ok Py.fzero ∧
  Downloader.percentage (Examples.progress 0 200) = Py.Ok Py.fzero ∧
  Downloader.percentage (Examples.progress 7 25)
    = Py.Ok (S754_finite false 7881299347898369 (-48)) ∧
  Downloader.percentage (Examples.progress (10 ^ 400) 1)
    = Py.Raise (Py.OverflowError "integer division result too large for a float").
Proof.
  split; [|split; [|split]].
  - apply (proj1 (percentage_spec (Examples.progress 10 0))). reflexivity.
  - apply (proj1 (proj2 (percentage_spec (Examples.progress 0 200)))); [simpl; lia|].
    reflexivity.
  - refine (eq_trans
      (proj1 (proj2 (proj2 (percentage_spec (Examples.progress 7 25)))) _ _) _);
      [simpl; lia|simpl; lia|]. vm_compute. reflexivity.
  - pose proof (proj1 (proj2 (proj2
      (percentage_spec (Examples.progress (10 ^ 400) 1))))) as Hlarge.
    assert (Htotal : Downloader.total_bytes (Examples.progress (10 ^ 400) 1) ≠ 0)
      by (simpl; lia).
    assert (Hdownloaded : Downloader.downloaded_bytes (Examples.progress (10 ^ 400) 1) ≠ 0)
      by (vm_compute; discriminate).
    rewrite (Hlarge Htotal Hdownloaded). vm_compute. reflexivity.
Defined.

(** C9, as stated, fails: with 50 of 100 bytes downloaded the percentage is
    50.0, not the quotient 0.5; and 7 of 25 bytes are 28.000000000000004 per
    cent, which is not the float nearest to 28. *)
Lemma percentage_is_not_the_quotient :
  Downloader.percentage (Examples.progress 50 100) = Py.Ok (Py.fl 50) ∧
  Py.truediv 50 100 = Py.Ok (Py.fl (1 # 2)) ∧
  Py.fl 50 ≠ Py.fl (1 # 2) ∧
  Downloader.percentage (Examples.progress 7 25) ≠ Py.Ok (Py.fl 28).
Proof. repeat split; vm_compute; congruence. Qed.

(** ** Strings *)

Lemma string_app_cons a s t : String a s +:+ t = String a (s +:+ t).
Proof. reflexivity. Qed.

Lemma string_app_nil_l t : "" +:+ t = t.
Proof. reflexivity. Qed.

Lemma string_length_app s t :
  String.length (s +:+ t) = (String.length s + String.length t)%nat.
Proof.
  induction s as [|a s IH]; [done|].
  rewrite string_app_cons. simpl. by rewrite IH.
Qed.

Lemma string_app_inv_tail s t1 t2 : t1 +:+ s = t2 +:+ s → t1 = t2.
Proof.
  revert t2. induction t1 as [|a t1 IH]; intros [|b t2] Heq; [done| | |].
  - apply (f_equal String.length) in Heq.
    rewrite string_app_nil_l, string_app_cons in Heq. simpl in Heq.
    rewrite string_length_app in Heq. lia.
  - apply (f_equal String.length) in Heq.
    rewrite string_app_nil_l, string_app_cons in Heq. simpl in Heq.
    rewrite string_length_app in Heq. lia.
  - rewrite !string_app_cons in Heq. injection Heq as -> Heq.
    f_equal. by apply IH.
Qed.

Lemma take_drop n s : Posix.take n s +:+ Posix.drop n s = s.
Proof.
  revert s. induction n as [|n IH]; intros [|a s]; simpl; try done.
  rewrite string_app_cons. by rewrite IH.
Qed.

Lemma splitext_app p : (Posix.splitext p).1 +:+ (Posix.splitext p).2 = p.
Proof.
  unfold Posix.splitext.
  destruct (_ && _); simpl.
  - apply take_drop.
  - induction p as [|a p IH]; [done|]. rewrite string_app_cons. by rewrite IH.
Qed.

(** ** The image backend: output files *)

Lemma image_path_inj (config : Flux.ImageGenerationConfig) (i j : nat) :
  Flux.num_images config ≠ 1 →
  Flux.image_path config i = Flux.image_path config j → i = j.
Proof.
  intros Hn. unfold Flux.image_path. rewrite !decide_False by done.
  destruct (Posix.splitext _) as [name ext].
  intros Heq. apply String.app_inj in Heq. apply String.app_inj in Heq.
  apply string_app_inv_tail in Heq. by apply (inj pretty) in Heq.
Qed.

Section SaveImages.
Context `{Flux.Backend}.

Lemma save_images_ok config images i acc fs :
  Flux.saves_succeed →
  (Flux.save_images config images i acc fs).2
    = Py.Ok (acc ++ (Flux.image_path config <$> seq i (length images))).
Proof.
  intros Hok. revert i acc fs.
  induction images as [|image rest IH]; intros i acc fs; simpl.
  - by rewrite app_nil_r.
  - unfold Py.bind. specialize (Hok image (Flux.image_path config i) fs).
    destruct (Flux.image_save image (Flux.image_path config i) fs) as [fs1 r].
    simpl in Hok. subst r. rewrite IH. by rewrite <- app_assoc.
Qed.
End SaveImages.

(** ** The image backend: variant policy *)

Lemma pipeline_call_fields (self : Flux.FluxWrapper) (config : Flux.ImageGenerationConfig) :
  Flux.call_prompt (Flux.pipeline_call self config) = Flux.prompt config ∧
  Flux.call_width (Flux.pipeline_call self config) = Flux.width config ∧
  Flux.call_height (Flux.pipeline_call self config) = Flux.height config ∧
  Flux.call_generator (Flux.pipeline_call self config) = Flux.seed config ∧
  Flux.call_num_images_per_prompt (Flux.pipeline_call self config)
    = Flux.num_images config.
Proof. unfold Flux.pipeline_call. by repeat case_decide. Qed.

(** [generate_image] in terms of the outcome of its three steps with the
    libraries. *)
Lemma generate_image_pipeline `{Flux.Backend} (self : Flux.FluxWrapper)
    (config : Flux.ImageGenerationConfig) (fs : Posix.FS) :
  Flux.generate_image self config fs =
    (let* images := Py.lift (Flux.pipeline self (Flux.pipeline_call self config)) in
     let* output_paths := Flux.save_images config images 0 [] in
     if decide (Flux.num_images config = 1) then
       match output_paths with
       | p :: _ => Py.ret (Py.Str p)
       | [] => Py.raise (Py.IndexError "list index out of range")
       end
     else Py.ret (Py.List output_paths)) fs.
Proof.
  unfold Flux.generate_image, Flux.pipeline, Py.bind, Py.lift.
  destruct (pipeline_call_fields self config) as (_ & _ & _ & -> & _).
  destruct (Flux.load_pipeline self) as [[]|e]; [|done].
  by destruct (Flux.manual_seed _ _) as [[]|e].
Qed.

Lemma generate_video_text2video `{LTX.Backend} (self : LTX.LTXVideoWrapper)
    (config : LTX.VideoGenerationConfig) (fs : Posix.FS) :
  LTX.generate_video self config fs =
    (let* frames := Py.lift (LTX.text2video self (LTX.pipeline_call config)) in
     let output_path :=
       Py.str_or (LTX.output_path config)
         ("output_" +:+ LTX.seed_or_random (LTX.seed config) +:+ ".mp4") in
     let* _ := LTX.save_video frames output_path (LTX.fps config) in
     Py.ret output_path) fs.
Proof.
  unfold LTX.generate_video, LTX.text2video, Py.bind, Py.lift. simpl.
  destruct (LTX.load_text2video self) as [[]|e]; [|done].
  by destruct (LTX.manual_seed _ _) as [[]|e].
Qed.

(** C6, as the code has it — There is one pipeline call, made of the
    prompt, size, seed and image count of the configuration and of the
    steps and guidance the variant's policy puts in the place of the
    requested ones: for [schnell] the minimum of the requested steps and 4,
    and the guidance 0.0; for [dev] the maximum of the requested steps and
    20, and 3.5 in the place of a smaller guidance, which for a guidance
    that is a number is the maximum of it and 3.5, while a guidance that is
    NaN stays NaN; for a wrapper of any other variant the requested steps
    and guidance.  Whatever the libraries are, once the pipeline is loaded
    and the generator made, the outcome of [generate_image] is the outcome
    of this call: its exception, with nothing written, or the paths of the
    images it delivers. *)
Theorem flux_variant_policy (self : Flux.FluxWrapper) (config : Flux.ImageGenerationConfig) :
  ∃ call,
    (Flux.call_prompt call = Flux.prompt config ∧
     Flux.call_width call = Flux.width config ∧
     Flux.call_height call = Flux.height config ∧
     Flux.call_generator call = Flux.seed config ∧
     Flux.call_num_images_per_prompt call = Flux.num_images config) ∧
    (Flux.model_variant self = "schnell" →
       Flux.call_num_inference_steps call = Z.min (Flux.num_inference_steps config) 4 ∧
       Flux.call_guidance_scale call = Py.fzero) ∧
    (Flux.model_variant self = "dev" →
       Flux.call_num_inference_steps call = Z.max (Flux.num_inference_steps config) 20 ∧
       Flux.call_guidance_scale call
         = (if Py.flt (Flux.guidance_scale config) (Py.fl (7 # 2))
            then Py.fl (7 # 2) else Flux.guidance_scale config) ∧
       (Flux.guidance_scale config ≠ Py.nan →
          Py.fle (Py.fl (7 # 2)) (Flux.call_guidance_scale call) = true ∧
          Py.fle (Flux.guidance_scale config) (Flux.call_guidance_scale call) = true ∧
          (Flux.call_guidance_scale call = Flux.guidance_scale config ∨
           Flux.call_guidance_scale call = Py.fl (7 # 2))) ∧
       (Flux.guidance_scale config = Py.nan →
          Flux.call_guidance_scale call = Py.nan)) ∧
    (Flux.model_variant self ≠ "schnell" → Flux.model_variant self ≠ "dev" →
       Flux.call_num_inference_steps call = Flux.num_inference_steps config ∧
       Flux.call_guidance_scale call = Flux.guidance_scale config) ∧
    ∀ (B : Flux.Backend) (fs : Posix.FS),
      @Flux.load_pipeline B self = Py.Ok tt →
      @Flux.manual_seed B (Flux.device self) (Flux.seed config) = Py.Ok tt →
      (∀ e, @Flux.call_pipeline B self call = Py.Raise e →
         @Flux.generate_image B self config fs = (fs, Py.Raise e)) ∧
      (∀ images, @Flux.call_pipeline B self call = Py.Ok images →
         @Flux.saves_succeed B →
         (@Flux.generate_image B self config fs).2 =
           if decide (Flux.num_images config = 1) then
             match images with
             | [] => Py.Raise (Py.IndexError "list index out of range")
             | _ :: _ => Py.Ok (Py.Str (Flux.image_path config 0))
             end
           else Py.Ok (Py.List (Flux.image_path config <$> seq 0 (length images)))).
Proof.
  exists (Flux.pipeline_call self config).
  split; [apply pipeline_call_fields|]. split; [|split; [|split]].
  - intros Hv. unfold Flux.pipeline_call. rewrite Hv. simpl.
    by rewrite py_min_spec.
  - intros Hv. unfold Flux.pipeline_call. rewrite Hv. simpl.
    rewrite py_max_spec. split; [done|]. split; [done|]. split.
    + intros Hnum.
      destruct (py_fmax_spec (Flux.guidance_scale config) (Py.fl (7 # 2)) Hnum)
        as (Hge & Hthreshold & Hor); [done|]. auto.
    + intros ->. apply py_fmax_nan.
  - intros Hs Hd. unfold Flux.pipeline_call. by rewrite !decide_False.
  - intros B fs Hload Hseed.
    destruct (pipeline_call_fields self config) as (_ & _ & _ & Hgen & _).
    assert (Hpipe : @Flux.pipeline B self (Flux.pipeline_call self config)
                    = @Flux.call_pipeline B self (Flux.pipeline_call self config)).
    { apply flux_pipeline_runs; [done|by rewrite Hgen]. }
    split.
    + intros e Hcall. rewrite !generate_image_pipeline. unfold Py.bind, Py.lift.
      by rewrite Hpipe, Hcall.
    + intros images Hcall Hsave.
      pose proof (@save_images_ok B config images 0 [] fs Hsave) as Hpaths.
      rewrite !generate_image_pipeline. unfold Py.bind, Py.lift. rewrite Hpipe, Hcall.
      destruct (@Flux.save_images B config images 0 [] fs) as [fs' r].
      simpl in Hpaths. subst r. simpl.
      destruct (decide (Flux.num_images config = 1)); [|done].
      by destruct images.
Qed.

(** A request for 50 steps at guidance 7.5 runs with 4 steps and no guidance
    on [schnell]; a request for 4 steps at guidance 1 runs with 20 steps at
    guidance 3.5 on [dev], against the libraries that deliver for exactly
    these values. *)
Lemma flux_variant_policy_witness :
  (@Flux.generate_image Examples.flux_backend_strict Examples.schnell_wrapper
     (Examples.sample_config 50 (15 # 2) None 1) ∅).2 = Py.Ok (Py.Str "output_7.png") ∧
  (@Flux.generate_image Examples.flux_backend_strict Examples.dev_wrapper
     (Examples.sample_config 4 1 None 1) ∅).2 = Py.Ok (Py.Str "output_7.png").
Proof.
  split.
  - destruct (flux_variant_policy Examples.schnell_wrapper
      (Examples.sample_config 50 (15 # 2) None 1))
      as (call & (_ & _ & _ & _ & Hn) & Hschnell & _ & _ & Hrun).
    destruct (Hschnell eq_refl) as [Hsteps Hguidance].
    refine (proj2 (Hrun Examples.flux_backend_strict ∅ eq_refl eq_refl) ["PNG"] _
      (λ _ _ _, eq_refl)).
    simpl. rewrite Hsteps, Hguidance, Hn. reflexivity.
  - destruct (flux_variant_policy Examples.dev_wrapper
      (Examples.sample_config 4 1 None 1))
      as (call & (_ & _ & _ & _ & Hn) & _ & Hdev & _ & Hrun).
    destruct (Hdev eq_refl) as (Hsteps & Hguidance & _).
    refine (proj2 (Hrun Examples.flux_backend_strict ∅ eq_refl eq_refl) ["PNG"] _
      (λ _ _ _, eq_refl)).
    simpl. rewrite Hsteps, Hguidance, Hn. reflexivity.
Defined.

(** C6, as stated, fails: a guidance that is NaN is handed to the pipeline
    as it is and not raised to 3.5.  Libraries that deliver only for a
    guidance of at least 3.5 deliver for the requested guidance 1 and refuse
    the requested guidance NaN. *)
Lemma nan_guidance_is_not_raised :
  (@Flux.generate_image Examples.flux_backend_guided Examples.dev_wrapper
     (Examples.sample_config 4 1 None 1) ∅).2 = Py.Ok (Py.Str "output_7.png") ∧
  (@Flux.generate_image Examples.flux_backend_guided Examples.dev_wrapper
     Examples.nan_config ∅).2 = Py.Raise (Py.Error "guidance below 3.5") ∧
  Flux.call_guidance_scale (Flux.pipeline_call Examples.dev_wrapper Examples.nan_config)
    = Py.nan ∧
  Py.fle (Py.fl (7 # 2)) Py.nan = false.
Proof. repeat split; vm_compute; reflexivity. Qed.

Example generate_image_three :
  (@Flux.generate_image Examples.flux_backend Examples.schnell_wrapper
     (Examples.sample_config 4 0 (Some "outputs/job.png") 3) ∅).2
  = Py.Ok (Py.List ["outputs/job_0.png"; "outputs/job_1.png"; "outputs/job_2.png"]).
Proof. vm_compute. reflexivity. Qed.

Example generate_image_no_extension :
  (@Flux.generate_image Examples.flux_backend Examples.schnell_wrapper
     (Examples.sample_config 4 0 None 2) ∅).2
  = Py.Ok (Py.List ["output_7_0.png"; "output_7_1.png"]).
Proof. vm_compute. reflexivity. Qed.

(** C7, as the code has it — When the pipeline returns as many images as
    were requested and each of them can be saved: with [num_images = 1],
    [generate_image] returns one path, the configured output path (or the
    default name when none is configured); with [num_images = N > 1] it
    returns a list of N pairwise distinct paths whose [i]-th element is the
    base path with [_i] inserted before its extension, and with [.png]
    appended when the base path has no extension, as the default base
    [output_<seed>] has none. *)
Theorem generate_image_paths `{Flux.Backend} (self : Flux.FluxWrapper)
    (config : Flux.ImageGenerationConfig) (images : list Flux.Image) (fs : Posix.FS) :
  Flux.pipeline self (Flux.pipeline_call self config) = Py.Ok images →
  Flux.saves_succeed →
  Z.of_nat (length images) = Flux.num_images config →
  (Flux.num_images config = 1 →
     (Flux.generate_image self config fs).2
       = Py.Ok (Py.Str (Py.str_or (Flux.output_path config)
                  ("output_" +:+ Flux.seed_or_random (Flux.seed config) +:+ ".png"))) ∧
     (∀ p, Flux.output_path config = Some p → p ≠ "" →
        (Flux.generate_image self config fs).2 = Py.Ok (Py.Str p))) ∧
  (1 < Flux.num_images config →
     let base := Py.str_or (Flux.output_path config)
                   ("output_" +:+ Flux.seed_or_random (Flux.seed config)) in
     let name := (Posix.splitext base).1 in
     let ext := (Posix.splitext base).2 in
     ∃ paths,
       (Flux.generate_image self config fs).2 = Py.Ok (Py.List paths) ∧
       Z.of_nat (length paths) = Flux.num_images config ∧
       NoDup paths ∧
       name +:+ ext = base ∧
       ∀ i : nat, (i < length paths)%nat →
         paths !! i = Some (name +:+ "_" +:+ pretty i +:+
                              (if decide (ext = "") then ".png" else ext))).
Proof.
  intros Hpipe Hsave Hlen.
  pose proof (save_images_ok config images 0 [] fs Hsave) as Hpaths.
  rewrite !generate_image_pipeline. unfold Py.bind, Py.lift. rewrite Hpipe.
  destruct (Flux.save_images config images 0 [] fs) as [fs' r].
  simpl in Hpaths. subst r. split.
  - intros Hone. rewrite decide_True by done.
    destruct images as [|image rest]; [simpl in Hlen; lia|].
    simpl. unfold Flux.image_path. rewrite decide_True by done.
    split; [done|]. intros p Hp Hne. rewrite Hp. simpl. by rewrite decide_False.
  - intros Hmany. simpl. rewrite decide_False by lia. simpl.
    eexists. split; [done|]. rewrite length_fmap, length_seq.
    split; [done|]. split; [|split].
    + apply NoDup_fmap_2_strong; [|apply NoDup_seq].
      intros i j _ _. apply image_path_inj. lia.
    + apply splitext_app.
    + intros i Hi. rewrite list_lookup_fmap, lookup_seq_lt by done. simpl.
      unfold Flux.image_path. rewrite decide_False by lia.
      by destruct (Posix.splitext _).
Qed.

(** One image goes to [outputs/job.png]; three images go to three distinct
    files. *)
Lemma generate_image_paths_witness :
  (@Flux.generate_image Examples.flux_backend Examples.schnell_wrapper
     (Examples.sample_config 4 0 (Some "outputs/job.png") 1) ∅).2
    = Py.Ok (Py.Str "outputs/job.png") ∧
  ∃ paths,
    (@Flux.generate_image Examples.flux_backend Examples.schnell_wrapper
       (Examples.sample_config 4 0 (Some "outputs/job.png") 3) ∅).2
      = Py.Ok (Py.List paths) ∧
    Z.of_nat (length paths) = 3 ∧ NoDup paths ∧
    paths !! 2%nat = Some "outputs/job_2.png".
Proof.
  split.
  - refine (proj2 (proj1 (@generate_image_paths Examples.flux_backend
      Examples.schnell_wrapper (Examples.sample_config 4 0 (Some "outputs/job.png") 1)
      ["PNG"] ∅ eq_refl (λ _ _ _, eq_refl) eq_refl) eq_refl) _ eq_refl _).
    discriminate.
  - destruct (proj2 (@generate_image_paths Examples.flux_backend
      Examples.schnell_wrapper (Examples.sample_config 4 0 (Some "outputs/job.png") 3)
      ["PNG"; "PNG"; "PNG"] ∅ eq_refl (λ _ _ _, eq_refl) eq_refl) eq_refl)
      as (paths & Hres & Hlen & Hnd & _ & Hnth).
    exists paths. split; [exact Hres|]. split; [exact Hlen|]. split; [exact Hnd|].
    apply (Hnth 2%nat). simpl in Hlen. lia.
Defined.

(** C7, as stated, fails for a base path without extension: asked for two
    images under [out], or under no path at all, [generate_image] returns
    names that end in [.png], which inserting [_i] before the extension
    does not give. *)
Lemma extension_added_to_bare_base :
  (@Flux.generate_image Examples.flux_backend Examples.schnell_wrapper
     (Examples.sample_config 4 0 (Some "out") 2) ∅).2
    = Py.Ok (Py.List ["out_0.png"; "out_1.png"]) ∧
  Flux.spec_image_path "out" 0 = "out_0" ∧
  Flux.spec_image_path "out" 1 = "out_1" ∧
  (@Flux.generate_image Examples.flux_backend Examples.schnell_wrapper
     (Examples.sample_config 4 0 None 2) ∅).2
    = Py.Ok (Py.List ["output_7_0.png"; "output_7_1.png"]) ∧
  Flux.spec_image_path "output_7" 0 = "output_7_0" ∧
  (@Flux.generate_image Examples.flux_backend Examples.schnell_wrapper
     (Examples.sample_config 4 0 (Some "outputs/job.png") 2) ∅).2
    = Py.Ok (Py.List [Flux.spec_image_path "outputs/job.png" 0;
                      Flux.spec_image_path "outputs/job.png" 1]).
Proof. repeat split; vm_compute; reflexivity. Qed.

(** ** The model catalog *)

Lemma get_model_info_Some model_id model :
  Downloader.get_model_info model_id = Some model →
  model ∈ Downloader.AVAILABLE_MODELS ∧ Downloader.id model = model_id.
Proof.
  unfold Downloader.get_model_info. intros Hfind.
  apply find_some in Hfind as [Hin Hid].
  split; [by apply list_elem_of_In|]. by apply bool_decide_eq_true in Hid.
Qed.

Lemma get_model_info_catalog model :
  model ∈ Downloader.AVAILABLE_MODELS →
  Downloader.get_model_info (Downloader.id model) = Some model.
Proof.
  unfold Downloader.AVAILABLE_MODELS.
  rewrite !elem_of_cons, elem_of_nil.
  intros [->|[->|[->|[->|[]]]]]; reflexivity.
Qed.

(** ** Completion marker and short-circuit *)

Lemma is_downloaded_marker model_id model st :
  Downloader.get_model_info model_id = Some model →
  Downloader.is_downloaded model_id st = true ↔
  is_Some (Downloader.fs st
             !! Downloader.marker_of (Downloader.model_dir_of st model model_id)).
Proof.
  intros Hinfo. unfold Downloader.is_downloaded. rewrite Hinfo.
  unfold Posix.path_exists. by rewrite bool_decide_eq_true.
Qed.

Section DownloadRun.
Context `{Downloader.Hub}.

(** What [download_model] does once it is past the short-circuit. *)
Lemma download_model_run model_id model force st :
  Downloader.get_model_info model_id = Some model →
  Downloader.is_downloaded model_id st && negb force = false →
  let dir := Downloader.model_dir_of st model model_id in
  let after fs' :=
    {| Downloader.self :=
         {| Downloader.models_dir := Downloader.models_dir (Downloader.self st);
            Downloader.max_concurrent := Downloader.max_concurrent (Downloader.self st);
            Downloader._active_downloads :=
              delete model_id (Downloader._active_downloads (Downloader.self st)) |};
       Downloader.fs := fs';
       Downloader.transfers :=
         Downloader.transfers st ++ [(Downloader.repo_id model, dir)] |} in
  Downloader.download_model model_id force st =
    match Posix.mkdir_parents dir (Downloader.fs st) with
    | (fs1, Py.Raise e) => (Downloader.with_fs st fs1, Py.Raise e)
    | (fs1, Py.Ok _) =>
        match Downloader.snapshot_download (Downloader.repo_id model) dir
                ["*.md"; "*.txt"; "*.json"] fs1 with
        | (fs2, Py.Raise e) => (after fs2, Py.Raise e)
        | (fs2, Py.Ok _) =>
            match Posix.write_text (Downloader.marker_of dir)
                    (Downloader.repo_id model) fs2 with
            | (fs3, Py.Raise e) => (after fs3, Py.Raise e)
            | (fs3, Py.Ok _) => (after fs3, Py.Ok dir)
            end
        end
    end.
Proof.
  intros Hinfo Hgo. simpl.
  unfold Downloader.download_model. rewrite Hinfo.
  unfold Py.bind at 1. unfold Py.get. rewrite Hgo.
  unfold Py.bind at 1. unfold Downloader.on_fs at 1.
  destruct (Posix.mkdir_parents _ (Downloader.fs st)) as [fs1 [[]|e]]; [|done].
  unfold Py.bind at 1. unfold Py.modify at 1.
  unfold Downloader._download_sync, Downloader.on_fs, Downloader.del_active,
    Downloader.with_active, Downloader.with_fs, Downloader.model_dir_of,
    Py.try_finally, Py.bind, Py.modify, Py.ret. simpl.
  destruct (Downloader.snapshot_download _ _ _ fs1) as [fs2 [[]|e]]; simpl.
  - destruct (Posix.write_text _ _ fs2) as [fs3 [[]|e]]; simpl.
    + rewrite lookup_insert_eq, delete_insert_eq; done.
    + rewrite lookup_insert_eq, delete_insert_eq; done.
  - rewrite lookup_insert_eq, delete_insert_eq; done.
Qed.
End DownloadRun.

(** ** Facts about the file-system operations *)

Lemma lookup_mkdirs (l : list Posix.Path) (fs : Posix.FS) (q : Posix.Path) :
  foldr (λ a acc, <[a := Posix.Dir]> acc) fs l !! q
    = if decide (q ∈ l) then Some Posix.Dir else fs !! q.
Proof.
  induction l as [|a l IH]; cbn [foldr].
  - rewrite decide_False; [done|]. apply not_elem_of_nil.
  - destruct (decide (a = q)) as [->|Hne].
    + rewrite lookup_insert_eq. rewrite decide_True; [done|]. apply list_elem_of_here.
    + rewrite lookup_insert_ne by done. rewrite IH.
      destruct (decide (q ∈ l)) as [Hin|Hnin].
      * rewrite decide_True; [done|]. by apply list_elem_of_further.
      * rewrite decide_False; [done|]. rewrite elem_of_cons. by intros [->|?].
Qed.

Lemma ancestors_and_self_elem (p a : Posix.Path) :
  a ∈ Posix.ancestors_and_self p ↔
  ∃ n, (1 ≤ n ≤ length p)%nat ∧ a = firstn n p.
Proof.
  unfold Posix.ancestors_and_self. rewrite list_elem_of_fmap.
  split.
  - intros (n & -> & Hn). apply elem_of_seq in Hn. exists n. split; [lia|done].
  - intros (n & Hn & ->). exists n. split; [done|]. apply elem_of_seq. lia.
Qed.

Lemma ancestors_not_below (p a : Posix.Path) :
  a ∈ Posix.ancestors_and_self p → p `prefix_of` a → a = p.
Proof.
  intros (n & Hn & ->)%ancestors_and_self_elem Hpre.
  apply prefix_length in Hpre. rewrite length_firstn in Hpre.
  apply firstn_all2. lia.
Qed.

Lemma marker_not_ancestor (dir : Posix.Path) :
  Downloader.marker_of dir ∉ Posix.ancestors_and_self dir.
Proof.
  intros (n & Hn & Heq)%ancestors_and_self_elem.
  apply (f_equal length) in Heq. unfold Downloader.marker_of in Heq.
  rewrite length_app, length_firstn in Heq. simpl in Heq. lia.
Qed.

Lemma mkdir_parents_Ok (p : Posix.Path) (fs fs1 : Posix.FS) :
  Posix.mkdir_parents p fs = (fs1, Py.Ok tt) →
  ∀ q, fs1 !! q = if decide (q ∈ Posix.ancestors_and_self p) then Some Posix.Dir
                  else fs !! q.
Proof.
  unfold Posix.mkdir_parents. destruct (existsb _ _); [done|].
  intros [= <-] q. apply lookup_mkdirs.
Qed.

Lemma mkdir_parents_Raise (p : Posix.Path) (fs fs1 : Posix.FS) e :
  Posix.mkdir_parents p fs = (fs1, Py.Raise e) → fs1 = fs.
Proof.
  unfold Posix.mkdir_parents. destruct (existsb _ _); [|done]. by intros [= <-].
Qed.

Lemma mkdir_parents_again (p : Posix.Path) (fs : Posix.FS) :
  (∀ a, a ∈ Posix.ancestors_and_self p → fs !! a = Some Posix.Dir) →
  ∃ fs1, Posix.mkdir_parents p fs = (fs1, Py.Ok tt).
Proof.
  intros Hdirs. unfold Posix.mkdir_parents.
  destruct (existsb _ _) eqn:Hex; [|eauto].
  apply existsb_exists in Hex as (a & Hin & Hfile).
  apply list_elem_of_In in Hin. unfold Posix.is_file in Hfile.
  by rewrite (Hdirs a Hin) in Hfile.
Qed.

Lemma write_text_marker (p : Posix.Path) (content : string) (fs fs' : Posix.FS) r :
  Posix.write_text p content fs = (fs', r) →
  match r with
  | Py.Ok _ => fs' !! p = Some (Posix.File content)
  | Py.Raise _ => fs' = fs
  end.
Proof.
  unfold Posix.write_text.
  destruct (Posix.is_dir fs (Posix.parent p)); [|by intros [= <- <-]].
  destruct (fs !! p) as [[|c]|]; intros [= <- <-]; try done;
    by rewrite lookup_insert_eq.
Qed.

Lemma rmtree_below (d : Posix.Path) (fs fs' : Posix.FS) :
  Posix.rmtree d fs = (fs', Py.Ok tt) →
  ∀ p, fs' !! p = if decide (d `prefix_of` p) then None else fs !! p.
Proof.
  unfold Posix.rmtree. destruct (fs !! d) as [[|c]|]; try done.
  intros [= <-] p. destruct (decide (d `prefix_of` p)) as [Hpre|Hnpre].
  - apply map_lookup_filter_None. right. intros x _. simpl. tauto.
  - destruct (fs !! p) as [x|] eqn:Hp.
    + by apply map_lookup_filter_Some.
    + apply map_lookup_filter_None. by left.
Qed.

(** C4 — [is_downloaded] answers true exactly for a catalog model whose
    directory holds the marker [.download_complete]; a directory without the
    marker gives false whatever else it holds; and [download_model] without
    [force] returns the model directory at once, leaving the downloader, the
    disk and the list of transfers as they were, exactly when the marker is
    there: otherwise it either fails before the transfer or makes one. *)
Theorem completion_marker_short_circuit `{Downloader.Hub}
    (model_id : string) (st : Downloader.State) :
  (Downloader.is_downloaded model_id st = true ↔
     ∃ model, model ∈ Downloader.AVAILABLE_MODELS ∧ Downloader.id model = model_id ∧
       is_Some (Downloader.fs st
                  !! Downloader.marker_of (Downloader.model_dir_of st model model_id))) ∧
  (∀ model, Downloader.get_model_info model_id = Some model →
     Downloader.fs st !! Downloader.marker_of (Downloader.model_dir_of st model model_id)
       = None →
     Downloader.is_downloaded model_id st = false) ∧
  (∀ model, Downloader.get_model_info model_id = Some model →
     (Downloader.download_model model_id false st
        = (st, Py.Ok (Downloader.model_dir_of st model model_id))
      ↔ Downloader.is_downloaded model_id st = true) ∧
     (Downloader.is_downloaded model_id st = false →
        ∀ st' r, Downloader.download_model model_id false st = (st', r) →
          (Downloader.transfers st' = Downloader.transfers st ∧ ∃ e, r = Py.Raise e) ∨
          Downloader.transfers st' =
            Downloader.transfers st ++
              [(Downloader.repo_id model, Downloader.model_dir_of st model model_id)])).
Proof.
  assert (Hrun : ∀ model, Downloader.get_model_info model_id = Some model →
    Downloader.is_downloaded model_id st = false →
    ∀ st' r, Downloader.download_model model_id false st = (st', r) →
      (Downloader.transfers st' = Downloader.transfers st ∧ ∃ e, r = Py.Raise e) ∨
      Downloader.transfers st' =
        Downloader.transfers st ++
          [(Downloader.repo_id model, Downloader.model_dir_of st model model_id)]).
  { intros model Hinfo Hnot st' r.
    rewrite (download_model_run model_id model false st Hinfo) by (by rewrite Hnot).
    simpl.
    destruct (Posix.mkdir_parents _ _) as [fs1 [[]|e]].
    - destruct (Downloader.snapshot_download _ _ _ fs1) as [fs2 [[]|e]].
      + destruct (Posix.write_text _ _ fs2) as [fs3 [[]|e]];
          intros [= <- <-]; by right.
      + intros [= <- <-]; by right.
    - intros [= <- <-]. left. eauto. }
  split; [|split].
  - split.
    + intros Hd. destruct (Downloader.get_model_info model_id) as [model|] eqn:Hinfo.
      * exists model. destruct (get_model_info_Some _ _ Hinfo) as [Hin Hid].
        split; [done|]. split; [done|]. by apply is_downloaded_marker.
      * unfold Downloader.is_downloaded in Hd. by rewrite Hinfo in Hd.
    + intros (model & Hin & <- & Hm).
      apply (is_downloaded_marker _ model); [|done].
      by apply get_model_info_catalog.
  - intros model Hinfo Hnone.
    destruct (Downloader.is_downloaded model_id st) eqn:Hd; [|done].
    apply (is_downloaded_marker _ _ _ Hinfo) in Hd. rewrite Hnone in Hd.
    by destruct Hd.
  - intros model Hinfo. split; [split|].
    + intros Hret. destruct (Downloader.is_downloaded model_id st) eqn:Hd; [done|].
      destruct (Hrun model Hinfo eq_refl _ _ Hret) as [[_ [e He]]|Htr]; [done|].
      apply (f_equal length) in Htr. rewrite length_app in Htr. simpl in Htr. lia.
    + intros Hd. unfold Downloader.download_model. rewrite Hinfo.
      unfold Py.bind, Py.get. by rewrite Hd.
    + by apply Hrun.
Qed.

(** With the marker of [flux-dev] on disk the model counts as downloaded and
    [download_model] returns its directory without a transfer; with only a
    partial file in the directory it does not count as downloaded. *)
Lemma completion_marker_short_circuit_witness :
  Downloader.is_downloaded "flux-dev" (Examples.downloader Examples.fs_complete) = true ∧
  @Downloader.download_model Examples.hub_online "flux-dev" false
      (Examples.downloader Examples.fs_complete)
    = (Examples.downloader Examples.fs_complete, Py.Ok Examples.flux_dev_dir) ∧
  Downloader.is_downloaded "flux-dev" (Examples.downloader Examples.fs_partial) = false.
Proof.
  pose proof (@completion_marker_short_circuit Examples.hub_online "flux-dev"
                (Examples.downloader Examples.fs_complete)) as (_ & _ & Hdl).
  pose proof (@completion_marker_short_circuit Examples.hub_online "flux-dev"
                (Examples.downloader Examples.fs_partial)) as (_ & Hpartial & _).
  split; [by vm_compute|]. split.
  - apply (proj1 (Hdl _ eq_refl)). by vm_compute.
  - apply (Hpartial _ eq_refl). by vm_compute.
Defined.

(** ** Cleanup *)

(** C10 — When [cleanup] returns true, the model is in the catalog, its
    directory existed, nothing is left at or below that directory (the
    marker included) and [is_downloaded] is false afterwards; when the
    identifier is not in the catalog, or the model directory does not exist,
    [cleanup] returns false and leaves the state, the disk included, as it
    was. *)
Theorem cleanup_spec (model_id : string) (st st' : Downloader.State)
    (r : Py.result bool) :
  Downloader.cleanup model_id st = (st', r) →
  (r = Py.Ok true →
     Downloader.is_downloaded model_id st' = false ∧
     ∃ model, Downloader.get_model_info model_id = Some model ∧
       Posix.path_exists (Downloader.fs st)
         (Downloader.model_dir_of st model model_id) = true ∧
       ∀ p, Downloader.model_dir_of st model model_id `prefix_of` p →
            Downloader.fs st' !! p = None) ∧
  (Downloader.get_model_info model_id = None → st' = st ∧ r = Py.Ok false) ∧
  (∀ model, Downloader.get_model_info model_id = Some model →
     Posix.path_exists (Downloader.fs st)
       (Downloader.model_dir_of st model model_id) = false →
     st' = st ∧ r = Py.Ok false).
Proof.
  unfold Downloader.cleanup.
  destruct (Downloader.get_model_info model_id) as [model|] eqn:Hinfo.
  - unfold Py.bind, Py.get, Py.ret, Downloader.on_fs.
    destruct (Posix.path_exists _ _) eqn:Hex.
    + destruct (Posix.rmtree _ _) as [fs' [[]|e]] eqn:Hrm; intros [= <- <-].
      * split; [|split; [done|]].
        -- intros _. pose proof (rmtree_below _ _ _ Hrm) as Hbelow.
           assert (Hgone : ∀ p,
             Downloader.model_dir_of st model model_id `prefix_of` p →
             fs' !! p = None).
           { intros p Hp. rewrite Hbelow. by rewrite decide_True. }
           split; [|eauto].
           unfold Downloader.is_downloaded. rewrite Hinfo.
           unfold Posix.path_exists. apply bool_decide_eq_false.
           unfold Downloader.with_fs, Downloader.model_dir_of. simpl.
           rewrite Hgone; [by intros [? ?]|].
           unfold Downloader.marker_of, Downloader.model_dir_of.
           by apply prefix_app_r.
        -- intros m [= <-]. by rewrite Hex.
      * split; [done|]. split; [done|]. intros m [= <-]. by rewrite Hex.
    + intros [= <- <-]. split; [done|]. split; [done|]. by intros m [= <-] _.
  - unfold Py.ret. intros [= <- <-]. split; [done|]. split; [done|]. by intros m.
Qed.

(** Removing the complete [flux-dev] returns true and the model no longer
    counts as downloaded; an identifier outside the catalog changes nothing. *)
Lemma cleanup_spec_witness :
  Downloader.is_downloaded "flux-dev"
    (Downloader.cleanup "flux-dev" (Examples.downloader Examples.fs_complete)).1 = false ∧
  Downloader.cleanup "flux-pro" (Examples.downloader Examples.fs_complete)
    = (Examples.downloader Examples.fs_complete, Py.Ok false).
Proof.
  split.
  - destruct (Downloader.cleanup "flux-dev" (Examples.downloader Examples.fs_complete))
      as [st' r] eqn:Hc.
    refine (proj1 (proj1 (cleanup_spec _ _ _ _ Hc) _)).
    apply (f_equal snd) in Hc. vm_compute in Hc. by symmetry.
  - destruct (Downloader.cleanup "flux-pro" (Examples.downloader Examples.fs_complete))
      as [st' r] eqn:Hc.
    destruct (proj1 (proj2 (cleanup_spec _ _ _ _ Hc)) eq_refl) as [-> ->].
    reflexivity.
Defined.

(** ** The marker is written after the transfer *)

Lemma confined_insert_below (local_dir p : Posix.Path) (file : string) (x : Posix.node)
    (fs : Posix.FS) :
  file ≠ ".download_complete" →
  ¬ local_dir `prefix_of` p ∨ p = local_dir ∨ p = Downloader.marker_of local_dir →
  <[local_dir ++ [file] := x]> fs !! p = fs !! p.
Proof.
  intros Hfile Hp. apply lookup_insert_ne. intros <-.
  destruct Hp as [Hp|[Hp|Hp]].
  - apply Hp. by apply prefix_app_r.
  - apply (f_equal length) in Hp. rewrite length_app in Hp. simpl in Hp. lia.
  - unfold Downloader.marker_of in Hp. apply app_inv_head in Hp. congruence.
Qed.

Lemma hub_online_confined : @Downloader.transfer_confined Examples.hub_online.
Proof. intros repo_id local_dir patterns fs p Hp. by apply confined_insert_below. Qed.

Lemma hub_offline_confined : @Downloader.transfer_confined Examples.hub_offline.
Proof. intros repo_id local_dir patterns fs p Hp. by apply confined_insert_below. Qed.

Section MarkerAfterTransfer.
Context `{Downloader.Hub}.

Lemma marker_after_mkdir (dir : Posix.Path) (fs fs1 : Posix.FS) r :
  Posix.mkdir_parents dir fs = (fs1, r) →
  fs1 !! Downloader.marker_of dir = fs !! Downloader.marker_of dir.
Proof.
  destruct r as [[]|e]; intros Hmk.
  - rewrite (mkdir_parents_Ok _ _ _ Hmk).
    rewrite decide_False; [done|]. apply marker_not_ancestor.
  - by rewrite (mkdir_parents_Raise _ _ _ _ Hmk).
Qed.

Lemma dirs_after_transfer (repo_id : string) (dir : Posix.Path)
    (patterns : list string) (fs fs1 : Posix.FS) (a : Posix.Path) :
  Downloader.transfer_confined →
  Posix.mkdir_parents dir fs = (fs1, Py.Ok tt) →
  a ∈ Posix.ancestors_and_self dir →
  (Downloader.snapshot_download repo_id dir patterns fs1).1 !! a = Some Posix.Dir.
Proof.
  intros Hconf Hmk Ha. rewrite Hconf.
  - rewrite (mkdir_parents_Ok _ _ _ Hmk). by rewrite decide_True.
  - destruct (decide (dir `prefix_of` a)) as [Hpre|Hnpre]; [|by left].
    right; left. by apply ancestors_not_below.
Qed.
End MarkerAfterTransfer.

Lemma is_downloaded_false model_id model st :
  Downloader.get_model_info model_id = Some model →
  Downloader.fs st !! Downloader.marker_of (Downloader.model_dir_of st model model_id)
    = None →
  Downloader.is_downloaded model_id st = false.
Proof.
  intros Hinfo Hnone. destruct (Downloader.is_downloaded model_id st) eqn:Hd; [|done].
  apply (is_downloaded_marker _ _ _ Hinfo) in Hd. rewrite Hnone in Hd. by destruct Hd.
Qed.

Lemma is_downloaded_false_inv model_id model st :
  Downloader.get_model_info model_id = Some model →
  Downloader.is_downloaded model_id st = false →
  Downloader.fs st !! Downloader.marker_of (Downloader.model_dir_of st model model_id)
    = None.
Proof.
  intros Hinfo Hd.
  destruct (Downloader.fs st !! _) as [x|] eqn:Hm; [|done].
  assert (Downloader.is_downloaded model_id st = true) as Ht; [|congruence].
  apply (is_downloaded_marker _ _ _ Hinfo). rewrite Hm. eauto.
Qed.

Lemma retry_transfers `{Downloader.Hub} model_id model st st' r :
  Downloader.get_model_info model_id = Some model →
  Downloader.is_downloaded model_id st = false →
  (∀ a, a ∈ Posix.ancestors_and_self (Downloader.model_dir_of st model model_id) →
        Downloader.fs st !! a = Some Posix.Dir) →
  Downloader.download_model model_id false st = (st', r) →
  Downloader.transfers st' =
    Downloader.transfers st ++
      [(Downloader.repo_id model, Downloader.model_dir_of st model model_id)].
Proof.
  intros Hinfo Hd Hdirs.
  rewrite (download_model_run model_id model false st Hinfo) by (by rewrite Hd).
  simpl. destruct (mkdir_parents_again _ _ Hdirs) as [fs1 ->].
  destruct (Downloader.snapshot_download _ _ _ fs1) as [fs2 [[]|e]].
  - destruct (Posix.write_text _ _ fs2) as [fs3 [[]|e]]; by intros [= <- <-].
  - by intros [= <- <-].
Qed.

(** C5, as the code has it — Past the short-circuit, [download_model] writes
    the marker, holding the repository identifier of the model, only when the
    transfer has returned: a call that ends in an exception leaves the marker
    entry of the disk as it was.  So a failed download of a model that had no
    marker leaves [is_downloaded] false, and if it failed after the transfer
    had started, the next call starts the transfer again.  (The transfer is
    taken to change only what lies below the model directory, not the
    marker.) *)
Theorem marker_after_transfer `{Downloader.Hub}
    (model_id : string) (model : Downloader.ModelInfo) (force : bool)
    (st st' : Downloader.State) (r : Py.result Posix.Path) :
  Downloader.get_model_info model_id = Some model →
  Downloader.transfer_confined →
  Downloader.is_downloaded model_id st && negb force = false →
  Downloader.download_model model_id force st = (st', r) →
  let dir := Downloader.model_dir_of st model model_id in
  (∀ p, r = Py.Ok p →
     p = dir ∧
     Downloader.fs st' !! Downloader.marker_of dir
       = Some (Posix.File (Downloader.repo_id model)) ∧
     Downloader.is_downloaded model_id st' = true) ∧
  (∀ e, r = Py.Raise e →
     Downloader.fs st' !! Downloader.marker_of dir
       = Downloader.fs st !! Downloader.marker_of dir) ∧
  (∀ e, r = Py.Raise e → Downloader.is_downloaded model_id st = false →
     Downloader.is_downloaded model_id st' = false ∧
     (Downloader.transfers st' ≠ Downloader.transfers st →
      ∀ st'' r', Downloader.download_model model_id false st' = (st'', r') →
        Downloader.transfers st'' =
          Downloader.transfers st' ++ [(Downloader.repo_id model, dir)])).
Proof.
  intros Hinfo Hconf Hgo.
  rewrite (download_model_run model_id model force st Hinfo Hgo). simpl.
  set (dir := Downloader.model_dir_of st model model_id).
  set (after := λ fs' : Posix.FS,
    {| Downloader.self :=
         {| Downloader.models_dir := Downloader.models_dir (Downloader.self st);
            Downloader.max_concurrent := Downloader.max_concurrent (Downloader.self st);
            Downloader._active_downloads :=
              delete model_id (Downloader._active_downloads (Downloader.self st)) |};
       Downloader.fs := fs';
       Downloader.transfers :=
         Downloader.transfers st ++ [(Downloader.repo_id model, dir)] |}).
  assert (Hfailed : ∀ fs2 : Posix.FS,
    fs2 !! Downloader.marker_of dir = Downloader.fs st !! Downloader.marker_of dir →
    (∀ a, a ∈ Posix.ancestors_and_self dir → fs2 !! a = Some Posix.Dir) →
    Downloader.is_downloaded model_id st = false →
    Downloader.is_downloaded model_id (after fs2) = false ∧
    (Downloader.transfers (after fs2) ≠ Downloader.transfers st →
     ∀ st'' r', Downloader.download_model model_id false (after fs2) = (st'', r') →
       Downloader.transfers st'' =
         Downloader.transfers (after fs2) ++ [(Downloader.repo_id model, dir)])).
  { intros fs2 Hm Hdirs Hd.
    assert (Hd2 : Downloader.is_downloaded model_id (after fs2) = false).
    { apply (is_downloaded_false _ _ _ Hinfo).
      exact (eq_trans Hm (is_downloaded_false_inv _ _ _ Hinfo Hd)). }
    split; [done|]. intros _ st'' r' Hrun2.
    exact (retry_transfers model_id model (after fs2) st'' r' Hinfo Hd2 Hdirs Hrun2). }
  destruct (Posix.mkdir_parents dir (Downloader.fs st)) as [fs1 [[]|e1]] eqn:Hmk.
  - pose proof (marker_after_mkdir _ _ _ _ Hmk) as Hm1.
    pose proof (Hconf (Downloader.repo_id model) dir ["*.md"; "*.txt"; "*.json"] fs1
                  (Downloader.marker_of dir) (or_intror (or_intror eq_refl))) as Hm2.
    pose proof (λ a, dirs_after_transfer (Downloader.repo_id model) dir
                  ["*.md"; "*.txt"; "*.json"] _ _ a Hconf Hmk) as Hdirs.
    destruct (Downloader.snapshot_download _ _ _ fs1) as [fs2 [[]|e2]] eqn:Hsnap;
      simpl in Hm2, Hdirs.
    + destruct (Posix.write_text _ _ fs2) as [fs3 [[]|e3]] eqn:Hwr;
        pose proof (write_text_marker _ _ _ _ _ Hwr) as Hm3; simpl in Hm3;
        intros [= <- <-].
      * split; [|done]. intros p [= <-]. split; [done|]. split; [done|].
        apply (is_downloaded_marker _ _ _ Hinfo).
        change (is_Some (fs3 !! Downloader.marker_of dir)). rewrite Hm3. eauto.
      * subst fs3. split; [done|]. split.
        -- intros e _. exact (eq_trans Hm2 Hm1).
        -- intros e _. apply Hfailed; [exact (eq_trans Hm2 Hm1)|done].
    + intros [= <- <-]. split; [done|]. split.
      * intros e _. exact (eq_trans Hm2 Hm1).
      * intros e _. apply Hfailed; [exact (eq_trans Hm2 Hm1)|done].
  - apply mkdir_parents_Raise in Hmk. subst fs1. intros [= <- <-].
    split; [done|]. split; [done|]. intros e _ Hd. split; [|done].
    by destruct st.
Qed.

(** On an empty disk, a download of [flux-dev] from the hub that delivers
    ends with the marker holding the repository identifier; from the hub that
    breaks off it raises, the model does not count as downloaded, and the next
    call makes a second transfer. *)
Lemma marker_after_transfer_witness :
  (Downloader.fs (@Downloader.download_model Examples.hub_online "flux-dev" false
                    (Examples.downloader ∅)).1
     !! Downloader.marker_of Examples.flux_dev_dir
   = Some (Posix.File "black-forest-labs/FLUX.1-dev")) ∧
  (Downloader.is_downloaded "flux-dev"
     (@Downloader.download_model Examples.hub_offline "flux-dev" false
        (Examples.downloader ∅)).1 = false) ∧
  (∀ st'' r',
     @Downloader.download_model Examples.hub_offline "flux-dev" false
       (@Downloader.download_model Examples.hub_offline "flux-dev" false
          (Examples.downloader ∅)).1 = (st'', r') →
     Downloader.transfers st''
       = [("black-forest-labs/FLUX.1-dev", Examples.flux_dev_dir);
          ("black-forest-labs/FLUX.1-dev", Examples.flux_dev_dir)]).
Proof.
  destruct (Downloader.get_model_info "flux-dev") as [model|] eqn:Hinfo;
    [|by vm_compute in Hinfo].
  assert (Hrepo : Downloader.repo_id model = "black-forest-labs/FLUX.1-dev").
  { vm_compute in Hinfo. by injection Hinfo as <-. }
  assert (Hdir : Downloader.model_dir_of (Examples.downloader ∅) model "flux-dev"
                 = Examples.flux_dev_dir).
  { vm_compute in Hinfo. by injection Hinfo as <-. }
  split; [|split].
  - destruct (@Downloader.download_model Examples.hub_online "flux-dev" false
                (Examples.downloader ∅)) as [st' r] eqn:Hrun.
    destruct (@marker_after_transfer Examples.hub_online "flux-dev" model false
                (Examples.downloader ∅) st' r Hinfo hub_online_confined ltac:(by vm_compute) Hrun)
      as (Hok & _ & _).
    apply (f_equal snd) in Hrun as Hr. vm_compute in Hr.
    destruct (Hok _ (eq_sym Hr)) as (_ & Hmarker & _).
    rewrite Hrepo, Hdir in Hmarker. exact Hmarker.
  - destruct (@Downloader.download_model Examples.hub_offline "flux-dev" false
                (Examples.downloader ∅)) as [st' r] eqn:Hrun.
    destruct (@marker_after_transfer Examples.hub_offline "flux-dev" model false
                (Examples.downloader ∅) st' r Hinfo hub_offline_confined ltac:(by vm_compute) Hrun)
      as (_ & _ & Hfail).
    apply (f_equal snd) in Hrun as Hr. vm_compute in Hr.
    exact (proj1 (Hfail _ (eq_sym Hr) ltac:(by vm_compute))).
  - destruct (@Downloader.download_model Examples.hub_offline "flux-dev" false
                (Examples.downloader ∅)) as [st' r] eqn:Hrun.
    destruct (@marker_after_transfer Examples.hub_offline "flux-dev" model false
                (Examples.downloader ∅) st' r Hinfo hub_offline_confined ltac:(by vm_compute) Hrun)
      as (_ & _ & Hfail).
    apply (f_equal snd) in Hrun as Hr. vm_compute in Hr.
    assert (Ht : Downloader.transfers st'
                 = [("black-forest-labs/FLUX.1-dev", Examples.flux_dev_dir)]).
    { apply (f_equal (λ x, Downloader.transfers x.1)) in Hrun. simpl in Hrun.
      rewrite <- Hrun. by vm_compute. }
    intros st'' r' Hrun2.
    rewrite (proj2 (Hfail _ (eq_sym Hr) ltac:(by vm_compute))
               ltac:(rewrite Ht; discriminate) st'' r' Hrun2).
    rewrite Ht, Hrepo, Hdir. reflexivity.
Defined.

(** C5, as stated, fails: a forced download of [flux-dev], complete on disk,
    from the hub that breaks off raises and leaves a partial file, yet the old
    marker stays, [is_downloaded] is still true, and the next call returns at
    once without another transfer. *)
Lemma failed_forced_download_keeps_marker :
  (@Downloader.download_model Examples.hub_offline "flux-dev" true
     (Examples.downloader Examples.fs_complete)).2
    = Py.Raise (Py.Error "Connection reset by peer") ∧
  Downloader.is_downloaded "flux-dev"
    (@Downloader.download_model Examples.hub_offline "flux-dev" true
       (Examples.downloader Examples.fs_complete)).1 = true ∧
  (@Downloader.download_model Examples.hub_offline "flux-dev" false
     (@Downloader.download_model Examples.hub_offline "flux-dev" true
        (Examples.downloader Examples.fs_complete)).1).2
    = Py.Ok Examples.flux_dev_dir ∧
  Downloader.transfers
    (@Downloader.download_model Examples.hub_offline "flux-dev" false
       (@Downloader.download_model Examples.hub_offline "flux-dev" true
          (Examples.downloader Examples.fs_complete)).1).1
    = [("black-forest-labs/FLUX.1-dev", Examples.flux_dev_dir)].
Proof. repeat split; vm_compute; reflexivity. Qed.

(** ** Job records *)

Lemma job_pending_fields :
  Server.job_pending !! "status" = Some (Py.Str "pending") ∧
  Server.job_pending !! "result" = None ∧ Server.job_pending !! "error" = None.
Proof. by vm_compute. Qed.

Lemma job_processing_fields :
  Server.job_processing !! "status" = Some (Py.Str "processing") ∧
  Server.job_processing !! "result" = None ∧ Server.job_processing !! "error" = None.
Proof. by vm_compute. Qed.

Lemma job_processing_singleton :
  Server.job_processing = {[ "status" := Py.Str "processing" ]}.
Proof. unfold Server.job_processing, Server.job_pending. apply insert_singleton_eq. Qed.

Lemma job_completed_fields result :
  Server.job_completed result !! "status" = Some (Py.Str "completed") ∧
  Server.job_completed result !! "result" = Some (Py.Str result) ∧
  Server.job_completed result !! "error" = None.
Proof.
  unfold Server.job_completed. rewrite lookup_insert_eq.
  rewrite !lookup_insert_ne by done.
  rewrite lookup_singleton_eq, lookup_singleton_ne by done. done.
Qed.

Lemma job_failed_fields msg :
  Server.job_failed msg !! "status" = Some (Py.Str "failed") ∧
  Server.job_failed msg !! "result" = None ∧
  Server.job_failed msg !! "error" = Some (Py.Str msg).
Proof.
  unfold Server.job_failed. rewrite lookup_insert_eq.
  rewrite !lookup_insert_ne by done.
  rewrite lookup_singleton_eq, lookup_singleton_ne by done. done.
Qed.




(** ** The job coordinator *)

Section Coordinator.
Context (HAS_VIDEO HAS_IMAGE : bool) (OUTPUT_DIR : Posix.Path) (torch : Torch.env).
Context `{Flux.Backend} `{LTX.Backend}.

Local Abbreviation step := (Server.step HAS_VIDEO HAS_IMAGE OUTPUT_DIR torch).
Local Abbreviation reachable := (Server.reachable HAS_VIDEO HAS_IMAGE OUTPUT_DIR torch).

(** *** What each piece does to the job table *)

Lemma generate_image_Ok job_id request st st' resp t :
  Server.generate_image HAS_IMAGE job_id request st = (st', Py.Ok (resp, t)) →
  Server.jobs st' = <[job_id := Server.job_pending]> (Server.jobs st) ∧
  t = Server.ImageTask request ∧
  resp = {| Server.job_id := job_id; Server.status := "pending";
            Server.result := None; Server.error := None |}.
Proof.
  unfold Server.generate_image. destruct HAS_IMAGE; simpl; [|done].
  by intros [= <- <- <-].
Qed.

Lemma generate_video_Ok job_id request st st' resp t :
  Server.generate_video HAS_VIDEO job_id request st = (st', Py.Ok (resp, t)) →
  Server.jobs st' = <[job_id := Server.job_pending]> (Server.jobs st) ∧
  t = Server.VideoTask request ∧
  resp = {| Server.job_id := job_id; Server.status := "pending";
            Server.result := None; Server.error := None |}.
Proof.
  unfold Server.generate_video. destruct HAS_VIDEO; simpl; [|done].
  by intros [= <- <- <-].
Qed.

Lemma task_start_Some job_id r st job :
  Server.jobs st !! job_id = Some job →
  Server.task_start job_id r st
    = (Server.with_jobs st
         (<[job_id := <["status" := Py.Str "processing"]> job]> (Server.jobs st)),
       Py.Ok (Server.Started r)).
Proof.
  intros Hjob.
  unfold Server.task_start, Server.mark_processing, Server.set_job, Py.try_except,
    Py.bind, Py.get, Py.lift, Py.getitem, Py.modify, Py.ret.
  by rewrite Hjob.
Qed.

Lemma task_resolve_Ok job_id r st st' t :
  Server.task_resolve OUTPUT_DIR torch job_id r st = (st', Py.Ok t) →
  (Server.jobs st' = Server.jobs st ∧ ∃ c, t = Server.Awaiting c) ∨
  (∃ msg, Server.jobs st' = <[job_id := Server.job_failed msg]> (Server.jobs st) ∧
          t = Server.Finished).
Proof.
  unfold Server.task_resolve, Py.try_except.
  destruct r as [request|request].
  - unfold Server.resolve_image_wrapper, Server.on_exception, Server.set_job,
      Py.bind, Py.get, Py.lift, Py.modify, Py.ret.
    destruct (Server.image_wrapper st) as [w|].
    + destruct (decide _).
      * destruct (Flux.__init__ _ _ _ _ _) as [w'|e]; simpl;
          intros [= <- <-]; eauto.
      * intros [= <- <-]; eauto.
    + destruct (Flux.__init__ _ _ _ _ _) as [w'|e]; simpl;
        intros [= <- <-]; eauto.
  - unfold Server.resolve_video_wrapper, Server.on_exception, Server.set_job,
      Py.bind, Py.get, Py.lift, Py.modify, Py.ret.
    destruct (Server.video_wrapper st) as [w|]; simpl; intros [= <- <-]; eauto.
Qed.

Lemma task_finish_total job_id outcome st :
  ∃ j, Server.terminal j ∧
    Server.task_finish job_id outcome st
      = (Server.with_jobs st (<[job_id := j]> (Server.jobs st)), Py.Ok Server.Finished) ∧
    match outcome with
    | Py.Ok (Py.Str p) | Py.Ok (Py.List (p :: _)) => j = Server.job_completed p
    | Py.Ok (Py.List []) =>
        j = Server.job_failed (Py.str_exn (Py.IndexError "list index out of range"))
    | Py.Raise e => j = Server.job_failed (Py.str_exn e)
    end.
Proof.
  unfold Server.task_finish, Server.on_exception, Server.set_job, Py.try_except,
    Py.bind, Py.lift, Py.modify, Py.ret, Server.terminal.
  destruct outcome as [[p|[|p rest]]|e]; simpl.
  - exists (Server.job_completed p). split; [left; eauto|done].
  - exists (Server.job_failed "list index out of range"). split; [right; eauto|done].
  - exists (Server.job_completed p). split; [left; eauto|done].
  - exists (Server.job_failed (Py.str_exn e)). split; [right; eauto|done].
Qed.

Lemma unload_models_jobs st st' msg :
  Server.unload_models st = (st', Py.Ok msg) → Server.jobs st' = Server.jobs st.
Proof. by intros [= <- <-]. Qed.

(** *** The invariant and the edges *)

Lemma task_job_inv (t : Server.task) (o : option Server.Job) :
  Server.task_job (Some t) o →
  match t with
  | Server.Scheduled _ => o = Some Server.job_pending
  | Server.Started _ | Server.Awaiting _ => o = Some Server.job_processing
  | Server.Finished => ∃ j, o = Some j ∧ Server.terminal j
  end.
Proof. intros Htj. inversion Htj; subst; eauto. Qed.

Lemma update_job (s s' : Server.System) job_id t j :
  Server.consistent s →
  Server.sys_jobs s' = <[job_id := j]> (Server.sys_jobs s) →
  Server.tasks s' = <[job_id := t]> (Server.tasks s) →
  Server.task_job (Some t) (Some j) →
  Server.job_edge (Server.sys_jobs s !! job_id) (Some j) →
  Server.consistent s' ∧
  ∀ id, Server.job_edge (Server.sys_jobs s !! id) (Server.sys_jobs s' !! id).
Proof.
  intros Hc Hjobs Htasks Htj Hedge. split.
  - intros id. rewrite Hjobs, Htasks.
    destruct (decide (job_id = id)) as [->|Hne].
    + by rewrite !lookup_insert_eq.
    + rewrite !lookup_insert_ne by done. apply Hc.
  - intros id. rewrite Hjobs.
    destruct (decide (job_id = id)) as [->|Hne].
    + by rewrite lookup_insert_eq.
    + rewrite lookup_insert_ne by done. constructor.
Qed.

Lemma keep_jobs (s s' : Server.System) :
  Server.consistent s →
  Server.sys_jobs s' = Server.sys_jobs s →
  Server.tasks s' = Server.tasks s →
  Server.consistent s' ∧
  ∀ id, Server.job_edge (Server.sys_jobs s !! id) (Server.sys_jobs s' !! id).
Proof.
  intros Hc Hjobs Htasks. split.
  - intros id. rewrite Hjobs, Htasks. apply Hc.
  - intros id. rewrite Hjobs. constructor.
Qed.

Lemma step_consistent (s s' : Server.System) :
  Server.consistent s → step s s' →
  Server.consistent s' ∧
  ∀ id, Server.job_edge (Server.sys_jobs s !! id) (Server.sys_jobs s' !! id).
Proof.
  intros Hc Hstep.
  destruct Hstep as
    [s job_id request st' resp t Hfresh Hrun
    |s job_id request st' resp t Hfresh Hrun
    |s job_id r st' t Htask Hrun
    |s job_id r st' t Htask Hrun
    |s job_id c fs' outcome st' t Htask Hback Hrun
    |s st' msg Hrun
    |s fs'].
  - apply generate_image_Ok in Hrun as (Hjobs & -> & _).
    apply (update_job s _ job_id (Server.Scheduled (Server.ImageTask request))
             Server.job_pending); try done.
    + constructor.
    + rewrite Hfresh. constructor.
  - apply generate_video_Ok in Hrun as (Hjobs & -> & _).
    apply (update_job s _ job_id (Server.Scheduled (Server.VideoTask request))
             Server.job_pending); try done.
    + constructor.
    + rewrite Hfresh. constructor.
  - pose proof (Hc job_id) as Hj. rewrite Htask in Hj.
    apply task_job_inv in Hj as Hjob. rewrite (task_start_Some _ _ _ _ Hjob) in Hrun.
    injection Hrun as <- <-.
    apply (update_job s _ job_id (Server.Started r) Server.job_processing); try done.
    + constructor.
    + unfold Server.sys_jobs in *. rewrite Hjob. constructor.
  - pose proof (Hc job_id) as Hj. rewrite Htask in Hj.
    apply task_job_inv in Hj as Hjob.
    apply task_resolve_Ok in Hrun as [[Hjobs [c ->]]|[msg [Hjobs ->]]].
    + apply (update_job s _ job_id (Server.Awaiting c) Server.job_processing); try done.
      * unfold Server.sys_jobs in *. simpl. rewrite Hjobs. by rewrite insert_id.
      * constructor.
      * rewrite Hjob. constructor.
    + apply (update_job s _ job_id Server.Finished (Server.job_failed msg)); try done.
      * constructor. right. eauto.
      * rewrite Hjob. constructor.
  - pose proof (Hc job_id) as Hj. rewrite Htask in Hj.
    apply task_job_inv in Hj as Hjob.
    destruct (task_finish_total job_id outcome (Server.state (Server.world s)))
      as (j & Hterm & Hfin & _).
    rewrite Hfin in Hrun. injection Hrun as <- <-.
    apply (update_job s _ job_id Server.Finished j); try done.
    + by constructor.
    + rewrite Hjob. destruct Hterm as [[p ->]|[msg ->]]; constructor.
  - apply unload_models_jobs in Hrun. by apply keep_jobs.
  - by apply keep_jobs.
Qed.

Lemma initial_consistent fs0 : Server.consistent (Server.initial fs0).
Proof.
  intros id. unfold Server.initial, Server.sys_jobs. simpl.
  rewrite !lookup_empty. constructor.
Qed.

Lemma steps_consistent (s s' : Server.System) :
  Server.consistent s → rtc step s s' → Server.consistent s'.
Proof.
  intros Hc Hsteps. induction Hsteps as [|s s1 s' Hstep _ IH]; [done|].
  apply IH. by apply (step_consistent s s1).
Qed.

Lemma reachable_consistent (s : Server.System) : reachable s → Server.consistent s.
Proof. intros [fs0 Hsteps]. eapply steps_consistent; [apply initial_consistent|done]. Qed.



(** *** The work items as written are their pieces run in a row *)

Lemma process_image_generation_pieces job_id request (w : Server.World) :
  Server.process_image_generation OUTPUT_DIR torch job_id request w =
    match Server.task_start job_id (Server.ImageTask request) (Server.state w) with
    | (st1, Py.Ok (Server.Started r)) =>
        match Server.task_resolve OUTPUT_DIR torch job_id r st1 with
        | (st2, Py.Ok (Server.Awaiting c)) =>
            match Server.run_backend c (Server.fs w) with
            | (fs', outcome) =>
                ({| Server.state := (Server.task_finish job_id outcome st2).1;
                    Server.fs := fs' |}, Py.Ok tt)
            end
        | (st2, _) => ({| Server.state := st2; Server.fs := Server.fs w |}, Py.Ok tt)
        end
    | (st1, _) => ({| Server.state := st1; Server.fs := Server.fs w |}, Py.Ok tt)
    end.
Proof.
  unfold Server.process_image_generation, Server.task_start, Server.task_resolve,
    Server.task_finish, Server.run_backend, Server.mark_processing,
    Server.on_exception, Server.set_job, Server.on_state, Server.on_fs,
    Py.try_except, Py.bind, Py.get, Py.lift, Py.getitem, Py.modify, Py.ret.
  simpl.
  destruct (Server.jobs (Server.state w) !! job_id) as [job|]; simpl; [|done].
  destruct (Server.resolve_image_wrapper torch request _) as [st2 [wr|e]]; simpl; [|done].
  destruct (Flux.generate_image wr _ (Server.fs w)) as [fs' [[p|[|p rest]]|e]]; done.
Qed.

Lemma process_video_generation_pieces job_id request (w : Server.World) :
  Server.process_video_generation OUTPUT_DIR torch job_id request w =
    match Server.task_start job_id (Server.VideoTask request) (Server.state w) with
    | (st1, Py.Ok (Server.Started r)) =>
        match Server.task_resolve OUTPUT_DIR torch job_id r st1 with
        | (st2, Py.Ok (Server.Awaiting c)) =>
            match Server.run_backend c (Server.fs w) with
            | (fs', outcome) =>
                ({| Server.state := (Server.task_finish job_id outcome st2).1;
                    Server.fs := fs' |}, Py.Ok tt)
            end
        | (st2, _) => ({| Server.state := st2; Server.fs := Server.fs w |}, Py.Ok tt)
        end
    | (st1, _) => ({| Server.state := st1; Server.fs := Server.fs w |}, Py.Ok tt)
    end.
Proof.
  unfold Server.process_video_generation, Server.task_start, Server.task_resolve,
    Server.task_finish, Server.run_backend, Server.mark_processing,
    Server.on_exception, Server.set_job, Server.on_state, Server.on_fs,
    Py.try_except, Py.bind, Py.get, Py.lift, Py.getitem, Py.modify, Py.ret.
  simpl.
  destruct (Server.jobs (Server.state w) !! job_id) as [job|]; simpl; [|done].
  destruct (Server.resolve_video_wrapper torch _) as [st2 [wr|e]]; simpl; [|done].
  destruct (LTX.generate_video wr _ (Server.fs w)) as [fs' [p|e]]; done.
Qed.

(** *** The moves as functions are moves *)

Lemma task_start_total job_id r st :
  ∃ st' t, Server.task_start job_id r st = (st', Py.Ok t).
Proof.
  unfold Server.task_start, Server.mark_processing, Server.on_exception,
    Server.set_job, Py.try_except, Py.bind, Py.get, Py.lift, Py.getitem,
    Py.modify, Py.ret.
  destruct (Server.jobs st !! job_id); simpl; eauto.
Qed.

Lemma task_resolve_total job_id r st :
  ∃ st' t, Server.task_resolve OUTPUT_DIR torch job_id r st = (st', Py.Ok t).
Proof.
  unfold Server.task_resolve, Server.on_exception, Server.set_job, Py.try_except,
    Py.bind, Py.modify, Py.ret.
  destruct r as [request|request].
  - destruct (Server.resolve_image_wrapper torch request st) as [st' [w|e]]; eauto.
  - destruct (Server.resolve_video_wrapper torch st) as [st' [w|e]]; eauto.
Qed.

Lemma submit_image_step job_id request (s : Server.System) :
  HAS_IMAGE = true → Server.sys_jobs s !! job_id = None →
  step s (Server.submit_image HAS_IMAGE job_id request s).
Proof.
  intros Himg Hfresh. unfold Server.submit_image.
  destruct (Server.generate_image HAS_IMAGE job_id request _)
    as [st' [[resp t]|e]] eqn:Hrun.
  - by eapply Server.step_generate_image.
  - unfold Server.generate_image in Hrun. by rewrite Himg in Hrun.
Qed.

Lemma advance_step job_id (s : Server.System) t :
  Server.tasks s !! job_id = Some t → t ≠ Server.Finished →
  step s (Server.advance OUTPUT_DIR torch job_id s).
Proof.
  intros Htask Hnot. unfold Server.advance. rewrite Htask.
  destruct t as [r|r|c|]; [| | |done].
  - destruct (task_start_total job_id r (Server.state (Server.world s)))
      as (st' & t & Hrun). rewrite Hrun. by eapply Server.step_task_start.
  - destruct (task_resolve_total job_id r (Server.state (Server.world s)))
      as (st' & t & Hrun). rewrite Hrun. by eapply Server.step_task_resolve.
  - destruct (Server.run_backend c _) as [fs' outcome] eqn:Hb.
    destruct (task_finish_total job_id outcome (Server.state (Server.world s)))
      as (j & _ & Hrun & _). rewrite Hrun. by eapply Server.step_task_finish.
Qed.

Lemma reachable_step (s s' : Server.System) : reachable s → step s s' → reachable s'.
Proof. intros [fs0 Hsteps] Hstep. exists fs0. by eapply rtc_r. Qed.
(** *** Every work item runs to its end *)

Lemma task_start_None job_id r st :
  Server.jobs st !! job_id = None →
  Server.task_start job_id r st
    = (Server.with_jobs st
         (<[job_id := Server.job_failed (Py.repr_str job_id)]> (Server.jobs st)),
       Py.Ok Server.Finished).
Proof.
  intros Hjob.
  unfold Server.task_start, Server.mark_processing, Server.on_exception, Server.set_job,
    Py.try_except, Py.bind, Py.get, Py.lift, Py.getitem, Py.modify, Py.ret.
  by rewrite Hjob.
Qed.




(** Run without interruption, the work items as written never raise and
    leave the record of their job completed or failed. *)
Lemma process_image_generation_terminal job_id request (w : Server.World) :
  (Server.process_image_generation OUTPUT_DIR torch job_id request w).2 = Py.Ok tt ∧
  ∃ j, Server.jobs (Server.state
         (Server.process_image_generation OUTPUT_DIR torch job_id request w).1)
         !! job_id = Some j ∧ Server.terminal j.
Proof.
  rewrite process_image_generation_pieces.
  destruct (Server.jobs (Server.state w) !! job_id) as [job|] eqn:Hjob.
  - rewrite (task_start_Some _ _ _ _ Hjob).
    destruct (Server.task_resolve _ _ _ _ _) as [st2 [t|e]] eqn:Hres.
    + apply task_resolve_Ok in Hres as [[_ [c ->]]|[msg [Hjobs ->]]].
      * destruct (Server.run_backend c (Server.fs w)) as [fs' outcome].
        destruct (task_finish_total job_id outcome st2) as (j & Hterm & -> & _).
        simpl. rewrite lookup_insert_eq. eauto.
      * simpl. rewrite Hjobs, lookup_insert_eq. split; [done|].
        eexists. split; [done|]. right. eauto.
    + destruct (task_resolve_total job_id (Server.ImageTask request)
                  (Server.with_jobs (Server.state w)
                     (<[job_id:=<["status":=Py.Str "processing"]> job]>
                        (Server.jobs (Server.state w))))) as (st'' & t & Hrun').
      congruence.
  - rewrite (task_start_None _ _ _ Hjob). simpl. rewrite lookup_insert_eq.
    split; [done|]. eexists. split; [done|]. right. eauto.
Qed.

Lemma process_video_generation_terminal job_id request (w : Server.World) :
  (Server.process_video_generation OUTPUT_DIR torch job_id request w).2 = Py.Ok tt ∧
  ∃ j, Server.jobs (Server.state
         (Server.process_video_generation OUTPUT_DIR torch job_id request w).1)
         !! job_id = Some j ∧ Server.terminal j.
Proof.
  rewrite process_video_generation_pieces.
  destruct (Server.jobs (Server.state w) !! job_id) as [job|] eqn:Hjob.
  - rewrite (task_start_Some _ _ _ _ Hjob).
    destruct (Server.task_resolve _ _ _ _ _) as [st2 [t|e]] eqn:Hres.
    + apply task_resolve_Ok in Hres as [[_ [c ->]]|[msg [Hjobs ->]]].
      * destruct (Server.run_backend c (Server.fs w)) as [fs' outcome].
        destruct (task_finish_total job_id outcome st2) as (j & Hterm & -> & _).
        simpl. rewrite lookup_insert_eq. eauto.
      * simpl. rewrite Hjobs, lookup_insert_eq. split; [done|].
        eexists. split; [done|]. right. eauto.
    + destruct (task_resolve_total job_id (Server.VideoTask request)
                  (Server.with_jobs (Server.state w)
                     (<[job_id:=<["status":=Py.Str "processing"]> job]>
                        (Server.jobs (Server.state w))))) as (st'' & t & Hrun').
      congruence.
  - rewrite (task_start_None _ _ _ Hjob). simpl. rewrite lookup_insert_eq.
    split; [done|]. eexists. split; [done|]. right. eauto.
Qed.

Lemma resolve_image_wrapper_jobs request st st' r :
  Server.resolve_image_wrapper torch request st = (st', r) →
  Server.jobs st' = Server.jobs st.
Proof.
  unfold Server.resolve_image_wrapper, Py.bind, Py.get, Py.lift, Py.modify, Py.ret.
  destruct (Server.image_wrapper st) as [w|].
  - destruct (decide _).
    + destruct (Flux.__init__ _ _ _ _ _) as [w'|e]; simpl; by intros [= <- <-].
    + by intros [= <- <-].
  - destruct (Flux.__init__ _ _ _ _ _) as [w'|e]; simpl; by intros [= <- <-].
Qed.


(** *** The work items as written, from a known job to their end *)

Lemma process_image_generation_run job_id request (w : Server.World) job :
  Server.jobs (Server.state w) !! job_id = Some job →
  ∃ st1,
    Server.task_start job_id (Server.ImageTask request) (Server.state w)
      = (st1, Py.Ok (Server.Started (Server.ImageTask request))) ∧
    Server.jobs st1
      = <[job_id := <["status" := Py.Str "processing"]> job]> (Server.jobs (Server.state w)) ∧
    ∀ st2 r,
      Server.resolve_image_wrapper torch request st1 = (st2, r) →
      Server.jobs st2 = Server.jobs st1 ∧
      match r with
      | Py.Raise e =>
          Server.process_image_generation OUTPUT_DIR torch job_id request w
            = ({| Server.state :=
                    Server.with_jobs st2
                      (<[job_id := Server.job_failed (Py.str_exn e)]> (Server.jobs st2));
                  Server.fs := Server.fs w |}, Py.Ok tt)
      | Py.Ok wr =>
          ∀ fs' outcome,
            Flux.generate_image wr (Server.image_config OUTPUT_DIR job_id request)
              (Server.fs w) = (fs', outcome) →
            Server.process_image_generation OUTPUT_DIR torch job_id request w
              = ({| Server.state :=
                      Server.with_jobs st2
                        (<[job_id :=
                             match outcome with
                             | Py.Ok (Py.Str p) | Py.Ok (Py.List (p :: _)) =>
                                 Server.job_completed p
                             | Py.Ok (Py.List []) =>
                                 Server.job_failed "list index out of range"
                             | Py.Raise e => Server.job_failed (Py.str_exn e)
                             end]> (Server.jobs st2));
                    Server.fs := fs' |}, Py.Ok tt)
      end.
Proof.
  intros Hjob. eexists. split; [by apply task_start_Some|]. split; [done|].
  intros st2 r Hres. split; [by apply resolve_image_wrapper_jobs in Hres|].
  rewrite process_image_generation_pieces, (task_start_Some _ _ _ _ Hjob).
  unfold Server.task_resolve, Server.on_exception, Server.set_job,
    Py.try_except, Py.bind, Py.modify, Py.ret.
  rewrite Hres. destruct r as [wr|e]; [|done].
  intros fs' outcome Hrun. cbn beta iota. unfold Server.run_backend. rewrite Hrun.
  destruct (task_finish_total job_id outcome st2) as (j & _ & -> & Hj).
  simpl. by destruct outcome as [[p|[|p rest]]|e]; subst j.
Qed.


(** A record has a result exactly when it is completed. *)
Lemma result_iff_completed (j : Server.Job) :
  j = Server.job_pending ∨ j = Server.job_processing ∨ Server.terminal j →
  (is_Some (j !! "result") ↔ j !! "status" = Some (Py.Str "completed")).
Proof.
  intros [->|[->|[[p ->]|[msg ->]]]].
  - destruct job_pending_fields as (-> & -> & _). split; [by intros [? ?]|done].
  - destruct job_processing_fields as (-> & -> & _). split; [by intros [? ?]|done].
  - destruct (job_completed_fields p) as (-> & -> & _). split; eauto.
  - destruct (job_failed_fields msg) as (-> & -> & _). split; [by intros [? ?]|done].
Qed.

(** *** The life of a job *)


(** *** The result field *)

(** C2, as the code has it — For a submitted job whose backend call
    returns, the work item ends with the status completed and one path in
    the result field: for a video the path returned; for an image the path
    returned or, when a list of paths is returned (a request for more than
    one image), the first path of the list.  An image backend call that
    returns the empty list ends the job failed, with no result.  The record
    a work item leaves, and every record of every state the server can
    reach, has a result exactly when its status is completed. *)
Theorem result_recorded (job_id : string) (w : Server.World) :
  is_Some (Server.jobs (Server.state w) !! job_id) →
  (∀ request wr result p,
     (Server.resolve_image_wrapper torch request
        (Server.task_start job_id (Server.ImageTask request) (Server.state w)).1).2
       = Py.Ok wr →
     (Flux.generate_image wr (Server.image_config OUTPUT_DIR job_id request)
        (Server.fs w)).2 = Py.Ok result →
     result = Py.Str p ∨ (∃ rest, result = Py.List (p :: rest)) →
     ∃ job,
       Server.jobs (Server.state
          (Server.process_image_generation OUTPUT_DIR torch job_id request w).1)
         !! job_id = Some job ∧
       job !! "status" = Some (Py.Str "completed") ∧
       job !! "result" = Some (Py.Str p) ∧ job !! "error" = None) ∧
  (∀ request wr p,
     (Server.resolve_video_wrapper torch
        (Server.task_start job_id (Server.VideoTask request) (Server.state w)).1).2
       = Py.Ok wr →
     (LTX.generate_video wr (Server.video_config OUTPUT_DIR job_id request)
        (Server.fs w)).2 = Py.Ok p →
     ∃ job,
       Server.jobs (Server.state
          (Server.process_video_generation OUTPUT_DIR torch job_id request w).1)
         !! job_id = Some job ∧
       job !! "status" = Some (Py.Str "completed") ∧
       job !! "result" = Some (Py.Str p) ∧ job !! "error" = None) ∧
  (∀ request wr,
     (Server.resolve_image_wrapper torch request
        (Server.task_start job_id (Server.ImageTask request) (Server.state w)).1).2
       = Py.Ok wr →
     (Flux.generate_image wr (Server.image_config OUTPUT_DIR job_id request)
        (Server.fs w)).2 = Py.Ok (Py.List []) →
     ∃ job,
       Server.jobs (Server.state
          (Server.process_image_generation OUTPUT_DIR torch job_id request w).1)
         !! job_id = Some job ∧
       job !! "status" = Some (Py.Str "failed") ∧
       job !! "result" = None ∧
       job !! "error" = Some (Py.Str "list index out of range")) ∧
  (∀ request,
     ∃ job,
       Server.jobs (Server.state
          (Server.process_image_generation OUTPUT_DIR torch job_id request w).1)
         !! job_id = Some job ∧
       (is_Some (job !! "result") ↔ job !! "status" = Some (Py.Str "completed"))) ∧
  (∀ request,
     ∃ job,
       Server.jobs (Server.state
          (Server.process_video_generation OUTPUT_DIR torch job_id request w).1)
         !! job_id = Some job ∧
       (is_Some (job !! "result") ↔ job !! "status" = Some (Py.Str "completed"))) ∧
  (∀ s id job,
     reachable s → Server.sys_jobs s !! id = Some job →
     (is_Some (job !! "result") ↔ job !! "status" = Some (Py.Str "completed"))).
Proof.
  intros [job0 Hjob]. repeat apply conj.
  - intros request wr result p Hres Hgen Hp.
    exists (Server.job_completed p). split; [|apply job_completed_fields].
    rewrite process_image_generation_pieces.
    rewrite (task_start_Some _ _ _ _ Hjob) in Hres |- *. simpl in Hres.
    unfold Server.task_resolve, Py.try_except, Py.bind, Py.ret.
    destruct (Server.resolve_image_wrapper torch request _) as [st2 r1].
    simpl in Hres. subst r1. unfold Server.run_backend.
    destruct (Flux.generate_image wr _ (Server.fs w)) as [fs' r2].
    simpl in Hgen. subst r2. simpl.
    destruct (task_finish_total job_id (Py.Ok result) st2) as (j & _ & -> & Hj).
    simpl. rewrite lookup_insert_eq.
    by destruct Hp as [->|[rest ->]]; subst j.
  - intros request wr p Hres Hgen.
    exists (Server.job_completed p). split; [|apply job_completed_fields].
    rewrite process_video_generation_pieces.
    rewrite (task_start_Some _ _ _ _ Hjob) in Hres |- *. simpl in Hres.
    unfold Server.task_resolve, Py.try_except, Py.bind, Py.ret.
    destruct (Server.resolve_video_wrapper torch _) as [st2 r1].
    simpl in Hres. subst r1. unfold Server.run_backend, Py.bind, Py.ret.
    destruct (LTX.generate_video wr _ (Server.fs w)) as [fs' r2].
    simpl in Hgen. subst r2. simpl.
    by rewrite lookup_insert_eq.
  - intros request wr Hres Hgen.
    exists (Server.job_failed "list index out of range").
    destruct (job_failed_fields "list index out of range") as (Hs & Hr & He).
    split; [|done].
    destruct (process_image_generation_run job_id request w _ Hjob)
      as (st1 & Hstart & _ & Hrest).
    rewrite Hstart in Hres. cbn [fst] in Hres.
    destruct (Server.resolve_image_wrapper torch request st1) as [st2 r] eqn:Hresolve.
    simpl in Hres. subst r.
    destruct (Hrest st2 _ eq_refl) as [_ Hend].
    destruct (Flux.generate_image wr _ (Server.fs w)) as [fs' outcome] eqn:Hrun.
    simpl in Hgen. subst outcome.
    rewrite (Hend fs' _ eq_refl). simpl. by rewrite lookup_insert_eq.
  - intros request.
    destruct (process_image_generation_terminal job_id request w) as (_ & j & Hj & Hterm).
    exists j. split; [done|]. apply result_iff_completed. auto.
  - intros request.
    destruct (process_video_generation_terminal job_id request w) as (_ & j & Hj & Hterm).
    exists j. split; [done|]. apply result_iff_completed. auto.
  - intros s id job Hreach Hid.
    pose proof (reachable_consistent s Hreach id) as Htj. rewrite Hid in Htj.
    apply result_iff_completed.
    inversion Htj; subst; auto.
Qed.

(** *** Downloading a result *)

(** C3 — In every state the server can reach and on any disk,
    [download_result] fails with 404 "Job not found" for an unknown job;
    otherwise the record has a status, and if that is not completed the call
    fails with 400 and the detail "Job status: " followed by the status,
    whether or not any file exists; otherwise the record has a result path,
    and if nothing exists at that path the call fails with 404 "Generated
    file not found"; otherwise it answers with that path. *)
Theorem download_result_order (s : Server.System) (job_id : string) (fs : Posix.FS) :
  reachable s →
  match Server.jobs (Server.state (Server.world s)) !! job_id with
  | None =>
      Server.download_result job_id (Server.state (Server.world s)) fs
        = Py.Raise (Py.HTTPException 404 "Job not found")
  | Some job =>
      ∃ status, job !! "status" = Some (Py.Str status) ∧
        if decide (status = "completed") then
          ∃ result, job !! "result" = Some (Py.Str result) ∧
            if Posix.path_exists fs (Posix.Path_of_str result) then
              ∃ resp,
                Server.download_result job_id (Server.state (Server.world s)) fs
                  = Py.Ok resp ∧
                Server.path resp = Posix.Path_of_str result
            else
              Server.download_result job_id (Server.state (Server.world s)) fs
                = Py.Raise (Py.HTTPException 404 "Generated file not found")
        else
          Server.download_result job_id (Server.state (Server.world s)) fs
            = Py.Raise (Py.HTTPException 400 ("Job status: " +:+ status))
  end.
Proof.
  intros Hreach. pose proof (reachable_consistent s Hreach job_id) as Hj.
  unfold Server.sys_jobs in Hj. unfold Server.download_result, Py.getitem.
  destruct (Server.jobs (Server.state (Server.world s)) !! job_id) as [job|]; [|done].
  inversion Hj as [|r Ht Hjob|r Ht Hjob|c Ht Hjob|j Hterm Ht Hjob]; subst.
  - exists "pending". by vm_compute.
  - exists "processing". by vm_compute.
  - exists "processing". by vm_compute.
  - destruct Hterm as [[p ->]|[msg ->]].
    + exists "completed". destruct (job_completed_fields p) as (-> & -> & _).
      split; [done|]. rewrite decide_True by done. exists p. split; [done|].
      rewrite decide_False by (by intros ?).
      destruct (Posix.path_exists fs (Posix.Path_of_str p)); simpl; eauto.
    + exists "failed". destruct (job_failed_fields msg) as (-> & _ & _).
      split; [done|]. rewrite decide_False by done.
      by rewrite decide_True.
Qed.

End Coordinator.

(** ** One image job, run to its end *)

Lemma reachable_submitted n : Examples.reachable (Examples.submitted n).
Proof.
  eapply reachable_step; [exists ∅; apply rtc_refl|].
  by apply submit_image_step.
Qed.

Lemma reachable_started n : Examples.reachable (Examples.started n).
Proof.
  eapply reachable_step; [apply reachable_submitted|].
  eapply advance_step with (t := Server.Scheduled _); [|done].
  vm_compute. reflexivity.
Qed.

Lemma reachable_awaiting n : Examples.reachable (Examples.awaiting n).
Proof.
  eapply reachable_step; [apply reachable_started|].
  eapply advance_step with (t := Server.Started _); [|done].
  vm_compute. reflexivity.
Qed.

Lemma reachable_finished n : Examples.reachable (Examples.finished n).
Proof.
  eapply reachable_step; [apply reachable_awaiting|].
  eapply advance_step with (t := Server.Awaiting _); [|done].
  vm_compute. reflexivity.
Qed.

Example finished_job_1 :
  Server.sys_jobs (Examples.finished 1) !! "job-1"
    = Some (Server.job_completed "outputs/job-1.png") ∧
  Posix.path_exists (Server.fs (Server.world (Examples.finished 1)))
    ["outputs"; "job-1.png"] = true.
Proof. split; vm_compute; reflexivity. Qed.


(** For one image, the whole work item of [job-1] records the path of the
    image and the status completed; with a pipeline that delivers nothing
    for a request for two images, it records a failure and no result. *)
Lemma result_recorded_witness :
  (∃ job,
    Server.jobs (Server.state
       (@Server.process_image_generation Examples.OUTPUT_DIR Examples.cpu_only
          Examples.flux_backend "job-1" (Examples.image_request 1)
          (Server.world (Examples.submitted 1))).1) !! "job-1" = Some job ∧
    job !! "status" = Some (Py.Str "completed") ∧
    job !! "result" = Some (Py.Str "outputs/job-1.png") ∧ job !! "error" = None) ∧
  (∃ job,
    Server.jobs (Server.state
       (@Server.process_image_generation Examples.OUTPUT_DIR Examples.cpu_only
          Examples.flux_backend_none "job-1" (Examples.image_request 2)
          (Server.world (Examples.submitted 2))).1) !! "job-1" = Some job ∧
    job !! "status" = Some (Py.Str "failed") ∧
    job !! "result" = None ∧
    job !! "error" = Some (Py.Str "list index out of range")).
Proof.
  split.
  - assert (Hjob : is_Some (Server.jobs
                     (Server.state (Server.world (Examples.submitted 1))) !! "job-1")).
    { exists Server.job_pending. vm_compute. reflexivity. }
    refine (proj1 (@result_recorded true true Examples.OUTPUT_DIR Examples.cpu_only
                     Examples.flux_backend Examples.ltx_backend "job-1"
                     (Server.world (Examples.submitted 1)) Hjob)
              (Examples.image_request 1) Examples.schnell_wrapper
              (Py.Str "outputs/job-1.png") "outputs/job-1.png" _ _ (or_introl eq_refl)).
    + vm_compute. reflexivity.
    + vm_compute. reflexivity.
  - assert (Hjob : is_Some (Server.jobs
                     (Server.state (Server.world (Examples.submitted 2))) !! "job-1")).
    { exists Server.job_pending. vm_compute. reflexivity. }
    refine (proj1 (proj2 (proj2
              (@result_recorded true true Examples.OUTPUT_DIR Examples.cpu_only
                 Examples.flux_backend_none Examples.ltx_backend "job-1"
                 (Server.world (Examples.submitted 2)) Hjob)))
              (Examples.image_request 2) Examples.schnell_wrapper _ _).
    + vm_compute. reflexivity.
    + vm_compute. reflexivity.
Defined.

(** C2, as stated, fails: for a request for two images the backend returns
    two paths and the finished job holds only the first of them. *)
Lemma only_first_path_recorded :
  (@Flux.generate_image Examples.flux_backend Examples.schnell_wrapper
     (Server.image_config Examples.OUTPUT_DIR "job-1" (Examples.image_request 2)) ∅).2
    = Py.Ok (Py.List ["outputs/job-1_0.png"; "outputs/job-1_1.png"]) ∧
  Server.jobs (Server.state
     (@Server.process_image_generation Examples.OUTPUT_DIR Examples.cpu_only
        Examples.flux_backend "job-1" (Examples.image_request 2)
        (Server.world (Examples.submitted 2))).1) !! "job-1"
    = Some (Server.job_completed "outputs/job-1_0.png") ∧
  Server.sys_jobs (Examples.finished 2) !! "job-1"
    = Some (Server.job_completed "outputs/job-1_0.png") ∧
  Server.job_completed "outputs/job-1_0.png" !! "result"
    = Some (Py.Str "outputs/job-1_0.png") ∧
  Py.Str "outputs/job-1_0.png"
    ≠ Py.List ["outputs/job-1_0.png"; "outputs/job-1_1.png"].
Proof. repeat split; try discriminate; vm_compute; reflexivity. Qed.

(** While [job-1] is processing, a download is refused with its status even
    though a file lies at the output path; once it is completed, the download
    fails on a disk without the file and answers with the path otherwise. *)
Lemma download_result_order_witness :
  Server.download_result "job-1" (Server.state (Server.world (Examples.awaiting 1)))
    (Server.fs (Server.world (Examples.finished 1)))
    = Py.Raise (Py.HTTPException 400 "Job status: processing") ∧
  Server.download_result "job-1" (Server.state (Server.world (Examples.finished 1))) ∅
    = Py.Raise (Py.HTTPException 404 "Generated file not found") ∧
  Server.download_result "job-2" (Server.state (Server.world (Examples.finished 1))) ∅
    = Py.Raise (Py.HTTPException 404 "Job not found") ∧
  ∃ resp,
    Server.download_result "job-1" (Server.state (Server.world (Examples.finished 1)))
      (Server.fs (Server.world (Examples.finished 1))) = Py.Ok resp ∧
    Server.path resp = ["outputs"; "job-1.png"].
Proof.
  pose proof (@download_result_order true true Examples.OUTPUT_DIR Examples.cpu_only
                Examples.flux_backend Examples.ltx_backend) as Hthm.
  assert (Hawait : Server.jobs (Server.state (Server.world (Examples.awaiting 1)))
                     !! "job-1" = Some Server.job_processing)
    by (vm_compute; reflexivity).
  assert (Hfin : Server.jobs (Server.state (Server.world (Examples.finished 1)))
                   !! "job-1" = Some (Server.job_completed "outputs/job-1.png"))
    by (vm_compute; reflexivity).
  assert (Hnone : Server.jobs (Server.state (Server.world (Examples.finished 1)))
                    !! "job-2" = None)
    by (vm_compute; reflexivity).
  split; [|split; [|split]].
  - pose proof (Hthm (Examples.awaiting 1) "job-1"
                  (Server.fs (Server.world (Examples.finished 1)))
                  (reachable_awaiting 1)) as Hw.
    rewrite Hawait in Hw. destruct Hw as (status & Hs & Hw).
    vm_compute in Hs. injection Hs as <-.
    destruct (decide _) as [|_]; [done|]. exact Hw.
  - pose proof (Hthm (Examples.finished 1) "job-1" ∅ (reachable_finished 1)) as Hw.
    rewrite Hfin in Hw. destruct Hw as (status & Hs & Hw).
    destruct (job_completed_fields "outputs/job-1.png") as (Hst & Hres & _).
    rewrite Hst in Hs. injection Hs as <-.
    destruct (decide _) as [_|]; [|done].
    destruct Hw as (result & Hr & Hw). rewrite Hres in Hr. injection Hr as <-.
    exact Hw.
  - pose proof (Hthm (Examples.finished 1) "job-2" ∅ (reachable_finished 1)) as Hw.
    rewrite Hnone in Hw. exact Hw.
  - pose proof (Hthm (Examples.finished 1) "job-1"
                  (Server.fs (Server.world (Examples.finished 1)))
                  (reachable_finished 1)) as Hw.
    rewrite Hfin in Hw. destruct Hw as (status & Hs & Hw).
    destruct (job_completed_fields "outputs/job-1.png") as (Hst & Hres & _).
    rewrite Hst in Hs. injection Hs as <-.
    destruct (decide _) as [_|]; [|done].
    destruct Hw as (result & Hr & Hw). rewrite Hres in Hr. injection Hr as <-.
    assert (Hex : Posix.path_exists (Server.fs (Server.world (Examples.finished 1)))
                    (Posix.Path_of_str "outputs/job-1.png") = true)
      by (vm_compute; reflexivity).
    rewrite Hex in Hw. exact Hw.
Defined.

(* ===================================================================== *)
(** * Further properties of the downloader                                *)
(* ===================================================================== *)

(** ** Unknown models and repeated downloads *)

Lemma get_model_info_None model_id :
  Downloader.get_model_info model_id = None ↔
  model_id ∉ (Downloader.id <$> Downloader.AVAILABLE_MODELS).
Proof.
  split.
  - intros Hnone (model & -> & Hin)%list_elem_of_fmap.
    by rewrite (get_model_info_catalog model Hin) in Hnone.
  - intros Hnot. destruct (Downloader.get_model_info model_id) as [model|] eqn:Hinfo; [|done].
    apply get_model_info_Some in Hinfo as [Hin <-].
    destruct Hnot. apply list_elem_of_fmap. eauto.
Qed.

(** X1 — For an identifier that is not in the catalog, [download_model]
    raises [ValueError("Unknown model: <id>")] whatever [force] is, and
    [download_with_callback] turns that into the pair of the identifier and
    the string "error: Unknown model: <id>"; neither changes the downloader,
    the disk or the list of transfers, and [is_downloaded] is false whatever
    the disk holds. *)
Theorem unknown_model `{Downloader.Hub} (model_id : string) (force : bool)
    (st : Downloader.State) :
  model_id ∉ (Downloader.id <$> Downloader.AVAILABLE_MODELS) →
  Downloader.download_model model_id force st
    = (st, Py.Raise (Py.ValueError ("Unknown model: " +:+ model_id))) ∧
  Downloader.download_with_callback model_id st
    = (st, Py.Ok (model_id, "error: Unknown model: " +:+ model_id)) ∧
  Downloader.is_downloaded model_id st = false.
Proof.
  intros Hnone%get_model_info_None.
  unfold Downloader.download_with_callback, Py.try_except, Py.bind,
    Downloader.download_model, Downloader.is_downloaded.
  by rewrite Hnone.
Qed.

Lemma unknown_model_witness :
  @Downloader.download_model Examples.hub_online "flux-pro" true
      (Examples.downloader Examples.fs_partial)
    = (Examples.downloader Examples.fs_partial,
       Py.Raise (Py.ValueError "Unknown model: flux-pro")) ∧
  @Downloader.download_with_callback Examples.hub_online "flux-pro"
      (Examples.downloader Examples.fs_partial)
    = (Examples.downloader Examples.fs_partial,
       Py.Ok ("flux-pro", "error: Unknown model: flux-pro")).
Proof.
  destruct (@unknown_model Examples.hub_online "flux-pro" true
              (Examples.downloader Examples.fs_partial)) as (Hd & Hc & _).
  { by apply (bool_decide_unpack _). }
  split; [exact Hd|exact Hc].
Defined.

(** X2 — A call of [download_model] that returns a path has made the model
    downloaded, and an unforced call right after it returns the same path at
    once: it changes nothing and makes no transfer. *)
Theorem download_then_download `{Downloader.Hub} (model_id : string) (force : bool)
    (st st' : Downloader.State) (p : Posix.Path) :
  Downloader.download_model model_id force st = (st', Py.Ok p) →
  Downloader.is_downloaded model_id st' = true ∧
  Downloader.download_model model_id false st' = (st', Py.Ok p).
Proof.
  intros Hrun.
  destruct (Downloader.get_model_info model_id) as [model|] eqn:Hinfo.
  2:{ unfold Downloader.download_model in Hrun. by rewrite Hinfo in Hrun. }
  assert (Hdone : Downloader.is_downloaded model_id st' = true ∧
                  p = Downloader.model_dir_of st' model model_id).
  { destruct (Downloader.is_downloaded model_id st && negb force) eqn:Hgo.
    - unfold Downloader.download_model, Py.bind, Py.get, Py.ret in Hrun.
      rewrite Hinfo, Hgo in Hrun. injection Hrun as <- <-.
      by apply andb_true_iff in Hgo as [-> _].
    - rewrite (download_model_run model_id model force st Hinfo Hgo) in Hrun.
      simpl in Hrun.
      destruct (Posix.mkdir_parents _ _) as [fs1 [[]|e]]; [|done].
      destruct (Downloader.snapshot_download _ _ _ fs1) as [fs2 [[]|e]]; [|done].
      destruct (Posix.write_text _ _ fs2) as [fs3 [[]|e]] eqn:Hwr; [|done].
      injection Hrun as <- <-. apply write_text_marker in Hwr. split; [|done].
      apply (is_downloaded_marker _ _ _ Hinfo). simpl.
      unfold Downloader.model_dir_of in *. simpl. rewrite Hwr. eauto. }
  destruct Hdone as [Hd ->]. split; [done|].
  unfold Downloader.download_model, Py.bind, Py.get, Py.ret.
  by rewrite Hinfo, Hd.
Qed.

Lemma download_then_download_witness :
  Downloader.is_downloaded "flux-dev"
    (@Downloader.download_model Examples.hub_online "flux-dev" false
       (Examples.downloader Examples.fs_partial)).1 = true.
Proof.
  destruct (@Downloader.download_model Examples.hub_online "flux-dev" false
              (Examples.downloader Examples.fs_partial)) as [st' r] eqn:Hrun.
  assert (Hr : r = Py.Ok Examples.flux_dev_dir).
  { apply (f_equal snd) in Hrun. simpl in Hrun. rewrite <- Hrun. vm_compute. reflexivity. }
  subst r. exact (proj1 (@download_then_download Examples.hub_online _ _ _ _ _ Hrun)).
Defined.

(** ** The list of downloaded models *)

Lemma foldl_append_if {A B} (P : A → bool) (f : A → B) (l : list A) (acc : list B) :
  foldl (λ acc x, if P x then acc ++ [f x] else acc) acc l
    = acc ++ (f <$> filter (λ x, P x = true) l).
Proof.
  revert acc. induction l as [|x l IH]; intros acc; simpl.
  - by rewrite app_nil_r.
  - rewrite IH. rewrite filter_cons. destruct (P x) eqn:HP.
    + rewrite decide_True by done. simpl. by rewrite <- app_assoc.
    + rewrite decide_False by done. done.
Qed.

Lemma filter_fmap_comm {A B} (f : A → B) (P : B → Prop) `{!∀ y, Decision (P y)}
    (l : list A) :
  filter P (f <$> l) = f <$> filter (λ x, P (f x)) l.
Proof.
  induction l as [|x l IH]; [done|].
  rewrite fmap_cons, !filter_cons. rewrite IH. by destruct (decide (P (f x))).
Qed.

Lemma get_downloaded_models_filter (st : Downloader.State) :
  Downloader.get_downloaded_models st
    = Downloader.id <$>
        filter (λ model, Downloader.is_downloaded (Downloader.id model) st = true)
          Downloader.AVAILABLE_MODELS.
Proof.
  unfold Downloader.get_downloaded_models.
  by rewrite (foldl_append_if (λ model, Downloader.is_downloaded (Downloader.id model) st)).
Qed.

Lemma catalog_ids_NoDup : NoDup (Downloader.id <$> Downloader.AVAILABLE_MODELS).
Proof. by apply (bool_decide_unpack _). Qed.

Lemma is_downloaded_catalog model_id st :
  Downloader.is_downloaded model_id st = true →
  ∃ model, model ∈ Downloader.AVAILABLE_MODELS ∧ Downloader.id model = model_id.
Proof.
  unfold Downloader.is_downloaded.
  destruct (Downloader.get_model_info model_id) as [model|] eqn:Hinfo; [|done].
  intros _. exists model. by apply get_model_info_Some.
Qed.

(** X3 — [get_downloaded_models] lists exactly the identifiers for which
    [is_downloaded] is true, each once and in the order of the catalog. *)
Theorem downloaded_models_spec (st : Downloader.State) :
  (∀ model_id, model_id ∈ Downloader.get_downloaded_models st ↔
               Downloader.is_downloaded model_id st = true) ∧
  NoDup (Downloader.get_downloaded_models st) ∧
  Downloader.get_downloaded_models st
    `sublist_of` (Downloader.id <$> Downloader.AVAILABLE_MODELS).
Proof.
  rewrite get_downloaded_models_filter.
  assert (Hsub : (Downloader.id <$>
      filter (λ model, Downloader.is_downloaded (Downloader.id model) st = true)
        Downloader.AVAILABLE_MODELS)
    `sublist_of` (Downloader.id <$> Downloader.AVAILABLE_MODELS)).
  { apply fmap_sublist, sublist_filter. }
  split; [|split; [|done]].
  - intros model_id. rewrite list_elem_of_fmap. split.
    + intros (model & -> & Hin). by apply list_elem_of_filter in Hin as [Hd _].
    + intros Hd. destruct (is_downloaded_catalog _ _ Hd) as (model & Hin & <-).
      exists model. split; [done|]. by apply list_elem_of_filter.
  - eapply sublist_NoDup; [apply catalog_ids_NoDup|exact Hsub].
Qed.

(** ** Cleanup and the other models *)

Lemma model_dir_not_below (models_dir : Posix.Path) (t1 t2 id1 id2 : string) :
  id1 ≠ id2 →
  ¬ (models_dir ++ [t1; id1]) `prefix_of` (models_dir ++ [t2; id2; ".download_complete"]).
Proof.
  intros Hne [k Hk]. rewrite <- app_assoc in Hk. apply app_inv_head in Hk.
  simpl in Hk. congruence.
Qed.

Lemma cleanup_disk (model_id : string) (st st' : Downloader.State) (r : Py.result bool) :
  Downloader.cleanup model_id st = (st', r) →
  Downloader.self st' = Downloader.self st ∧
  Downloader.transfers st' = Downloader.transfers st ∧
  ((r = Py.Ok true ∧ ∃ model, Downloader.get_model_info model_id = Some model ∧
      ∀ p, Downloader.fs st' !! p
           = if decide (Downloader.model_dir_of st model model_id `prefix_of` p)
             then None else Downloader.fs st !! p) ∨
   (r ≠ Py.Ok true ∧ Downloader.fs st' = Downloader.fs st)).
Proof.
  unfold Downloader.cleanup.
  destruct (Downloader.get_model_info model_id) as [model|] eqn:Hinfo.
  - unfold Py.bind, Py.get, Py.ret, Downloader.on_fs.
    destruct (Posix.path_exists _ _).
    + destruct (Posix.rmtree _ _) as [fs' [[]|e]] eqn:Hrm; intros [= <- <-]; simpl.
      * split; [done|]. split; [done|]. left. split; [done|].
        exists model. split; [done|]. by apply rmtree_below.
      * split; [done|]. split; [done|]. right. split; [done|].
        unfold Posix.rmtree in Hrm.
        by destruct (Downloader.fs st !! _) as [[|c]|]; simplify_eq.
    + intros [= <- <-]. split; [done|]. split; [done|]. by right.
  - intros [= <- <-]. split; [done|]. split; [done|]. by right.
Qed.

(** X4 — [cleanup] of one model leaves the downloaded status of every other
    model as it was, whatever it returns; when it returns true the list of
    downloaded models is the former list without that model. *)
Theorem cleanup_other_models (model_id : string) (st st' : Downloader.State)
    (r : Py.result bool) :
  Downloader.cleanup model_id st = (st', r) →
  (∀ other, other ≠ model_id →
     Downloader.is_downloaded other st' = Downloader.is_downloaded other st) ∧
  (r = Py.Ok true →
     Downloader.get_downloaded_models st'
       = filter (λ x, x ≠ model_id) (Downloader.get_downloaded_models st)).
Proof.
  intros Hc. destruct (cleanup_disk _ _ _ _ Hc) as (Hself & _ & Hfs).
  assert (Hother : ∀ other, other ≠ model_id →
    Downloader.is_downloaded other st' = Downloader.is_downloaded other st).
  { intros other Hne. unfold Downloader.is_downloaded.
    destruct (Downloader.get_model_info other) as [m|]; [|done].
    unfold Downloader.model_dir_of, Downloader.marker_of. rewrite Hself.
    destruct Hfs as [(_ & model & _ & Hfs)|[_ ->]]; [|done].
    unfold Posix.path_exists. rewrite Hfs. rewrite decide_False; [done|].
    rewrite <- app_assoc. simpl. unfold Downloader.model_dir_of.
    apply model_dir_not_below. congruence. }
  split; [done|]. intros ->.
  destruct Hfs as [(_ & model & Hinfo & Hfs)|[? _]]; [|done].
  assert (Hgone : Downloader.is_downloaded model_id st' = false).
  { apply (is_downloaded_false _ model); [done|].
    unfold Downloader.model_dir_of. rewrite Hself, Hfs.
    rewrite decide_True; [done|]. unfold Downloader.marker_of, Downloader.model_dir_of.
    by apply prefix_app_r. }
  rewrite !get_downloaded_models_filter, filter_fmap_comm. f_equal.
  rewrite list_filter_filter. apply list_filter_iff. intros m. split.
  - intros Hd. destruct (decide (Downloader.id m = model_id)) as [Heq|Hne].
    + rewrite Heq in Hd. congruence.
    + split; [done|]. by rewrite <- Hother.
  - intros [Hne Hd]. by rewrite Hother.
Qed.

Lemma cleanup_other_models_witness :
  Downloader.is_downloaded "flux-schnell"
    (Downloader.cleanup "flux-dev" (Examples.downloader Examples.fs_two)).1 = true ∧
  Downloader.get_downloaded_models
    (Downloader.cleanup "flux-dev" (Examples.downloader Examples.fs_two)).1
    = ["flux-schnell"].
Proof.
  destruct (Downloader.cleanup "flux-dev" (Examples.downloader Examples.fs_two))
    as [st' r] eqn:Hc.
  destruct (cleanup_other_models _ _ _ _ Hc) as [Hother Hlist].
  assert (Hr : r = Py.Ok true).
  { apply (f_equal snd) in Hc. simpl in Hc. rewrite <- Hc. vm_compute. reflexivity. }
  split.
  - simpl. rewrite Hother by done. vm_compute. reflexivity.
  - simpl. rewrite (Hlist Hr). vm_compute. reflexivity.
Defined.

(** ** The total size *)




(** ** Downloads in flight *)

Section InFlight.
Context `{Downloader.Hub}.

(** [download_model] is its two pieces run in a row. *)
Lemma download_model_pieces model_id force st :
  Downloader.download_model model_id force st =
    match Downloader.download_begin model_id force st with
    | (st1, Py.Ok (inl p)) => (st1, Py.Ok p)
    | (st1, Py.Ok (inr (model, model_dir))) =>
        Downloader.download_resume model_id model model_dir st1
    | (st1, Py.Raise e) => (st1, Py.Raise e)
    end.
Proof.
  unfold Downloader.download_model, Downloader.download_begin.
  destruct (Downloader.get_model_info model_id) as [model|]; [|reflexivity].
  unfold Py.bind, Py.get, Py.ret, Py.modify. cbn beta iota.
  destruct (Downloader.is_downloaded model_id st && negb force); [reflexivity|].
  destruct (Downloader.on_fs _ st) as [st1 [[]|e]]; reflexivity.
Qed.

Lemma download_resume_removes model_id model model_dir st st' r :
  Downloader.download_resume model_id model model_dir st = (st', r) →
  Downloader._active_downloads (Downloader.self st') !! model_id = None ∧
  (Downloader._active_downloads (Downloader.self st) !! model_id = None →
   r = Py.Raise (Py.KeyError model_id)).
Proof.
  unfold Downloader.download_resume, Downloader._download_sync, Downloader.on_fs,
    Downloader.del_active, Downloader.with_active, Downloader.with_fs,
    Py.try_finally, Py.bind, Py.modify, Py.ret. simpl.
  destruct (Downloader.snapshot_download _ _ _ _) as [fs2 [[]|e]]; simpl.
  - destruct (Posix.write_text _ _ fs2) as [fs3 [[]|e]]; simpl;
      destruct (Downloader._active_downloads (Downloader.self st) !! model_id) eqn:Ha;
      intros [= <- <-]; simpl; (split; [by rewrite ?lookup_delete_eq|done]).
  - destruct (Downloader._active_downloads (Downloader.self st) !! model_id) eqn:Ha;
      intros [= <- <-]; simpl; (split; [by rewrite ?lookup_delete_eq|done]).
Qed.

(** The sizes of the catalog are positive numbers of bytes. *)
Lemma catalog_total_bytes model :
  model ∈ Downloader.AVAILABLE_MODELS →
  0 < Py.int (Downloader.size_gb model * 1024 * 1024 * 1024)%Q.
Proof.
  revert model. apply Forall_forall. unfold Downloader.AVAILABLE_MODELS.
  repeat constructor.
Qed.

(** What [get_active_downloads] reports of an entry with a positive total
    and nothing downloaded. *)
Lemma active_info_fresh model_id total files_total :
  0 < total →
  Downloader.active_info
    {| Downloader.model_id := model_id; Downloader.total_bytes := total;
       Downloader.downloaded_bytes := 0; Downloader.current_file := "";
       Downloader.files_completed := 0; Downloader.files_total := files_total |}
  = Py.Ok {| Downloader.info_percentage := Py.fzero;
             Downloader.info_current_file := "";
             Downloader.info_downloaded_gb := Py.fzero |}.
Proof.
  intros Hpos. unfold Downloader.active_info, Downloader.percentage, Py.truediv.
  cbn [Downloader.total_bytes Downloader.downloaded_bytes Downloader.current_file].
  destruct (decide (total = 0)) as [->|_]; [lia|].
  rewrite (proj2 (Z.eqb_neq total 0)) by lia.
  rewrite (proj2 (Z.ltb_ge total 0)) by lia. reflexivity.
Qed.

(** X6 — When [download_model] reaches its [await], the entry it has put
    into the table of active downloads shows 0 bytes of the positive total
    of the catalog and no current file, so [get_active_downloads] reports it
    at 0.0 percent and 0.0 GB; and the transfer does not touch the
    downloader object, so the entry stays like this until it is removed. *)
Theorem progress_stays_at_zero model_id force st st1 model model_dir :
  Downloader.download_begin model_id force st = (st1, Py.Ok (inr (model, model_dir))) →
  (∃ info, Downloader.get_active_downloads st1 !! model_id = Some (Py.Ok info) ∧
           Downloader.info_percentage info = Py.fzero ∧
           Downloader.info_current_file info = "" ∧
           Downloader.info_downloaded_gb info = Py.fzero) ∧
  (∀ st2 r, Downloader._download_sync model model_dir st1 = (st2, r) →
            Downloader.self st2 = Downloader.self st1).
Proof.
  intros Hbegin. split.
  - unfold Downloader.download_begin in Hbegin.
    destruct (Downloader.get_model_info model_id) as [m|] eqn:Hinfo; [|done].
    apply get_model_info_Some in Hinfo as [Hin _].
    unfold Py.bind at 1 in Hbegin. unfold Py.get in Hbegin.
    destruct (Downloader.is_downloaded model_id st && negb force); [done|].
    unfold Py.bind at 1 in Hbegin.
    destruct (Downloader.on_fs _ st) as [st0 [[]|e]]; [|done].
    unfold Py.bind, Py.modify, Py.ret in Hbegin. injection Hbegin as <- <- <-.
    unfold Downloader.get_active_downloads.
    cbn [Downloader.self Downloader.with_active Downloader._active_downloads].
    rewrite lookup_fmap, lookup_insert_eq.
    cbn [fmap option_fmap option_map].
    rewrite (active_info_fresh _ _ _ (catalog_total_bytes m Hin)).
    eexists. split; [reflexivity|]. done.
  - unfold Downloader._download_sync, Downloader.on_fs, Downloader.with_fs,
      Py.bind, Py.modify, Py.ret. simpl. intros st2 r.
    destruct (Downloader.snapshot_download _ _ _ _) as [fs2 [[]|e]]; by intros [= <- <-].
Qed.

(** X7 — Two downloads of one model that are both past their [await]: each
    removes the entry of the model from the table of active downloads when
    it ends, so whichever ends second finds no entry and raises
    [KeyError(model_id)], whatever its own transfer did. *)
Theorem overlapping_downloads model_id model model_dir st st1 r1 st2 r2 :
  Downloader.download_resume model_id model model_dir st = (st1, r1) →
  Downloader.download_resume model_id model model_dir st1 = (st2, r2) →
  r2 = Py.Raise (Py.KeyError model_id).
Proof.
  intros Hfirst Hsecond.
  apply download_resume_removes in Hfirst as [Hgone _].
  apply download_resume_removes in Hsecond as [_ Hraise]. by apply Hraise.
Qed.
End InFlight.

Lemma progress_stays_at_zero_witness :
  ∃ info,
    Downloader.get_active_downloads
      (@Downloader.download_begin "flux-dev" false (Examples.downloader ∅)).1
      !! "flux-dev" = Some (Py.Ok info) ∧
    Downloader.info_percentage info = Py.fzero.
Proof.
  destruct (@Downloader.download_begin "flux-dev" false (Examples.downloader ∅))
    as [st1 r] eqn:Hbegin.
  assert (Hr : r = Py.Ok (inr (Examples.flux_dev, Examples.flux_dev_dir))).
  { apply (f_equal snd) in Hbegin. simpl in Hbegin. rewrite <- Hbegin.
    vm_compute. reflexivity. }
  subst r.
  destruct (proj1 (@progress_stays_at_zero Examples.hub_online _ _ _ _ _ _ Hbegin))
    as (info & Hinfo & Hpct & _).
  exists info. split; [exact Hinfo|exact Hpct].
Defined.

(** Two downloads of [flux-dev] from the hub that delivers, both begun on an
    empty disk before either ends: the second to end raises [KeyError]
    although the model now counts as downloaded. *)
Lemma overlapping_downloads_witness :
  (@Downloader.download_resume Examples.hub_online
     "flux-dev" Examples.flux_dev Examples.flux_dev_dir
     (@Downloader.download_resume Examples.hub_online
        "flux-dev" Examples.flux_dev Examples.flux_dev_dir
        (@Downloader.download_begin "flux-dev" false
           (@Downloader.download_begin "flux-dev" false
              (Examples.downloader ∅)).1).1).1).2
    = Py.Raise (Py.KeyError "flux-dev").
Proof.
  destruct (@Downloader.download_resume Examples.hub_online
     "flux-dev" Examples.flux_dev Examples.flux_dev_dir
     (@Downloader.download_begin "flux-dev" false
        (@Downloader.download_begin "flux-dev" false
           (Examples.downloader ∅)).1).1) as [st1 r1] eqn:Hfirst.
  destruct (@Downloader.download_resume Examples.hub_online
     "flux-dev" Examples.flux_dev Examples.flux_dev_dir st1) as [st2 r2] eqn:Hsecond.
  change ((st1, r1).1) with st1. rewrite Hsecond.
  exact (@overlapping_downloads Examples.hub_online _ _ _ _ _ _ _ _ Hfirst Hsecond).
Defined.

Example both_downloads_leave_marker :
  Downloader.is_downloaded "flux-dev"
    (@Downloader.download_resume Examples.hub_online
       "flux-dev" Examples.flux_dev Examples.flux_dev_dir
       (@Downloader.download_resume Examples.hub_online
          "flux-dev" Examples.flux_dev Examples.flux_dev_dir
          (@Downloader.download_begin "flux-dev" false
             (@Downloader.download_begin "flux-dev" false
                (Examples.downloader ∅)).1).1).1).1 = true.
Proof. vm_compute. reflexivity. Qed.

(* ===================================================================== *)
(** * Further properties of the image backend                             *)
(* ===================================================================== *)


Section FluxFurther.
Context `{Flux.Backend}.

(** One image asked for and at least one delivered. *)
Lemma generate_image_single self config image images fs :
  Flux.saves_succeed →
  Flux.num_images config = 1 →
  Flux.pipeline self (Flux.pipeline_call self config) = Py.Ok (image :: images) →
  (Flux.generate_image self config fs).2 = Py.Ok (Py.Str (Flux.image_path config 0)).
Proof.
  intros Hsave Hone Hpipe.
  pose proof (save_images_ok config (image :: images) 0 [] fs Hsave) as Hpaths.
  rewrite !generate_image_pipeline. unfold Py.bind, Py.lift. rewrite Hpipe.
  destruct (Flux.save_images config (image :: images) 0 [] fs) as [fs' r].
  simpl in Hpaths. subst r. by rewrite decide_True.
Qed.

(** X8 — [generate_image] goes by the images the pipeline delivers, not by
    the number asked for.  With [num_images = 1]: no image delivered is an
    [IndexError] and nothing is written; one or more images delivered give
    the one configured path (each image is saved under it).  With any other
    [num_images], the list returned has one path per image delivered, all
    distinct.  A failure of the pipeline leaves the disk as it was. *)
Theorem generate_image_delivered (self : Flux.FluxWrapper)
    (config : Flux.ImageGenerationConfig) (fs : Posix.FS) :
  Flux.saves_succeed →
  (∀ e, Flux.pipeline self (Flux.pipeline_call self config) = Py.Raise e →
     Flux.generate_image self config fs = (fs, Py.Raise e)) ∧
  (∀ images, Flux.pipeline self (Flux.pipeline_call self config) = Py.Ok images →
     (Flux.num_images config = 1 → images = [] →
        Flux.generate_image self config fs
          = (fs, Py.Raise (Py.IndexError "list index out of range"))) ∧
     (Flux.num_images config = 1 → images ≠ [] →
        (Flux.generate_image self config fs).2
          = Py.Ok (Py.Str (Py.str_or (Flux.output_path config)
              ("output_" +:+ Flux.seed_or_random (Flux.seed config) +:+ ".png")))) ∧
     (Flux.num_images config ≠ 1 →
        ∃ paths, (Flux.generate_image self config fs).2 = Py.Ok (Py.List paths) ∧
                 length paths = length images ∧ NoDup paths)).
Proof.
  intros Hsave. split.
  - intros e Hpipe. rewrite !generate_image_pipeline. unfold Py.bind, Py.lift. by rewrite Hpipe.
  - intros images Hpipe. split; [|split].
    + intros Hone ->. rewrite !generate_image_pipeline. unfold Py.bind, Py.lift. rewrite Hpipe.
      simpl. unfold Py.ret. by rewrite decide_True.
    + intros Hone Hne. destruct images as [|image rest]; [done|].
      rewrite (generate_image_single _ _ _ _ _ Hsave Hone Hpipe).
      unfold Flux.image_path. by rewrite decide_True.
    + intros Hmany.
      pose proof (save_images_ok config images 0 [] fs Hsave) as Hpaths.
      rewrite !generate_image_pipeline. unfold Py.bind, Py.lift. rewrite Hpipe.
      destruct (Flux.save_images config images 0 [] fs) as [fs' r].
      simpl in Hpaths. subst r. rewrite decide_False by done. simpl.
      eexists. split; [done|]. rewrite length_fmap, length_seq. split; [done|].
      apply NoDup_fmap_2_strong; [|apply NoDup_seq].
      intros i j _ _. by apply image_path_inj.
Qed.

(** Two configurations that differ in the negative prompt only. *)
Lemma generate_image_ext self (c1 c2 : Flux.ImageGenerationConfig) fs :
  Flux.prompt c1 = Flux.prompt c2 →
  Flux.width c1 = Flux.width c2 →
  Flux.height c1 = Flux.height c2 →
  Flux.num_inference_steps c1 = Flux.num_inference_steps c2 →
  Flux.guidance_scale c1 = Flux.guidance_scale c2 →
  Flux.seed c1 = Flux.seed c2 →
  Flux.output_path c1 = Flux.output_path c2 →
  Flux.num_images c1 = Flux.num_images c2 →
  Flux.generate_image self c1 fs = Flux.generate_image self c2 fs.
Proof.
  intros Hp Hw Hh Hs Hg Hseed Hout Hn.
  assert (Hcall : Flux.pipeline_call self c1 = Flux.pipeline_call self c2).
  { unfold Flux.pipeline_call. by rewrite Hp, Hw, Hh, Hs, Hg, Hseed, Hn. }
  assert (Hpath : ∀ i, Flux.image_path c1 i = Flux.image_path c2 i).
  { intros i. unfold Flux.image_path. by rewrite Hseed, Hout, Hn. }
  assert (Hsaves : ∀ images i acc fs0,
    Flux.save_images c1 images i acc fs0 = Flux.save_images c2 images i acc fs0).
  { induction images as [|image rest IH]; intros i acc fs0; simpl; [done|].
    unfold Py.bind. rewrite Hpath.
    destruct (Flux.image_save image (Flux.image_path c2 i) fs0) as [fs1 [[]|e]]; auto. }
  rewrite !generate_image_pipeline. unfold Py.bind, Py.lift. rewrite Hcall.
  destruct (Flux.pipeline self (Flux.pipeline_call self c2)) as [images|e]; [|done].
  rewrite Hsaves. by rewrite Hn.
Qed.

(** X9 — The negative prompt of a configuration has no effect on image
    generation: two configurations that agree on every other field give
    the same pipeline call, the same files and the same result. *)
Theorem negative_prompt_unused (self : Flux.FluxWrapper)
    (c1 c2 : Flux.ImageGenerationConfig) (fs : Posix.FS) :
  Flux.prompt c1 = Flux.prompt c2 →
  Flux.width c1 = Flux.width c2 →
  Flux.height c1 = Flux.height c2 →
  Flux.num_inference_steps c1 = Flux.num_inference_steps c2 →
  Flux.guidance_scale c1 = Flux.guidance_scale c2 →
  Flux.seed c1 = Flux.seed c2 →
  Flux.output_path c1 = Flux.output_path c2 →
  Flux.num_images c1 = Flux.num_images c2 →
  Flux.pipeline_call self c1 = Flux.pipeline_call self c2 ∧
  Flux.generate_image self c1 fs = Flux.generate_image self c2 fs.
Proof.
  intros Hp Hw Hh Hs Hg Hseed Hout Hn. split.
  - unfold Flux.pipeline_call. by rewrite Hp, Hw, Hh, Hs, Hg, Hseed, Hn.
  - by apply generate_image_ext.
Qed.





End FluxFurther.

(** A pipeline that delivers two images: asked for one, [generate_image]
    returns the one path; asked for three, it returns two paths. *)
Lemma generate_image_delivered_witness :
  (@Flux.generate_image Examples.flux_backend_two Examples.schnell_wrapper
     (Examples.sample_config 4 0 (Some "outputs/job.png") 1) ∅).2
    = Py.Ok (Py.Str "outputs/job.png") ∧
  ∃ paths,
    (@Flux.generate_image Examples.flux_backend_two Examples.schnell_wrapper
       (Examples.sample_config 4 0 (Some "outputs/job.png") 3) ∅).2
      = Py.Ok (Py.List paths) ∧
    length paths = 2%nat.
Proof.
  split.
  - refine (proj1 (proj2 (proj2 (@generate_image_delivered Examples.flux_backend_two
      Examples.schnell_wrapper (Examples.sample_config 4 0 (Some "outputs/job.png") 1)
      ∅ (λ _ _ _, eq_refl)) _ eq_refl)) eq_refl _).
    discriminate.
  - destruct (proj2 (proj2 (proj2 (@generate_image_delivered Examples.flux_backend_two
      Examples.schnell_wrapper (Examples.sample_config 4 0 (Some "outputs/job.png") 3)
      ∅ (λ _ _ _, eq_refl)) _ eq_refl)) ltac:(discriminate))
      as (paths & Hres & Hlen & _).
    exists paths. split; [exact Hres|exact Hlen].
Defined.

Lemma negative_prompt_unused_witness :
  @Flux.generate_image Examples.flux_backend Examples.dev_wrapper
    {| Flux.prompt := "a lighthouse at dusk"; Flux.negative_prompt := "blurry";
       Flux.width := 1024; Flux.height := 1024;
       Flux.num_inference_steps := 4; Flux.guidance_scale := Py.fzero;
       Flux.seed := Some 7; Flux.output_path := None; Flux.num_images := 2 |} ∅
  = @Flux.generate_image Examples.flux_backend Examples.dev_wrapper
      (Examples.sample_config 4 0 None 2) ∅.
Proof.
  apply (@negative_prompt_unused Examples.flux_backend); reflexivity.
Defined.



(** The files of the two rounds before the failure stay on the disk. *)
Example files_of_rounds_before_failure :
  dom (@Flux.generate_variations Examples.flux_backend_44 Examples.schnell_wrapper
     "a lighthouse at dusk" 4 42 Examples.no_options ∅).1
    = {[ ["variation_0.png"]; ["variation_1.png"] ]}.
Proof. by apply (bool_decide_unpack _). Qed.

(** ** Model directories of the two wrappers *)

Lemma string_app_nil_r s : s +:+ "" = s.
Proof. induction s as [|a s IH]; [done|]. by rewrite string_app_cons, IH. Qed.

Lemma rev_app_app s1 s2 t : String.rev_app s1 s2 +:+ t = String.rev_app s1 (s2 +:+ t).
Proof. revert s2. induction s1 as [|a s1 IH]; intros s2; simpl; [done|]. by rewrite IH. Qed.

Lemma rev_cons_app a cur t : String.rev (String a cur) +:+ t = String.rev cur +:+ String a t.
Proof. unfold String.rev. simpl. by rewrite !rev_app_app. Qed.

(** A string without [/] is one part. *)
Lemma split_go_replace_slash (s cur : string) :
  Posix.split_go "/" cur (LTX.replace_slash s)
    = [String.rev cur +:+ LTX.replace_slash s].
Proof.
  revert cur. induction s as [|c s IH]; intros cur; simpl.
  - by rewrite string_app_nil_r.
  - destruct (decide (c = "/"%char)) as [->|Hc].
    + rewrite decide_False by done. by rewrite IH, rev_cons_app.
    + rewrite decide_False by done. by rewrite IH, rev_cons_app.
Qed.

Lemma joinpath_replace_slash (p : Posix.Path) (s : string) :
  LTX.replace_slash s ≠ "" → LTX.replace_slash s ≠ "." →
  Posix.joinpath p (LTX.replace_slash s) = p ++ [LTX.replace_slash s].
Proof.
  intros Hne Hdot.
  assert (Hparts : Posix.Path_of_str (LTX.replace_slash s) = [LTX.replace_slash s]).
  { unfold Posix.Path_of_str, Posix.split. rewrite split_go_replace_slash. simpl.
    rewrite filter_cons, decide_True by done. rewrite filter_nil.
    destruct s as [|c s]; [done|]. simpl.
    destruct (decide (c = "/"%char)); [done|].
    destruct c as [[] [] [] [] [] [] [] []]; try done. }
  unfold Posix.joinpath. rewrite Hparts.
  destruct s as [|c s]; [done|]. simpl.
  destruct (decide (c = "/"%char)); [done|].
  destruct c as [[] [] [] [] [] [] [] []]; try done.
Qed.

(** X12 — [ensure_model_downloaded] of the image wrapper looks at the
    existence of the model directory only.  When the directory exists it
    returns it and asks the hub for nothing; otherwise it makes one
    transfer and returns the directory if that succeeds.  So after a
    transfer that broke off but left the directory behind, the next call
    takes the model for downloaded.  For a wrapper made by the constructor
    the directory is [MODELS_DIR / variant]. *)
Theorem flux_ensure_model_downloaded `{Flux.Hub} (MODELS_DIR : Posix.Path)
    (self : Flux.FluxWrapper) (fs fs1 : Posix.FS) (r : Py.result unit) :
  Flux.snapshot_download (Flux.model_id self)
    (Posix.joinpath MODELS_DIR (Flux.model_variant self)) ["*.md"; "*.txt"] fs
    = (fs1, r) →
  (Posix.path_exists fs (Posix.joinpath MODELS_DIR (Flux.model_variant self)) = true →
     Flux.ensure_model_downloaded MODELS_DIR self fs
       = (fs, Py.Ok (Posix.joinpath MODELS_DIR (Flux.model_variant self)))) ∧
  (Posix.path_exists fs (Posix.joinpath MODELS_DIR (Flux.model_variant self)) = false →
     Flux.ensure_model_downloaded MODELS_DIR self fs
       = (fs1, match r with
               | Py.Ok _ => Py.Ok (Posix.joinpath MODELS_DIR (Flux.model_variant self))
               | Py.Raise e => Py.Raise e
               end) ∧
     (Posix.path_exists fs1 (Posix.joinpath MODELS_DIR (Flux.model_variant self)) = true →
        Flux.ensure_model_downloaded MODELS_DIR self fs1
          = (fs1, Py.Ok (Posix.joinpath MODELS_DIR (Flux.model_variant self))))) ∧
  (∀ torch variant device dtype offload,
     Flux.__init__ torch variant device dtype offload = Py.Ok self →
     Posix.joinpath MODELS_DIR (Flux.model_variant self) = MODELS_DIR ++ [variant]).
Proof.
  intros Hhub.
  assert (Hthere : ∀ fs0,
    Posix.path_exists fs0 (Posix.joinpath MODELS_DIR (Flux.model_variant self)) = true →
    Flux.ensure_model_downloaded MODELS_DIR self fs0
      = (fs0, Py.Ok (Posix.joinpath MODELS_DIR (Flux.model_variant self)))).
  { intros fs0 Hex. unfold Flux.ensure_model_downloaded, Py.bind, Py.get. by rewrite Hex. }
  split; [apply Hthere|]. split.
  - intros Hex. split; [|apply Hthere].
    unfold Flux.ensure_model_downloaded, Py.bind, Py.get. rewrite Hex. simpl.
    rewrite Hhub. by destruct r as [[]|e].
  - intros torch variant device dtype offload. unfold Flux.__init__.
    destruct (Flux.dict_get Flux.FLUX_MODELS variant) as [id|] eqn:Hid; [|done].
    intros [= <-]. simpl. unfold Flux.FLUX_MODELS in Hid. simpl in Hid.
    repeat case_decide; simplify_eq; done.
Qed.

(** X13 — The video wrapper keeps its model under [MODELS_DIR] in one
    directory named after the identifier with [/] replaced by [_].  Two
    identifiers that differ only in [/] against [_] share that directory:
    once it exists for one of them, [ensure_model_downloaded] returns it for
    the other without a transfer. *)
Theorem ltx_model_directory `{LTX.Hub} (MODELS_DIR : Posix.Path)
    (w1 w2 : LTX.LTXVideoWrapper) (fs : Posix.FS) :
  LTX.replace_slash (LTX.model_id w1) = LTX.replace_slash (LTX.model_id w2) →
  Posix.path_exists fs
    (Posix.joinpath MODELS_DIR (LTX.replace_slash (LTX.model_id w1))) = true →
  LTX.ensure_model_downloaded MODELS_DIR w2 fs
    = (fs, Py.Ok (Posix.joinpath MODELS_DIR (LTX.replace_slash (LTX.model_id w1)))) ∧
  (LTX.model_id w1 ≠ "" → LTX.model_id w1 ≠ "." →
     Posix.joinpath MODELS_DIR (LTX.replace_slash (LTX.model_id w1))
       = MODELS_DIR ++ [LTX.replace_slash (LTX.model_id w1)]).
Proof.
  intros Hsame Hex. split.
  - unfold LTX.ensure_model_downloaded, Py.bind, Py.get. rewrite <- Hsame.
    by rewrite Hex.
  - intros Hne Hdot. apply joinpath_replace_slash.
    + destruct (LTX.model_id w1); [done|discriminate].
    + destruct (LTX.model_id w1) as [|c [|c' s]]; [done| |discriminate].
      simpl. destruct (decide (c = "/"%char)) as [->|]; [discriminate|].
      intros [= ->]. done.
Qed.

(** The hub breaks off after it has made [models/flux/dev]: the first call
    fails, the second returns the directory. *)
Lemma flux_ensure_model_downloaded_witness :
  (@Flux.ensure_model_downloaded ["models"; "flux"] Examples.flux_hub_offline
     Examples.dev_wrapper ∅).2
    = Py.Raise (Py.Error "Connection reset by peer") ∧
  (@Flux.ensure_model_downloaded ["models"; "flux"] Examples.flux_hub_offline
     Examples.dev_wrapper
     (@Flux.ensure_model_downloaded ["models"; "flux"] Examples.flux_hub_offline
        Examples.dev_wrapper ∅).1).2
    = Py.Ok ["models"; "flux"; "dev"].
Proof.
  destruct (@Flux.snapshot_download Examples.flux_hub_offline
    "black-forest-labs/FLUX.1-dev" ["models"; "flux"; "dev"] ["*.md"; "*.txt"] ∅)
    as [fs1 r] eqn:Hhub.
  destruct (proj1 (proj2 (@flux_ensure_model_downloaded Examples.flux_hub_offline
    ["models"; "flux"] Examples.dev_wrapper ∅ fs1 r Hhub)) eq_refl) as [Hfirst Hsecond].
  assert (Hr : r = Py.Raise (Py.Error "Connection reset by peer")).
  { apply (f_equal snd) in Hhub. simpl in Hhub. by rewrite <- Hhub. }
  assert (Hex : Posix.path_exists fs1 ["models"; "flux"; "dev"] = true).
  { apply (f_equal fst) in Hhub. simpl in Hhub. rewrite <- Hhub. vm_compute. reflexivity. }
  rewrite Hfirst. simpl. split; [by rewrite Hr|].
  rewrite (Hsecond Hex). reflexivity.
Defined.

(** The identifiers [Lightricks/LTX-Video] and [Lightricks_LTX-Video]. *)
Lemma ltx_model_directory_witness :
  @LTX.ensure_model_downloaded ["models"; "ltx-video"] Examples.ltx_hub_online
    {| LTX.model_id := "Lightricks_LTX-Video"; LTX.device := "cpu";
       LTX.dtype := Torch.float32; LTX.enable_cpu_offload := true |}
    {[ ["models"; "ltx-video"; "Lightricks_LTX-Video"] := Posix.Dir ]}
  = ({[ ["models"; "ltx-video"; "Lightricks_LTX-Video"] := Posix.Dir ]},
     Py.Ok ["models"; "ltx-video"; "Lightricks_LTX-Video"]).
Proof.
  refine (proj1 (@ltx_model_directory Examples.ltx_hub_online ["models"; "ltx-video"]
    {| LTX.model_id := "Lightricks/LTX-Video"; LTX.device := "cpu";
       LTX.dtype := Torch.float32; LTX.enable_cpu_offload := true |}
    {| LTX.model_id := "Lightricks_LTX-Video"; LTX.device := "cpu";
       LTX.dtype := Torch.float32; LTX.enable_cpu_offload := true |}
    ({[ ["models"; "ltx-video"; "Lightricks_LTX-Video"] := Posix.Dir ]} : Posix.FS)
    eq_refl _)).
  vm_compute. reflexivity.
Defined.

(* ===================================================================== *)
(** * Further properties of the video backend                             *)
(* ===================================================================== *)




Section LTXFurther.
Context `{LTX.Backend}.


Section FromImage.
Context `{LTX.Image2Video}.

(** X15 — [generate_from_image] loads the pipeline before it opens the
    source image and opens the image before inference: a failure of the
    load is the failure of the call; with the pipeline loaded, a source
    path that names no file is an [OSError]; in both cases nothing is
    written.  The conditioning strength of the configuration is not used:
    two configurations that agree on the image path and on every field of
    the base configuration give the same result. *)
Theorem generate_from_image_order (self : LTX.LTXVideoWrapper)
    (c1 c2 : LTX.Image2VideoConfig) (fs : Posix.FS) :
  LTX.base c1 = LTX.base c2 →
  LTX.image_path c1 = LTX.image_path c2 →
  LTX.generate_from_image self c1 fs = LTX.generate_from_image self c2 fs ∧
  (∀ e, LTX.load_img2video self = Py.Raise e →
     LTX.generate_from_image self c1 fs = (fs, Py.Raise e)) ∧
  (LTX.load_img2video self = Py.Ok tt →
   Posix.is_file fs (Posix.Path_of_str (LTX.image_path c1)) = false →
     ∃ msg, LTX.generate_from_image self c1 fs = (fs, Py.Raise (Py.OSError msg))).
Proof.
  intros Hbase Himage. split; [|split].
  - unfold LTX.generate_from_image. by rewrite Hbase, Himage.
  - intros e Hload. unfold LTX.generate_from_image, Py.bind, Py.lift. by rewrite Hload.
  - intros Hload Hfile.
    unfold LTX.generate_from_image, LTX.open_rgb, Py.bind, Py.lift, Py.get, Py.raise.
    rewrite Hload. unfold Posix.is_file in Hfile.
    destruct (fs !! Posix.Path_of_str (LTX.image_path c1)) as [[|bytes]|]; [|done|];
      eexists; reflexivity.
Qed.
End FromImage.
End LTXFurther.


(** With no file [missing.png], the call ends in an [OSError] on an
    untouched disk. *)
Lemma generate_from_image_order_witness :
  ∃ msg,
    @LTX.generate_from_image Examples.ltx_backend Examples.image2video
      Examples.ltx_wrapper (Examples.sample_image2video_config "missing.png" 1) ∅
    = (∅, Py.Raise (Py.OSError msg)).
Proof.
  destruct (@generate_from_image_order Examples.ltx_backend Examples.image2video
    Examples.ltx_wrapper
    (Examples.sample_image2video_config "missing.png" 1)
    (Examples.sample_image2video_config "missing.png" (1 # 2)) ∅ eq_refl eq_refl)
    as (_ & _ & Hmissing).
  apply Hmissing; reflexivity.
Defined.

(** With the file in place the call returns the default name. *)
Example generate_from_image_default_name :
  (@LTX.generate_from_image Examples.ltx_backend Examples.image2video
     Examples.ltx_wrapper (Examples.sample_image2video_config "cat.png" 1)
     {[ ["cat.png"] := Posix.File "PNG" ]}).2
  = Py.Ok "output_img2vid_7.mp4".
Proof. vm_compute. reflexivity. Qed.

(* ===================================================================== *)
(** * Further properties of the job coordinator                           *)
(* ===================================================================== *)

Section CoordinatorFurther.
Context (HAS_VIDEO HAS_IMAGE : bool) (OUTPUT_DIR : Posix.Path) (torch : Torch.env).
Context `{Flux.Backend} `{LTX.Backend}.

Local Abbreviation step := (Server.step HAS_VIDEO HAS_IMAGE OUTPUT_DIR torch).
Local Abbreviation reachable := (Server.reachable HAS_VIDEO HAS_IMAGE OUTPUT_DIR torch).

(** ** Reading a job *)

Lemma get_job_status_completed job_id st p :
  Server.jobs st !! job_id = Some (Server.job_completed p) →
  Server.get_job_status job_id st
    = Py.Ok {| Server.job_id := job_id; Server.status := "completed";
               Server.result := Some p; Server.error := None |}.
Proof.
  intros Hjob. unfold Server.get_job_status, Py.getitem. rewrite Hjob.
  by destruct (job_completed_fields p) as (-> & -> & ->).
Qed.

Lemma get_job_status_failed job_id st msg :
  Server.jobs st !! job_id = Some (Server.job_failed msg) →
  Server.get_job_status job_id st
    = Py.Ok {| Server.job_id := job_id; Server.status := "failed";
               Server.result := None; Server.error := Some msg |}.
Proof.
  intros Hjob. unfold Server.get_job_status, Py.getitem. rewrite Hjob.
  by destruct (job_failed_fields msg) as (-> & -> & ->).
Qed.

Lemma get_job_status_pending job_id st :
  Server.jobs st !! job_id = Some Server.job_pending →
  Server.get_job_status job_id st
    = Py.Ok {| Server.job_id := job_id; Server.status := "pending";
               Server.result := None; Server.error := None |}.
Proof.
  intros Hjob. unfold Server.get_job_status, Py.getitem. rewrite Hjob.
  by destruct job_pending_fields as (-> & -> & ->).
Qed.

Lemma get_job_status_processing job_id st :
  Server.jobs st !! job_id = Some Server.job_processing →
  Server.get_job_status job_id st
    = Py.Ok {| Server.job_id := job_id; Server.status := "processing";
               Server.result := None; Server.error := None |}.
Proof.
  intros Hjob. unfold Server.get_job_status, Py.getitem. rewrite Hjob.
  by destruct job_processing_fields as (-> & -> & ->).
Qed.

(** X16 — In every state the server can reach, [get_job_status] fails with
    404 "Job not found" for an unknown job and answers for every known one:
    the answer carries the identifier asked for, one of the four statuses,
    and the fields of the record; it has a result exactly when the status
    is completed and an error exactly when the status is failed. *)
Theorem get_job_status_spec (s : Server.System) (job_id : string) :
  reachable s →
  match Server.sys_jobs s !! job_id with
  | None =>
      Server.get_job_status job_id (Server.state (Server.world s))
        = Py.Raise (Py.HTTPException 404 "Job not found")
  | Some job =>
      ∃ resp,
        Server.get_job_status job_id (Server.state (Server.world s)) = Py.Ok resp ∧
        Server.job_id resp = job_id ∧
        Server.status resp ∈ ["pending"; "processing"; "completed"; "failed"] ∧
        job !! "status" = Some (Py.Str (Server.status resp)) ∧
        job !! "result" = Py.Str <$> Server.result resp ∧
        job !! "error" = Py.Str <$> Server.error resp ∧
        (is_Some (Server.result resp) ↔ Server.status resp = "completed") ∧
        (is_Some (Server.error resp) ↔ Server.status resp = "failed")
  end.
Proof.
  intros Hreach.
  pose proof (reachable_consistent _ _ _ _ s Hreach job_id) as Hj.
  unfold Server.sys_jobs in *.
  destruct (Server.jobs (Server.state (Server.world s)) !! job_id) as [job|] eqn:Hjob.
  - assert (Hcases : job = Server.job_pending ∨ job = Server.job_processing ∨
                     Server.terminal job).
    { inversion Hj; subst; auto. }
    destruct Hcases as [->|[->|[[p ->]|[msg ->]]]].
    + rewrite (get_job_status_pending _ _ Hjob). eexists. split; [done|]. simpl.
      destruct job_pending_fields as (-> & -> & ->).
      rewrite !elem_of_cons. repeat split; auto; try done; by intros [? ?].
    + rewrite (get_job_status_processing _ _ Hjob). eexists. split; [done|]. simpl.
      destruct job_processing_fields as (-> & -> & ->).
      rewrite !elem_of_cons. repeat split; auto; try done; by intros [? ?].
    + rewrite (get_job_status_completed _ _ _ Hjob). eexists. split; [done|]. simpl.
      destruct (job_completed_fields p) as (-> & -> & ->).
      rewrite !elem_of_cons. repeat split; auto; try done; by intros [? ?].
    + rewrite (get_job_status_failed _ _ _ Hjob). eexists. split; [done|]. simpl.
      destruct (job_failed_fields msg) as (-> & -> & ->).
      rewrite !elem_of_cons. repeat split; auto; try done; by intros [? ?].
  - unfold Server.get_job_status. by rewrite Hjob.
Qed.

Lemma get_job_status_frame id st st' :
  Server.jobs st' !! id = Server.jobs st !! id →
  Server.get_job_status id st' = Server.get_job_status id st.
Proof. intros Heq. unfold Server.get_job_status. by rewrite Heq. Qed.

(** X17 — An accepted submission can be read back at once: [get_job_status]
    on the new identifier gives the answer the submission gave (pending,
    without result or error); the answers for all other identifiers and the
    resident wrappers are as before.  A submission for a modality that is
    not installed is refused with 503 and changes nothing. *)
Theorem submit_then_status (job_id : string) (st : Server.GenerationState) :
  (∀ request st' resp t,
     Server.generate_image HAS_IMAGE job_id request st = (st', Py.Ok (resp, t)) →
     Server.get_job_status job_id st' = Py.Ok resp ∧
     Server.status resp = "pending" ∧
     t = Server.ImageTask request ∧
     (∀ id, id ≠ job_id →
        Server.get_job_status id st' = Server.get_job_status id st) ∧
     Server.image_wrapper st' = Server.image_wrapper st ∧
     Server.video_wrapper st' = Server.video_wrapper st) ∧
  (∀ request st' resp t,
     Server.generate_video HAS_VIDEO job_id request st = (st', Py.Ok (resp, t)) →
     Server.get_job_status job_id st' = Py.Ok resp ∧
     Server.status resp = "pending" ∧
     t = Server.VideoTask request ∧
     (∀ id, id ≠ job_id →
        Server.get_job_status id st' = Server.get_job_status id st) ∧
     Server.image_wrapper st' = Server.image_wrapper st ∧
     Server.video_wrapper st' = Server.video_wrapper st) ∧
  (HAS_IMAGE = false → ∀ request,
     Server.generate_image HAS_IMAGE job_id request st
       = (st, Py.Raise (Py.HTTPException 503
            "Image generation not available. Install Flux dependencies."))) ∧
  (HAS_VIDEO = false → ∀ request,
     Server.generate_video HAS_VIDEO job_id request st
       = (st, Py.Raise (Py.HTTPException 503
            "Video generation not available. Install LTX-Video dependencies."))).
Proof.
  split; [|split; [|split]].
  - intros request st' resp t Hsub.
    destruct (generate_image_Ok _ _ _ _ _ _ _ Hsub) as (Hjobs & -> & ->).
    split; [|split; [done|split; [done|split]]].
    + apply get_job_status_pending. by rewrite Hjobs, lookup_insert_eq.
    + intros id Hne. apply get_job_status_frame.
      by rewrite Hjobs, lookup_insert_ne.
    + unfold Server.generate_image in Hsub. destruct HAS_IMAGE; [|done].
      by injection Hsub as <-.
  - intros request st' resp t Hsub.
    destruct (generate_video_Ok _ _ _ _ _ _ _ Hsub) as (Hjobs & -> & ->).
    split; [|split; [done|split; [done|split]]].
    + apply get_job_status_pending. by rewrite Hjobs, lookup_insert_eq.
    + intros id Hne. apply get_job_status_frame.
      by rewrite Hjobs, lookup_insert_ne.
    + unfold Server.generate_video in Hsub. destruct HAS_VIDEO; [|done].
      by injection Hsub as <-.
  - intros -> request. done.
  - intros -> request. done.
Qed.

(** ** Failures *)

Lemma download_result_failed job_id st fs msg :
  Server.jobs st !! job_id = Some (Server.job_failed msg) →
  Server.download_result job_id st fs
    = Py.Raise (Py.HTTPException 400 "Job status: failed").
Proof.
  intros Hjob. unfold Server.download_result, Py.getitem. rewrite Hjob.
  destruct (job_failed_fields msg) as (-> & _ & _). by rewrite decide_True.
Qed.

Lemma process_image_generation_failed job_id request (w : Server.World) job e :
  Server.jobs (Server.state w) !! job_id = Some job →
  (Server.resolve_image_wrapper torch request
     (Server.task_start job_id (Server.ImageTask request) (Server.state w)).1).2
    = Py.Raise e ∨
  (∃ wr,
     (Server.resolve_image_wrapper torch request
        (Server.task_start job_id (Server.ImageTask request) (Server.state w)).1).2
       = Py.Ok wr ∧
     (Flux.generate_image wr (Server.image_config OUTPUT_DIR job_id request)
        (Server.fs w)).2 = Py.Raise e) →
  Server.jobs (Server.state
     (Server.process_image_generation OUTPUT_DIR torch job_id request w).1) !! job_id
    = Some (Server.job_failed (Py.str_exn e)).
Proof.
  intros Hjob Hfail. rewrite (process_image_generation_pieces OUTPUT_DIR torch job_id request w).
  rewrite (task_start_Some _ _ _ _ Hjob) in Hfail |- *. simpl in Hfail.
  unfold Server.task_resolve, Server.on_exception, Server.set_job,
    Py.try_except, Py.bind, Py.modify, Py.ret.
  destruct (Server.resolve_image_wrapper torch request _) as [st2 r1].
  simpl in Hfail. destruct Hfail as [->|(wr & -> & Hgen)].
  - simpl. by rewrite lookup_insert_eq.
  - unfold Server.run_backend.
    destruct (Flux.generate_image wr _ (Server.fs w)) as [fs' r2].
    simpl in Hgen. subst r2.
    destruct (task_finish_total job_id (Py.Raise e) st2) as (j & _ & Hfin & ->).
    cbn beta iota. rewrite Hfin. simpl. by rewrite lookup_insert_eq.
Qed.

Lemma process_video_generation_failed job_id request (w : Server.World) job e :
  Server.jobs (Server.state w) !! job_id = Some job →
  (∃ wr,
     (Server.resolve_video_wrapper torch
        (Server.task_start job_id (Server.VideoTask request) (Server.state w)).1).2
       = Py.Ok wr ∧
     (LTX.generate_video wr (Server.video_config OUTPUT_DIR job_id request)
        (Server.fs w)).2 = Py.Raise e) →
  Server.jobs (Server.state
     (Server.process_video_generation OUTPUT_DIR torch job_id request w).1) !! job_id
    = Some (Server.job_failed (Py.str_exn e)).
Proof.
  intros Hjob Hfail. rewrite (process_video_generation_pieces OUTPUT_DIR torch job_id request w).
  rewrite (task_start_Some _ _ _ _ Hjob) in Hfail |- *. simpl in Hfail.
  unfold Server.task_resolve, Server.on_exception, Server.set_job,
    Py.try_except, Py.bind, Py.modify, Py.ret.
  destruct (Server.resolve_video_wrapper torch _) as [st2 r1].
  simpl in Hfail. destruct Hfail as (wr & -> & Hgen).
  unfold Server.run_backend, Py.bind, Py.ret.
  destruct (LTX.generate_video wr _ (Server.fs w)) as [fs' r2].
  simpl in Hgen. subst r2.
  destruct (task_finish_total job_id (Py.Raise e) st2) as (j & _ & Hfin & ->).
  cbn beta iota. rewrite Hfin. simpl. by rewrite lookup_insert_eq.
Qed.

(** X18 — When the constructor of the image wrapper or the backend call of
    a job raises an exception [e], the work item records the job as failed
    with [str(e)] as its error: [get_job_status] then answers failed with
    that error and no result, and [download_result] refuses with
    400 "Job status: failed" whatever is on the disk.  A work item whose
    job is not in the table puts a failed record there, its error the text
    of the [KeyError] for the identifier. *)
Theorem failure_recorded (job_id : string) (w : Server.World) (e : Py.exn) :
  (∀ request job,
     Server.jobs (Server.state w) !! job_id = Some job →
     (Server.resolve_image_wrapper torch request
        (Server.task_start job_id (Server.ImageTask request) (Server.state w)).1).2
       = Py.Raise e ∨
     (∃ wr,
        (Server.resolve_image_wrapper torch request
           (Server.task_start job_id (Server.ImageTask request) (Server.state w)).1).2
          = Py.Ok wr ∧
        (Flux.generate_image wr (Server.image_config OUTPUT_DIR job_id request)
           (Server.fs w)).2 = Py.Raise e) →
     Server.get_job_status job_id (Server.state
        (Server.process_image_generation OUTPUT_DIR torch job_id request w).1)
       = Py.Ok {| Server.job_id := job_id; Server.status := "failed";
                  Server.result := None; Server.error := Some (Py.str_exn e) |} ∧
     ∀ fs, Server.download_result job_id (Server.state
        (Server.process_image_generation OUTPUT_DIR torch job_id request w).1) fs
       = Py.Raise (Py.HTTPException 400 "Job status: failed")) ∧
  (∀ request job,
     Server.jobs (Server.state w) !! job_id = Some job →
     (∃ wr,
        (Server.resolve_video_wrapper torch
           (Server.task_start job_id (Server.VideoTask request) (Server.state w)).1).2
          = Py.Ok wr ∧
        (LTX.generate_video wr (Server.video_config OUTPUT_DIR job_id request)
           (Server.fs w)).2 = Py.Raise e) →
     Server.get_job_status job_id (Server.state
        (Server.process_video_generation OUTPUT_DIR torch job_id request w).1)
       = Py.Ok {| Server.job_id := job_id; Server.status := "failed";
                  Server.result := None; Server.error := Some (Py.str_exn e) |} ∧
     ∀ fs, Server.download_result job_id (Server.state
        (Server.process_video_generation OUTPUT_DIR torch job_id request w).1) fs
       = Py.Raise (Py.HTTPException 400 "Job status: failed")) ∧
  (Server.jobs (Server.state w) !! job_id = None →
     (∀ request,
        Server.jobs (Server.state
          (Server.process_image_generation OUTPUT_DIR torch job_id request w).1)
          !! job_id = Some (Server.job_failed (Py.str_exn (Py.KeyError job_id)))) ∧
     (∀ request,
        Server.jobs (Server.state
          (Server.process_video_generation OUTPUT_DIR torch job_id request w).1)
          !! job_id = Some (Server.job_failed (Py.str_exn (Py.KeyError job_id))))).
Proof.
  split; [|split].
  - intros request job Hjob Hfail.
    pose proof (process_image_generation_failed _ _ _ _ _ Hjob Hfail) as Hrec.
    split; [by apply get_job_status_failed|].
    intros fs. by eapply download_result_failed.
  - intros request job Hjob Hfail.
    pose proof (process_video_generation_failed _ _ _ _ _ Hjob Hfail) as Hrec.
    split; [by apply get_job_status_failed|].
    intros fs. by eapply download_result_failed.
  - intros Hnone. split; intros request.
    + rewrite (process_image_generation_pieces OUTPUT_DIR torch job_id request w),
        (task_start_None _ _ _ Hnone).
      simpl. by rewrite lookup_insert_eq.
    + rewrite (process_video_generation_pieces OUTPUT_DIR torch job_id request w),
        (task_start_None _ _ _ Hnone).
      simpl. by rewrite lookup_insert_eq.
Qed.

(** ** Fields of a request that have no effect *)

(** X19 — The negative prompt of an image request and the image path of a
    video request are accepted and not used: two image requests that agree
    on every other field, and two video requests that agree on every other
    field, are processed with the same effect on the server state and on
    the disk. *)
Theorem request_fields_unused (job_id : string) (w : Server.World) :
  (∀ r1 r2 : Server.ImageRequest,
     Server.prompt r1 = Server.prompt r2 →
     Server.width r1 = Server.width r2 →
     Server.height r1 = Server.height r2 →
     Server.model r1 = Server.model r2 →
     Server.seed r1 = Server.seed r2 →
     Server.num_images r1 = Server.num_images r2 →
     Server.process_image_generation OUTPUT_DIR torch job_id r1 w
       = Server.process_image_generation OUTPUT_DIR torch job_id r2 w) ∧
  (∀ r1 r2 : Server.VideoRequest,
     Server.v_prompt r1 = Server.v_prompt r2 →
     Server.v_negative_prompt r1 = Server.v_negative_prompt r2 →
     Server.v_width r1 = Server.v_width r2 →
     Server.v_height r1 = Server.v_height r2 →
     Server.v_num_frames r1 = Server.v_num_frames r2 →
     Server.v_seed r1 = Server.v_seed r2 →
     Server.process_video_generation OUTPUT_DIR torch job_id r1 w
       = Server.process_video_generation OUTPUT_DIR torch job_id r2 w).
Proof.
  split.
  - intros r1 r2 Hp Hw Hh Hm Hs Hn.
    assert (Hres : ∀ st, Server.resolve_image_wrapper torch r1 st
                         = Server.resolve_image_wrapper torch r2 st).
    { intros st. unfold Server.resolve_image_wrapper. by rewrite Hm. }
    assert (Hgen : ∀ wr fs,
      Flux.generate_image wr (Server.image_config OUTPUT_DIR job_id r1) fs
        = Flux.generate_image wr (Server.image_config OUTPUT_DIR job_id r2) fs).
    { intros wr fs. by apply generate_image_ext. }
    unfold Server.process_image_generation, Server.on_state, Server.on_fs,
      Py.try_except, Py.bind.
    destruct (Server.mark_processing job_id (Server.state w)) as [st1 [[]|e]];
      [|done].
    simpl. rewrite Hres.
    destruct (Server.resolve_image_wrapper torch r2 st1) as [st2 [wr|e]]; [|done].
    simpl. by rewrite Hgen.
  - intros r1 r2 Hp Hnp Hw Hh Hf Hs.
    assert (Hcfg : Server.video_config OUTPUT_DIR job_id r1
                   = Server.video_config OUTPUT_DIR job_id r2).
    { unfold Server.video_config. by rewrite Hp, Hnp, Hw, Hh, Hf, Hs. }
    unfold Server.process_video_generation. by rewrite Hcfg.
Qed.

(** ** Resident wrappers *)

Lemma step_residents (s s' : Server.System) :
  step s s' →
  Server.residents_constructed HAS_VIDEO HAS_IMAGE torch s →
  Server.residents_constructed HAS_VIDEO HAS_IMAGE torch s'.
Proof.
  intros Hstep (Himg & Hvid & Htasks).
  destruct Hstep as
    [s job_id request st' resp t Hfresh Hsub
    |s job_id request st' resp t Hfresh Hsub
    |s job_id r st' t Ht Hrun
    |s job_id r st' t Ht Hrun
    |s job_id c fs' outcome st' t Ht Hback Hrun
    |s st' msg Hun
    |s fs'].
  - unfold Server.generate_image in Hsub.
    destruct HAS_IMAGE eqn:Hhas; [|done]. injection Hsub as <- <- <-.
    split; [|split]; simpl; [done|done|].
    intros id t. destruct (decide (job_id = id)) as [->|Hne].
    + rewrite lookup_insert_eq. by intros [= <-].
    + rewrite lookup_insert_ne by done. apply Htasks.
  - unfold Server.generate_video in Hsub.
    destruct HAS_VIDEO eqn:Hhas; [|done]. injection Hsub as <- <- <-.
    split; [|split]; simpl; [done|done|].
    intros id t. destruct (decide (job_id = id)) as [->|Hne].
    + rewrite lookup_insert_eq. by intros [= <-].
    + rewrite lookup_insert_ne by done. apply Htasks.
  - pose proof (Htasks _ _ Ht) as Hinst.
    assert (Hst : Server.image_wrapper st' = Server.image_wrapper (Server.state (Server.world s)) ∧
                  Server.video_wrapper st' = Server.video_wrapper (Server.state (Server.world s)) ∧
                  (t = Server.Started r ∨ t = Server.Finished)).
    { destruct (Server.jobs (Server.state (Server.world s)) !! job_id) as [job|] eqn:Hjob.
      - rewrite (task_start_Some _ _ _ _ Hjob) in Hrun. injection Hrun as <- <-. auto.
      - rewrite (task_start_None _ _ _ Hjob) in Hrun. injection Hrun as <- <-. auto. }
    destruct Hst as (Hi & Hv & Hcase).
    split; [|split]; simpl; [by rewrite Hi|by rewrite Hv|].
    intros id t0. destruct (decide (job_id = id)) as [->|Hne].
    + rewrite lookup_insert_eq. intros [= <-].
      destruct Hcase as [->| ->]; [|done]. by destruct r.
    + rewrite lookup_insert_ne by done. apply Htasks.
  - pose proof (Htasks _ _ Ht) as Hinst.
    assert (Hres : (∀ w, Server.image_wrapper st' = Some w →
                      HAS_IMAGE = true ∧
                      ∃ variant, Flux.__init__ torch variant None None true = Py.Ok w) ∧
                   (∀ w, Server.video_wrapper st' = Some w →
                      HAS_VIDEO = true ∧
                      LTX.__init__ torch LTX.DISTILLED_MODEL None None true = Py.Ok w) ∧
                   (t = Server.Finished ∨ ∃ c, t = Server.Awaiting c)).
    { revert Hrun. unfold Server.task_resolve, Py.try_except.
      destruct r as [request|request]; simpl in Hinst.
      - unfold Server.resolve_image_wrapper, Server.on_exception, Server.set_job,
          Py.bind, Py.get, Py.lift, Py.modify, Py.ret.
        destruct (Server.image_wrapper (Server.state (Server.world s))) as [w|] eqn:Hw.
        + destruct (decide _).
          * destruct (Flux.__init__ torch (Server.model request) None None true)
              as [w'|e] eqn:Hinit; simpl; intros [= <- <-]; simpl.
            -- split; [|split; [done|eauto]]. intros w0 [= <-]. eauto.
            -- rewrite Hw. split; [done|]. split; [done|auto].
          * intros [= <- <-]. rewrite Hw. split; [done|]. split; [done|eauto].
        + destruct (Flux.__init__ torch (Server.model request) None None true)
            as [w'|e] eqn:Hinit; simpl; intros [= <- <-]; simpl.
          * split; [|split; [done|eauto]]. intros w0 [= <-]. eauto.
          * rewrite Hw. split; [done|]. split; [done|auto].
      - unfold Server.resolve_video_wrapper, Server.on_exception, Server.set_job,
          Py.bind, Py.get, Py.lift, Py.modify, Py.ret.
        destruct (Server.video_wrapper (Server.state (Server.world s))) as [w|] eqn:Hw;
          simpl; intros [= <- <-]; simpl.
        + rewrite Hw. split; [done|]. split; [done|eauto].
        + split; [done|]. split; [|eauto]. intros w0 [= <-]. done. }
    destruct Hres as (Hi & Hv & Hcase).
    split; [|split]; simpl; [done|done|].
    intros id t0. destruct (decide (job_id = id)) as [->|Hne].
    + rewrite lookup_insert_eq. intros [= <-].
      by destruct Hcase as [->|[c ->]].
    + rewrite lookup_insert_ne by done. apply Htasks.
  - destruct (task_finish_total job_id outcome (Server.state (Server.world s)))
      as (j & _ & Hfin & _).
    rewrite Hfin in Hrun. injection Hrun as <- <-.
    split; [|split]; simpl; [done|done|].
    intros id t0. destruct (decide (job_id = id)) as [->|Hne].
    + rewrite lookup_insert_eq. by intros [= <-].
    + rewrite lookup_insert_ne by done. apply Htasks.
  - injection Hun as <- _. split; [|split]; simpl; done.
  - split; [|split]; simpl; done.
Qed.

Lemma steps_residents (s s' : Server.System) :
  rtc step s s' →
  Server.residents_constructed HAS_VIDEO HAS_IMAGE torch s →
  Server.residents_constructed HAS_VIDEO HAS_IMAGE torch s'.
Proof.
  induction 1 as [|s1 s2 s3 Hstep _ IH]; [done|].
  intros Hinv. by apply IH, (step_residents s1 s2).
Qed.

Lemma reachable_residents (s : Server.System) :
  reachable s → Server.residents_constructed HAS_VIDEO HAS_IMAGE torch s.
Proof.
  intros [fs0 Hsteps]. apply (steps_residents _ _ Hsteps).
  split; [|split]; simpl; done.
Qed.

(** X20 — In every state the server can reach, a wrapper is resident only
    for a modality that is installed, so [health_check] never reports a
    model as loaded that it reports as unavailable; the resident image
    wrapper is one the constructor made for a key of [FLUX_MODELS], with the
    repository of that key, the detected device and CPU offload; the
    resident video wrapper is the one for the distilled model. *)
Theorem residents_spec (s : Server.System) :
  reachable s →
  (Server.image_loaded
     (Server.health_check HAS_VIDEO HAS_IMAGE (Server.state (Server.world s))) = true →
   Server.image_available
     (Server.health_check HAS_VIDEO HAS_IMAGE (Server.state (Server.world s))) = true) ∧
  (Server.video_loaded
     (Server.health_check HAS_VIDEO HAS_IMAGE (Server.state (Server.world s))) = true →
   Server.video_available
     (Server.health_check HAS_VIDEO HAS_IMAGE (Server.state (Server.world s))) = true) ∧
  (∀ w, Server.image_wrapper (Server.state (Server.world s)) = Some w →
     Flux.model_variant w ∈ Flux.keys Flux.FLUX_MODELS ∧
     Flux.dict_get Flux.FLUX_MODELS (Flux.model_variant w) = Some (Flux.model_id w) ∧
     Flux.device w = Flux._detect_device torch ∧
     Flux.dtype w = Flux._get_optimal_dtype torch (Flux.device w) ∧
     Flux.enable_cpu_offload w = true) ∧
  (∀ w, Server.video_wrapper (Server.state (Server.world s)) = Some w →
     LTX.model_id w = LTX.DISTILLED_MODEL ∧
     LTX.device w = LTX._detect_device torch ∧
     LTX.dtype w = LTX._get_optimal_dtype torch (LTX.device w) ∧
     LTX.enable_cpu_offload w = true).
Proof.
  intros Hreach. destruct (reachable_residents s Hreach) as (Himg & Hvid & _).
  split; [|split; [|split]].
  - simpl. intros Hloaded. apply bool_decide_eq_true in Hloaded.
    destruct (Server.image_wrapper (Server.state (Server.world s))) as [w|]; [|done].
    by destruct (Himg w eq_refl).
  - simpl. intros Hloaded. apply bool_decide_eq_true in Hloaded.
    destruct (Server.video_wrapper (Server.state (Server.world s))) as [w|]; [|done].
    by destruct (Hvid w eq_refl).
  - intros w Hw. destruct (Himg w Hw) as (_ & variant & Hinit).
    unfold Flux.__init__ in Hinit.
    destruct (Flux.dict_get Flux.FLUX_MODELS variant) as [id|] eqn:Hid; [|done].
    injection Hinit as <-. simpl. split; [|done].
    unfold Flux.FLUX_MODELS, Flux.keys in *. simpl in *.
    repeat case_decide; simplify_eq; rewrite !elem_of_cons; auto.
  - intros w Hw. destruct (Hvid w Hw) as (_ & Hinit).
    unfold LTX.__init__ in Hinit. by injection Hinit as <-.
Qed.

(** ** What an image job is run with *)

Lemma pipeline_call_defaults (wr : Flux.FluxWrapper) (config : Flux.ImageGenerationConfig) :
  Flux.num_inference_steps config = 4 →
  Flux.guidance_scale config = Py.fzero →
  (Flux.model_variant wr = "schnell" →
     Flux.call_num_inference_steps (Flux.pipeline_call wr config) = 4 ∧
     Flux.call_guidance_scale (Flux.pipeline_call wr config) = Py.fzero) ∧
  (Flux.model_variant wr = "dev" →
     Flux.call_num_inference_steps (Flux.pipeline_call wr config) = 20 ∧
     Flux.call_guidance_scale (Flux.pipeline_call wr config) = Py.fl (7 # 2)).
Proof.
  intros Hsteps Hguidance. unfold Flux.pipeline_call. rewrite Hsteps, Hguidance.
  split; intros ->.
  - by rewrite decide_True.
  - rewrite decide_False by done. by rewrite decide_True.
Qed.






(** ** Serving the file of a job *)

Lemma rfind_go_app (c : ascii) (s t : string) (i found : Z) :
  Posix.rfind_go c (s +:+ t) i found
    = Posix.rfind_go c t (i + Z.of_nat (String.length s)) (Posix.rfind_go c s i found).
Proof.
  revert i found. induction s as [|a s IH]; intros i found.
  - simpl. f_equal. lia.
  - rewrite string_app_cons. simpl. rewrite IH. f_equal. lia.
Qed.

Lemma drop_app_length (s t : string) : Posix.drop (String.length s) (s +:+ t) = t.
Proof. induction s as [|a s IH]; [by destruct t|]. by rewrite string_app_cons. Qed.

Lemma suffix_of_job_file (l : Posix.Path) (job_id ext : string) :
  job_id ≠ "" → ext ∈ [".png"; ".mp4"] →
  Posix.name (l ++ [job_id +:+ ext]) = job_id +:+ ext ∧
  Posix.suffix (l ++ [job_id +:+ ext]) = ext.
Proof.
  intros Hne Hext.
  assert (Hname : Posix.name (l ++ [job_id +:+ ext]) = job_id +:+ ext).
  { unfold Posix.name. apply last_last. }
  split; [done|]. unfold Posix.suffix. rewrite Hname.
  unfold Posix.rfind. rewrite rfind_go_app, string_length_app.
  assert (Hlen : (0 < String.length job_id)%nat) by (destruct job_id; [done|simpl; lia]).
  assert (Hdot : Posix.rfind_go "." ext (0 + Z.of_nat (String.length job_id))
                   (Posix.rfind_go "." job_id 0 (-1))
                 = Z.of_nat (String.length job_id) ∧ String.length ext = 4%nat).
  { rewrite !elem_of_cons, elem_of_nil in Hext.
    destruct Hext as [->|[->|[]]]; simpl; repeat case_decide; done. }
  destruct Hdot as [-> Hext4]. rewrite Hext4.
  replace (0 <? Z.of_nat (String.length job_id)) with true
    by (symmetry; apply Z.ltb_lt; lia).
  replace (Z.of_nat (String.length job_id)
             <? Z.of_nat (String.length job_id + 4) - 1) with true
    by (symmetry; apply Z.ltb_lt; lia).
  simpl. rewrite Nat2Z.id. apply drop_app_length.
Qed.

(** X22 — The work items name the file of a job [<job_id>.png] or
    [<job_id>.mp4] under [OUTPUT_DIR], and [download_result] decides the
    media type by that extension: for a job completed with such a path that
    exists on the disk, the file is served under the name [<job_id>.png] as
    [image/png], or under the name [<job_id>.mp4] as [video/mp4]. *)
Theorem served_file (job_id ext : string) (st : Server.GenerationState)
    (fs : Posix.FS) :
  job_id ≠ "" →
  ext ∈ [".png"; ".mp4"] →
  Posix.Path_of_str (Posix.str_of_Path (OUTPUT_DIR ++ [job_id +:+ ext]))
    = OUTPUT_DIR ++ [job_id +:+ ext] →
  Server.jobs st !! job_id
    = Some (Server.job_completed
              (Posix.str_of_Path (OUTPUT_DIR ++ [job_id +:+ ext]))) →
  Posix.path_exists fs (OUTPUT_DIR ++ [job_id +:+ ext]) = true →
  Server.download_result job_id st fs
    = Py.Ok {| Server.path := OUTPUT_DIR ++ [job_id +:+ ext];
               Server.filename := job_id +:+ ext;
               Server.media_type :=
                 if decide (ext = ".png") then "image/png" else "video/mp4" |}.
Proof.
  intros Hne Hext Hback Hjob Hex.
  destruct (suffix_of_job_file OUTPUT_DIR job_id ext Hne Hext) as [Hname Hsuffix].
  unfold Server.download_result, Py.getitem. rewrite Hjob.
  destruct (job_completed_fields
    (Posix.str_of_Path (OUTPUT_DIR ++ [job_id +:+ ext]))) as (-> & -> & _).
  rewrite decide_False by (by intros ?).
  rewrite Hback, Hex. simpl. by rewrite Hname, Hsuffix.
Qed.

End CoordinatorFurther.

(** The job of the example run, once finished, reads as completed. *)
Lemma get_job_status_spec_witness :
  ∃ resp,
    Server.get_job_status "job-1" (Server.state (Server.world (Examples.finished 1)))
      = Py.Ok resp ∧
    Server.status resp = "completed" ∧
    Server.result resp = Some "outputs/job-1.png" ∧
    Server.error resp = None.
Proof.
  pose proof (@get_job_status_spec true true Examples.OUTPUT_DIR Examples.cpu_only
    Examples.flux_backend Examples.ltx_backend (Examples.finished 1) "job-1"
    (reachable_finished 1)) as Hspec.
  assert (Hjob : Server.sys_jobs (Examples.finished 1) !! "job-1"
                 = Some (Server.job_completed "outputs/job-1.png")).
  { vm_compute. reflexivity. }
  rewrite Hjob in Hspec.
  destruct Hspec as (resp & Hget & _ & _ & Hstatus & Hresult & Herror & _).
  exists resp. split; [exact Hget|].
  destruct (job_completed_fields "outputs/job-1.png") as (Hs & Hr & He).
  rewrite Hs in Hstatus. rewrite Hr in Hresult. rewrite He in Herror.
  destruct resp as [id status [result|] [error|]]; simpl in *; simplify_eq; done.
Defined.

Lemma submit_then_status_witness :
  Server.get_job_status "job-1"
    (Server.generate_image true "job-1" (Examples.image_request 1)
       (Server.state (Server.world (Server.initial ∅)))).1
  = Py.Ok {| Server.job_id := "job-1"; Server.status := "pending";
             Server.result := None; Server.error := None |}.
Proof.
  exact (proj1 (proj1 (submit_then_status true true "job-1"
    (Server.state (Server.world (Server.initial ∅))))
    (Examples.image_request 1) _ _ _ eq_refl)).
Defined.

(** The backend fails for the seed 44: the job reads as failed. *)
Lemma failure_recorded_witness :
  Server.get_job_status "job-1" (Server.state
    (@Server.process_image_generation Examples.OUTPUT_DIR Examples.cpu_only
       Examples.flux_backend_44 "job-1" (Examples.request_44 "")
       (Server.world (Examples.submitted 1))).1)
  = Py.Ok {| Server.job_id := "job-1"; Server.status := "failed";
             Server.result := None; Server.error := Some "CUDA out of memory" |}.
Proof.
  refine (proj1 (proj1 (@failure_recorded Examples.OUTPUT_DIR Examples.cpu_only
    Examples.flux_backend_44 Examples.ltx_backend "job-1"
    (Server.world (Examples.submitted 1)) (Py.Error "CUDA out of memory"))
    (Examples.request_44 "") Server.job_pending _ _)).
  - vm_compute. reflexivity.
  - right. exists Examples.schnell_wrapper. split; vm_compute; reflexivity.
Defined.

(** The text of a [KeyError] is the [repr] of the key. *)
Example key_error_text :
  Py.str_exn (Py.KeyError "job-1") = "'job-1'" ∧
  Py.str_exn (Py.KeyError "it's")
    = String Py.double_quote ("it's" +:+ String Py.double_quote "") ∧
  Py.str_exn (Py.KeyError (String "010"%char "a"))
    = "'" +:+ String Py.backslash "na'".
Proof. repeat split; vm_compute; reflexivity. Qed.

Lemma request_fields_unused_witness :
  @Server.process_image_generation Examples.OUTPUT_DIR Examples.cpu_only
    Examples.flux_backend "job-1" (Examples.request_44 "blurry")
    (Server.world (Examples.submitted 1))
  = @Server.process_image_generation Examples.OUTPUT_DIR Examples.cpu_only
      Examples.flux_backend "job-1" (Examples.request_44 "")
      (Server.world (Examples.submitted 1)).
Proof.
  apply (proj1 (@request_fields_unused Examples.OUTPUT_DIR Examples.cpu_only
    Examples.flux_backend Examples.ltx_backend "job-1"
    (Server.world (Examples.submitted 1)))); reflexivity.
Defined.

(** While the job of the example run waits for its backend, the resident
    image wrapper is the one for [schnell] on the CPU. *)
Lemma residents_spec_witness :
  Flux.model_variant Examples.schnell_wrapper ∈ Flux.keys Flux.FLUX_MODELS ∧
  Flux.device Examples.schnell_wrapper = Flux._detect_device Examples.cpu_only.
Proof.
  destruct (@residents_spec true true Examples.OUTPUT_DIR Examples.cpu_only
    Examples.flux_backend Examples.ltx_backend (Examples.awaiting 1)
    (reachable_awaiting 1)) as (_ & _ & Himg & _).
  assert (Hw : Server.image_wrapper (Server.state (Server.world (Examples.awaiting 1)))
               = Some Examples.schnell_wrapper).
  { vm_compute. reflexivity. }
  destruct (Himg _ Hw) as (Hvariant & _ & Hdevice & _).
  split; [exact Hvariant|exact Hdevice].
Defined.


Lemma served_file_witness :
  Server.download_result "job-1"
    (Server.state (Server.world (Examples.finished 1)))
    (Server.fs (Server.world (Examples.finished 1)))
  = Py.Ok {| Server.path := ["outputs"; "job-1.png"];
             Server.filename := "job-1.png";
             Server.media_type := "image/png" |}.
Proof.
  refine (served_file Examples.OUTPUT_DIR "job-1" ".png"
    (Server.state (Server.world (Examples.finished 1)))
    (Server.fs (Server.world (Examples.finished 1))) _ _ _ _ _).
  - discriminate.
  - apply list_elem_of_here.
  - vm_compute. reflexivity.
  - vm_compute. reflexivity.
  - vm_compute. reflexivity.
Defined.

(* ===================================================================== *)
(** * Further properties: construction and the one-call functions         *)
(* ===================================================================== *)

Lemma below_not_ancestor (dir : Posix.Path) (rest : list string) :
  rest ≠ [] → dir ++ rest ∉ Posix.ancestors_and_self dir.
Proof.
  intros Hrest (n & Hn & Heq)%ancestors_and_self_elem.
  apply (f_equal length) in Heq. rewrite length_app, length_firstn in Heq.
  destruct rest; [done|]. simpl in Heq. lia.
Qed.

(** X23 — Constructing a downloader makes the models directory (the one
    given, else the default) with its ancestors, starts with no active
    download, and changes the downloaded status of no model: the models
    listed as downloaded are those whose markers were on the disk before.
    It succeeds only for a positive number of concurrent downloads.  It
    fails with an [OSError], leaving the disk as it was, exactly when a
    file is in the way of the directory or of one of its ancestors; and
    otherwise it fails with the [ValueError] of the thread pool, after the
    directories were made, exactly when the number of concurrent downloads
    is not positive. *)
Theorem downloader_construction (MODELS_DIR : Posix.Path) (dir : option Posix.Path)
    (max_concurrent : Z) (fs : Posix.FS) :
  (∀ fs' d,
     Downloader.__init__ MODELS_DIR dir max_concurrent fs = (fs', Py.Ok d) →
     0 < max_concurrent ∧
     Downloader.models_dir d = default MODELS_DIR dir ∧
     Downloader.max_concurrent d = max_concurrent ∧
     (∀ a, a ∈ Posix.ancestors_and_self (Downloader.models_dir d) →
        fs' !! a = Some Posix.Dir) ∧
     Downloader.get_active_downloads
       {| Downloader.self := d; Downloader.fs := fs'; Downloader.transfers := [] |} = ∅ ∧
     (∀ model_id,
        Downloader.is_downloaded model_id
          {| Downloader.self := d; Downloader.fs := fs'; Downloader.transfers := [] |}
        = Downloader.is_downloaded model_id
            {| Downloader.self := d; Downloader.fs := fs; Downloader.transfers := [] |}) ∧
     Downloader.get_downloaded_models
       {| Downloader.self := d; Downloader.fs := fs'; Downloader.transfers := [] |}
     = Downloader.get_downloaded_models
         {| Downloader.self := d; Downloader.fs := fs; Downloader.transfers := [] |}) ∧
  (∀ fs' e,
     Downloader.__init__ MODELS_DIR dir max_concurrent fs = (fs', Py.Raise e) →
     (fs' = fs ∧ ∃ msg, e = Py.OSError msg) ∨
     (e = Py.ValueError "max_workers must be greater than 0" ∧
      ∀ a, a ∈ Posix.ancestors_and_self (default MODELS_DIR dir) →
           fs' !! a = Some Posix.Dir)) ∧
  ((∃ fs' msg, Downloader.__init__ MODELS_DIR dir max_concurrent fs
                 = (fs', Py.Raise (Py.OSError msg))) ↔
   ∃ a, a ∈ Posix.ancestors_and_self (default MODELS_DIR dir) ∧
        Posix.is_file fs a = true) ∧
  ((∃ fs', Downloader.__init__ MODELS_DIR dir max_concurrent fs
             = (fs', Py.Raise (Py.ValueError "max_workers must be greater than 0"))) ↔
   (∀ a, a ∈ Posix.ancestors_and_self (default MODELS_DIR dir) →
         Posix.is_file fs a = false) ∧
   max_concurrent ≤ 0).
Proof.
  assert (Hway : existsb (Posix.is_file fs)
                   (Posix.ancestors_and_self (default MODELS_DIR dir)) = true ↔
                 ∃ a, a ∈ Posix.ancestors_and_self (default MODELS_DIR dir) ∧
                      Posix.is_file fs a = true).
  { rewrite existsb_exists. by setoid_rewrite list_elem_of_In. }
  assert (Hfree : existsb (Posix.is_file fs)
                    (Posix.ancestors_and_self (default MODELS_DIR dir)) = false ↔
                  ∀ a, a ∈ Posix.ancestors_and_self (default MODELS_DIR dir) →
                       Posix.is_file fs a = false).
  { rewrite <- not_true_iff_false, Hway. split.
    - intros Hno a Ha. apply not_true_iff_false. intros Hfile. apply Hno. eauto.
    - intros Hall (a & Ha & Hfile). by rewrite (Hall a Ha) in Hfile. }
  unfold Downloader.__init__, Py.bind, Py.ret, Py.raise.
  destruct (Posix.mkdir_parents (default MODELS_DIR dir) fs) as [fs1 r] eqn:Hmk.
  pose proof Hmk as Hmk'. unfold Posix.mkdir_parents in Hmk'.
  destruct (existsb _ _) eqn:Hex.
  - (* a file is in the way *)
    injection Hmk' as <- <-.
    split; [done|]. split; [|split].
    + intros fs' e [= <- <-]. left. eauto.
    + split; [by intros _; apply Hway|]. eauto.
    + split; [by intros [fs' ?]|]. intros [Hall _]. apply Hfree in Hall. done.
  - injection Hmk' as _ <-.
    pose proof (mkdir_parents_Ok _ _ _ Hmk) as Hlook.
    assert (Hmade : ∀ a, a ∈ Posix.ancestors_and_self (default MODELS_DIR dir) →
                         fs1 !! a = Some Posix.Dir).
    { intros a Ha. by rewrite Hlook, decide_True. }
    destruct (max_concurrent <=? 0) eqn:Hworkers.
    + (* the thread pool refuses *)
      apply Z.leb_le in Hworkers.
      split; [done|]. split; [|split].
      * intros fs' e [= <- <-]. right. done.
      * split; [by intros (fs' & msg & ?)|]. intros Hfile. apply Hway in Hfile. done.
      * split; [|eauto]. intros _. split; [by apply Hfree|done].
    + apply Z.leb_gt in Hworkers.
      split; [|split; [done|split]].
      * intros fs' d [= <- <-]. simpl.
        assert (Hsame : ∀ model_id,
          Downloader.is_downloaded model_id
            {| Downloader.self :=
                 {| Downloader.models_dir := default MODELS_DIR dir;
                    Downloader.max_concurrent := max_concurrent;
                    Downloader._active_downloads := ∅ |};
               Downloader.fs := fs1; Downloader.transfers := [] |}
          = Downloader.is_downloaded model_id
              {| Downloader.self :=
                   {| Downloader.models_dir := default MODELS_DIR dir;
                      Downloader.max_concurrent := max_concurrent;
                      Downloader._active_downloads := ∅ |};
                 Downloader.fs := fs; Downloader.transfers := [] |}).
        { intros model_id. unfold Downloader.is_downloaded.
          destruct (Downloader.get_model_info model_id) as [model|]; [|done].
          unfold Posix.path_exists, Downloader.model_dir_of, Downloader.marker_of. simpl.
          rewrite Hlook, <- app_assoc, decide_False; [done|].
          by apply below_not_ancestor. }
        split; [done|]. split; [done|]. split; [done|]. split; [done|].
        split; [unfold Downloader.get_active_downloads; simpl; apply fmap_empty|].
        split; [done|].
        unfold Downloader.get_downloaded_models. simpl. by rewrite !Hsame.
      * split; [by intros (fs' & msg & ?)|]. intros Hfile. apply Hway in Hfile. done.
      * split; [by intros [fs' ?]|]. intros [_ Hle]. lia.
Qed.

Section QuickFlux.
Context (torch : Torch.env) `{Flux.Backend}.

(** X24 — The one-call function [generate_image] of the image module
    refuses an unknown model with [ValueError] before anything is written.
    For [schnell] and [dev] it asks for one image with the prompt, size and
    seed given and with the steps and guidance of the variant policy (4
    and 0.0, or 20 and 3.5).  Let the pipeline of the model load, a
    generator be made for every device, the images be saved, and the
    pipeline deliver for such calls: then it returns the output path, or,
    for an empty output path, the default name made from the seed, when
    there is no seed or a seed [manual_seed] takes; and it raises the
    [RuntimeError] of [manual_seed], with nothing written, when the seed is
    out of range. *)
Theorem quick_generate_image (prompt output_path : string) (width height : Z)
    (model : string) (seed : option Z) (fs : Posix.FS) :
  Flux.saves_succeed →
  (∀ wr, Flux.model_variant wr = model → Flux.load_pipeline wr = Py.Ok tt) →
  (∀ device, Flux.new_generator device = Py.Ok tt) →
  (∀ wr call,
     Flux.model_variant wr = model →
     Flux.call_prompt call = prompt →
     Flux.call_width call = width →
     Flux.call_height call = height →
     Flux.call_generator call = seed →
     Flux.call_num_images_per_prompt call = 1 →
     (model = "schnell" →
        Flux.call_num_inference_steps call = 4 ∧
        Flux.call_guidance_scale call = Py.fzero) →
     (model = "dev" →
        Flux.call_num_inference_steps call = 20 ∧
        Flux.call_guidance_scale call = Py.fl (7 # 2)) →
     ∃ image images, Flux.call_pipeline wr call = Py.Ok (image :: images)) →
  (model ∈ Flux.keys Flux.FLUX_MODELS →
   (∀ s, seed = Some s → Torch.seed_in_range s = true) →
     (Flux.Quick.generate_image torch prompt output_path width height model seed fs).2
       = Py.Ok (Py.Str (if decide (output_path = "")
                        then "output_" +:+ Flux.seed_or_random seed +:+ ".png"
                        else output_path))) ∧
  (model ∈ Flux.keys Flux.FLUX_MODELS →
   ∀ s, seed = Some s → Torch.seed_in_range s = false →
     Flux.Quick.generate_image torch prompt output_path width height model seed fs
       = (fs, Py.Raise (Py.RuntimeError "Overflow when unpacking long"))) ∧
  (model ∉ Flux.keys Flux.FLUX_MODELS →
     ∃ msg,
       Flux.Quick.generate_image torch prompt output_path width height model seed fs
         = (fs, Py.Raise (Py.ValueError msg))).
Proof.
  intros Hsave Hload Hgen Hcalls.
  unfold Flux.Quick.generate_image, Py.bind, Py.lift, Py.ret. split; [|split].
  - intros [id Hid]%flux_dict_get_Some Hrange. unfold Flux.__init__. rewrite Hid.
    cbn beta iota.
    match goal with
    | |- context [Flux.generate_image ?w ?c fs] => set (wr := w); set (config := c)
    end.
    destruct (pipeline_call_fields wr config) as (Hcp & Hcw & Hch & Hcg & Hcn).
    destruct (pipeline_call_defaults wr config eq_refl eq_refl) as [Hschnell Hdev].
    destruct (Hcalls wr _ eq_refl Hcp Hcw Hch Hcg Hcn Hschnell Hdev)
      as (image & images & Hcall).
    rewrite <- flux_pipeline_runs in Hcall; [|by apply Hload|].
    2:{ rewrite Hcg. simpl. destruct seed as [s|]; [|done].
        by apply flux_manual_seed_in_range; [|apply Hrange]. }
    pose proof (generate_image_single wr config image images fs Hsave eq_refl Hcall)
      as Hrun.
    destruct (Flux.generate_image wr config fs) as [fs' r]. simpl in Hrun. subst r.
    reflexivity.
  - intros [id Hid]%flux_dict_get_Some s -> Hrange. unfold Flux.__init__. rewrite Hid.
    cbn beta iota. rewrite !generate_image_pipeline. unfold Py.bind, Py.lift.
    rewrite (flux_pipeline_overflow _ _ s); [done|by apply Hload|done| |done].
    match goal with
    | |- Flux.call_generator (Flux.pipeline_call ?w ?c) = _ =>
        by destruct (pipeline_call_fields w c) as (_ & _ & _ & -> & _)
    end.
  - intros Hnot. unfold Flux.__init__. rewrite (flux_dict_get_None _ Hnot). eauto.
Qed.
End QuickFlux.

Section QuickLTX.
Context (torch : Torch.env) `{LTX.Backend}.

(** X25 — The one-call function [generate_video] of the video module runs
    the distilled model with the prompt, size, frame count and seed given,
    no negative prompt, 50 steps and guidance 7.5, and saves at 24 frames
    per second.  Let the pipeline load and a generator be made for every
    device.  With no seed or a seed [manual_seed] takes: when that call
    delivers and the frames can be saved it returns the output path, or,
    for an empty output path, the default name made from the seed, and a
    failure of the call leaves the disk alone.  With a seed out of range it
    raises the [RuntimeError] of [manual_seed], whatever the call would
    do. *)
Theorem quick_generate_video (prompt output_path : string) (width height num_frames : Z)
    (seed : option Z) (fs : Posix.FS) (outcome : Py.result LTX.Frames) :
  (∀ wr, LTX.model_id wr = LTX.DISTILLED_MODEL → LTX.load_text2video wr = Py.Ok tt) →
  (∀ device, LTX.new_generator device = Py.Ok tt) →
  (∀ wr, LTX.model_id wr = LTX.DISTILLED_MODEL →
     LTX.call_text2video wr
       {| LTX.call_prompt := prompt; LTX.call_negative_prompt := "";
          LTX.call_width := width; LTX.call_height := height;
          LTX.call_num_frames := num_frames;
          LTX.call_num_inference_steps := 50;
          LTX.call_guidance_scale := Py.fl (15 # 2);
          LTX.call_generator := seed |} = outcome) →
  ((∀ s, seed = Some s → Torch.seed_in_range s = true) →
   match outcome with
   | Py.Ok frames =>
       (∀ path fs0, (LTX.save_video frames path 24 fs0).2 = Py.Ok tt) →
       (LTX.Quick.generate_video torch prompt output_path width height num_frames seed
          fs).2
         = Py.Ok (if decide (output_path = "")
                  then "output_" +:+ LTX.seed_or_random seed +:+ ".mp4"
                  else output_path)
   | Py.Raise e =>
       LTX.Quick.generate_video torch prompt output_path width height num_frames seed fs
         = (fs, Py.Raise e)
   end) ∧
  (∀ s, seed = Some s → Torch.seed_in_range s = false →
     LTX.Quick.generate_video torch prompt output_path width height num_frames seed fs
       = (fs, Py.Raise (Py.RuntimeError "Overflow when unpacking long"))).
Proof.
  intros Hload Hgen Hcall.
  unfold LTX.Quick.generate_video, LTX.__init__, Py.bind, Py.lift.
  cbn beta iota. rewrite !generate_video_text2video.
  unfold LTX.pipeline_call, Py.bind, Py.lift, Py.ret.
  cbn beta iota. split.
  - intros Hrange. rewrite ltx_text2video_runs; [|by apply Hload|].
    2:{ simpl. destruct seed as [s|]; [|done].
        by apply ltx_manual_seed_in_range; [|apply Hrange]. }
    simpl. rewrite Hcall by done. destruct outcome as [frames|e]; [|done].
    intros Hsave.
    match goal with
    | |- context [LTX.save_video frames ?p 24 fs] =>
        specialize (Hsave p fs); destruct (LTX.save_video frames p 24 fs) as [fs' r]
    end.
    simpl in Hsave. subst r. simpl. unfold Py.str_or. by destruct (decide _).
  - intros s -> Hrange.
    by rewrite (ltx_text2video_overflow _ _ s); [|by apply Hload|done|done|done].
Qed.
End QuickLTX.

Section VideoJob.
Context (OUTPUT_DIR : Posix.Path) (torch : Torch.env).
Context `{Flux.Backend} `{LTX.Backend}.

End VideoJob.

(** A downloader made on a disk that holds the complete [flux-dev]; and
    one asked for no concurrent download on an empty disk. *)
Lemma downloader_construction_witness :
  Downloader.get_downloaded_models
    {| Downloader.self := Downloader.self (Examples.downloader ∅);
       Downloader.fs := (Downloader.__init__ ["models"] None 2 Examples.fs_complete).1;
       Downloader.transfers := [] |}
  = Downloader.get_downloaded_models
      {| Downloader.self := Downloader.self (Examples.downloader ∅);
         Downloader.fs := Examples.fs_complete;
         Downloader.transfers := [] |} ∧
  ∃ fs', Downloader.__init__ ["models"] None 0 ∅
           = (fs', Py.Raise (Py.ValueError "max_workers must be greater than 0")).
Proof.
  split.
  - destruct (Downloader.__init__ ["models"] None 2 Examples.fs_complete)
      as [fs' r] eqn:Hinit.
    assert (Hr : r = Py.Ok (Downloader.self (Examples.downloader ∅))).
    { apply (f_equal snd) in Hinit. simpl in Hinit. rewrite <- Hinit.
      vm_compute. reflexivity. }
    subst r.
    exact (proj2 (proj2 (proj2 (proj2 (proj2 (proj2
      (proj1 (downloader_construction ["models"] None 2 Examples.fs_complete)
         fs' _ Hinit))))))).
  - apply (proj2 (proj2 (proj2 (proj2 (downloader_construction ["models"] None 0 ∅))))).
    split; [|lia]. intros a Ha. reflexivity.
Defined.

Example downloader_on_complete_disk :
  (Downloader.__init__ ["models"] None 2 Examples.fs_complete).2
    = Py.Ok (Downloader.self (Examples.downloader ∅)) ∧
  Downloader.get_downloaded_models (Examples.downloader Examples.fs_complete)
    = ["flux-dev"].
Proof. split; vm_compute; reflexivity. Qed.

(** The one-call function with the model [dev], against the backend that
    insists on 20 steps and guidance 3.5: without a seed, and with the seed
    [2 ^ 64]. *)
Lemma quick_generate_image_witness :
  (@Flux.Quick.generate_image Examples.cpu_only Examples.flux_backend_strict
     "a lighthouse at dusk" "output.png" 1024 1024 "dev" None ∅).2
  = Py.Ok (Py.Str "output.png") ∧
  @Flux.Quick.generate_image Examples.cpu_only Examples.flux_backend_strict
     "a lighthouse at dusk" "output.png" 1024 1024 "dev" (Some (2 ^ 64)) ∅
  = (∅, Py.Raise (Py.RuntimeError "Overflow when unpacking long")).
Proof.
  assert (Hcalls : ∀ (seed : option Z) wr call,
    Flux.model_variant wr = "dev" →
    Flux.call_prompt call = "a lighthouse at dusk" →
    Flux.call_width call = 1024 →
    Flux.call_height call = 1024 →
    Flux.call_generator call = seed →
    Flux.call_num_images_per_prompt call = 1 →
    ("dev" = "schnell" →
       Flux.call_num_inference_steps call = 4 ∧
       Flux.call_guidance_scale call = Py.fzero) →
    ("dev" = "dev" →
       Flux.call_num_inference_steps call = 20 ∧
       Flux.call_guidance_scale call = Py.fl (7 # 2)) →
    ∃ image images,
      @Flux.call_pipeline Examples.flux_backend_strict wr call = Py.Ok (image :: images)).
  { intros seed wr call Hvariant _ _ _ _ Hn _ Hdev.
    destruct (Hdev eq_refl) as [Hsteps Hguidance].
    exists "PNG", []. simpl. rewrite Hvariant, Hsteps, Hguidance, Hn. reflexivity. }
  split.
  - refine (proj1 (@quick_generate_image Examples.cpu_only Examples.flux_backend_strict
      "a lighthouse at dusk" "output.png" 1024 1024 "dev" None ∅ _ _ _ (Hcalls None))
      _ _).
    + intros image path fs. reflexivity.
    + intros wr _. reflexivity.
    + intros device. reflexivity.
    + apply list_elem_of_further, list_elem_of_here.
    + intros s Hs. discriminate Hs.
  - refine (proj1 (proj2 (@quick_generate_image Examples.cpu_only
      Examples.flux_backend_strict
      "a lighthouse at dusk" "output.png" 1024 1024 "dev" (Some (2 ^ 64)) ∅ _ _ _
      (Hcalls (Some (2 ^ 64))))) _ (2 ^ 64) eq_refl eq_refl).
    + intros image path fs. reflexivity.
    + intros wr _. reflexivity.
    + intros device. reflexivity.
    + apply list_elem_of_further, list_elem_of_here.
Defined.

(** The one-call function for videos with the seed 7, and with the seed
    [- 2 ^ 63 - 1]. *)
Lemma quick_generate_video_witness :
  (@LTX.Quick.generate_video Examples.cpu_only Examples.ltx_backend
     "waves" "" 768 512 97 (Some 7) ∅).2
  = Py.Ok "output_7.mp4" ∧
  @LTX.Quick.generate_video Examples.cpu_only Examples.ltx_backend
     "waves" "" 768 512 97 (Some (- 2 ^ 63 - 1)) ∅
  = (∅, Py.Raise (Py.RuntimeError "Overflow when unpacking long")).
Proof.
  split.
  - refine (proj1 (@quick_generate_video Examples.cpu_only Examples.ltx_backend
      "waves" "" 768 512 97 (Some 7) ∅ (Py.Ok "MP4") _ _ _) _ _).
    + intros wr _. reflexivity.
    + intros device. reflexivity.
    + intros wr _. reflexivity.
    + intros s [= <-]. reflexivity.
    + intros path fs0. reflexivity.
  - refine (proj2 (@quick_generate_video Examples.cpu_only Examples.ltx_backend
      "waves" "" 768 512 97 (Some (- 2 ^ 63 - 1)) ∅ (Py.Ok "MP4") _ _ _)
      (- 2 ^ 63 - 1) eq_refl eq_refl).
    + intros wr _. reflexivity.
    + intros device. reflexivity.
    + intros wr _. reflexivity.
Defined.


(** With the hub that delivers, the first call makes the transfer. *)
Example ensure_model_downloaded_online :
  @Flux.ensure_model_downloaded ["models"; "flux"] Examples.flux_hub_online
    Examples.dev_wrapper ∅
  = (<[["models"; "flux"; "dev"; "model.safetensors"]
         := Posix.File "black-forest-labs/FLUX.1-dev"]>
       (<[["models"] := Posix.Dir]>
          (<[["models"; "flux"] := Posix.Dir]>
             {[ ["models"; "flux"; "dev"] := Posix.Dir ]})),
     Py.Ok ["models"; "flux"; "dev"]).
Proof. vm_compute. reflexivity. Qed.

(* ===================================================================== *)
(** * Further properties: device and precision                            *)
(* ===================================================================== *)

(** X27 — Both constructors choose device and precision in the same way.
    A device given (and not the empty string) is kept, otherwise [cuda] is
    preferred to [mps] and [mps] to [cpu], by what the machine has.  A
    precision given is kept; otherwise it follows the device the wrapper
    ends up with, not the machine: [bfloat16] exactly on [cuda] with
    bfloat16 support, [float16] on [cuda] without it and on [mps],
    [float32] on every other device. *)
Theorem device_dtype_policy (torch : Torch.env) (variant model_id : string)
    (device : option string) (dtype : option Torch.dtype) (offload : bool)
    (w : Flux.FluxWrapper) :
  Flux.__init__ torch variant device dtype offload = Py.Ok w →
  (∃ v, LTX.__init__ torch model_id device dtype offload = Py.Ok v ∧
        LTX.device v = Flux.device w ∧ LTX.dtype v = Flux.dtype w) ∧
  (∀ d, device = Some d → d ≠ "" → Flux.device w = d) ∧
  (device = None ∨ device = Some "" →
     Flux.device w =
       if Torch.cuda_is_available torch then "cuda"
       else if Torch.mps_is_available torch then "mps" else "cpu") ∧
  (∀ t, dtype = Some t → Flux.dtype w = t) ∧
  (dtype = None →
     (Flux.dtype w = Torch.bfloat16 ↔
        Flux.device w = "cuda" ∧ Torch.cuda_is_bf16_supported torch = true) ∧
     (Flux.dtype w = Torch.float16 ↔
        (Flux.device w = "cuda" ∧ Torch.cuda_is_bf16_supported torch = false) ∨
        Flux.device w = "mps") ∧
     (Flux.dtype w = Torch.float32 ↔
        Flux.device w ≠ "cuda" ∧ Flux.device w ≠ "mps")).
Proof.
  unfold Flux.__init__, LTX.__init__.
  destruct (Flux.dict_get Flux.FLUX_MODELS variant) as [id|]; [|done].
  intros [= <-]. simpl. split; [eauto|]. split; [|split; [|split]].
  - intros d -> Hd. simpl. by rewrite decide_False.
  - intros [-> | ->]; done.
  - by intros t ->.
  - intros ->. simpl. unfold Flux._get_optimal_dtype.
    destruct (decide (Py.str_or device (Flux._detect_device torch) = "cuda")) as [Hc|Hc].
    + rewrite Hc. destruct (Torch.cuda_is_bf16_supported torch);
        repeat split; try done; intros; try tauto;
        repeat match goal with H : _ ∧ _ |- _ => destruct H | H : _ ∨ _ |- _ => destruct H end;
        try done; auto.
    + destruct (decide (Py.str_or device (Flux._detect_device torch) = "mps")) as [Hm|Hm].
      * rewrite Hm. repeat split; try done; intros; try tauto;
          repeat match goal with H : _ ∧ _ |- _ => destruct H | H : _ ∨ _ |- _ => destruct H end;
          try done; auto.
      * repeat split; try done; intros; try tauto;
          repeat match goal with H : _ ∧ _ |- _ => destruct H | H : _ ∨ _ |- _ => destruct H end;
          try done; auto.
Qed.

(** On a machine with CUDA and bfloat16, a wrapper asked to run on the CPU
    computes in [float32]. *)
Lemma device_dtype_policy_witness :
  Flux.__init__ Examples.cuda_bf16 "dev" (Some "cpu") None true
    = Py.Ok Examples.dev_wrapper ∧
  (Flux.dtype Examples.dev_wrapper = Torch.float32 ↔
     Flux.device Examples.dev_wrapper ≠ "cuda" ∧
     Flux.device Examples.dev_wrapper ≠ "mps").
Proof.
  split; [reflexivity|].
  exact (proj2 (proj2 (proj2 (proj2 (proj2 (proj2
    (device_dtype_policy Examples.cuda_bf16 "dev" LTX.DISTILLED_MODEL
       (Some "cpu") None true Examples.dev_wrapper eq_refl)))) eq_refl))).
Defined.
